(** * The booking availability engine of the hotel backend

    A shallow embedding of [src/services/bookingService.js],
    [src/controllers/bookingController.js] and the availability query of
    [src/services/roomsService.js].

    The database client is an external collaborator.  The bookings table is
    modelled as the list of its rows in insertion order, the rooms table as a
    finite map from room id to room row.  Asynchronous service methods become
    functions in a state-and-error monad over the [World]; a request runs to
    completion before the next one starts (no interleaving).  The store is
    taken to be reliable: a query fails only where the client reports that
    [.single()] did not find exactly one row. *)

From Stdlib Require Import ZArith QArith Ascii String.
From stdpp Require Import base option list strings pretty gmap sorting.

(** ** JavaScript values used by the code *)

Module Js.

(** Truthiness of a string: only the empty string is falsy. *)
Definition truthy (s : string) : bool :=
  match s with
  | EmptyString => false
  | String _ _ => true
  end.

(** Truthiness of a possibly [undefined] string. *)
Definition truthy_opt (o : option string) : bool :=
  match o with
  | Some s => truthy s
  | None => false
  end.

(** [a || b] where [a] may be [undefined] and [b] is a string. *)
Definition or_else (a : option string) (b : string) : string :=
  match a with
  | Some s => if truthy s then s else b
  | None => b
  end.

(** [a || null]. *)
Definition or_null (a : option string) : option string :=
  match a with
  | Some s => if truthy s then Some s else None
  | None => None
  end.

(** A value of a JSON request body; a missing key is modelled by [None]
    around it.  Numbers are rationals.  An array or an object is kept as the
    string it converts to ([String(v)]), which is all a comparison looks
    at. *)
Inductive value : Type :=
| Null
| Bool (b : bool)
| Num (q : Q)
| Str (s : string)
| Obj (primitive : string).

(** [!v] *)
Definition falsy (v : value) : bool :=
  match v with
  | Null => true
  | Bool b => negb b
  | Num q => Qeq_bool q 0
  | Str s => negb (truthy s)
  | Obj _ => false
  end.

(** [Number(v)], given [Number] on strings; [None] is [NaN]. *)
Definition value_to_number (string_to_number : string → option Q) (v : value)
    : option Q :=
  match v with
  | Null => Some 0%Q
  | Bool b => Some (if b then 1%Q else 0%Q)
  | Num q => Some q
  | Str s => string_to_number s
  | Obj s => string_to_number s
  end.

(** [v <= 0]: both sides are converted to numbers, and a comparison with
    [NaN] is false. *)
Definition le_zero (string_to_number : string → option Q) (v : value) : bool :=
  match value_to_number string_to_number v with
  | Some q => Qle_bool q 0
  | None => false
  end.

(** [Number(x)] for a column that holds an integer or [null]. *)
Definition to_number (x : option Z) : Z :=
  match x with
  | Some z => z
  | None => 0%Z
  end.

(** Template-literal rendering of an integer-or-null column. *)
Definition show (x : option Z) : string :=
  match x with
  | Some z => pretty z
  | None => "null"
  end.

(** [s2.startsWith(s1)]. *)
Fixpoint starts_with (s1 s2 : string) : bool :=
  match s1, s2 with
  | EmptyString, _ => true
  | String _ _, EmptyString => false
  | String a s1', String b s2' => if Ascii.eqb a b then starts_with s1' s2' else false
  end.

(** [hay.includes(needle)]. *)
Fixpoint includes (needle hay : string) : bool :=
  starts_with needle hay ||
  match hay with
  | EmptyString => false
  | String _ hay' => includes needle hay'
  end.

(** [arr.join(sep)]. *)
Fixpoint join (sep : string) (arr : list string) : string :=
  match arr with
  | [] => ""
  | [x] => x
  | x :: rest => x +:+ sep +:+ join sep rest
  end.

(** [[...new Set(arr)]]: first occurrences, in insertion order. *)
Fixpoint set_add (seen : list string) (x : string) : list string :=
  match seen with
  | [] => [x]
  | y :: seen' => if String.eqb y x then seen else y :: set_add seen' x
  end.

Definition new_Set (arr : list string) : list string :=
  fold_left set_add arr [].

Definition is_hex (c : ascii) : bool :=
  let n := nat_of_ascii c in
  ((48 <=? n) && (n <=? 57)) || ((97 <=? n) && (n <=? 102)) || ((65 <=? n) && (n <=? 70)).

(** Match [n] hexadecimal digits and hand the rest to [k]. *)
Fixpoint hex_run (n : nat) (k : string → bool) (s : string) : bool :=
  match n with
  | O => k s
  | S n' =>
      match s with
      | String c s' => is_hex c && hex_run n' k s'
      | EmptyString => false
      end
  end.

Definition dash (k : string → bool) (s : string) : bool :=
  match s with
  | String c s' => Ascii.eqb c "-" && k s'
  | EmptyString => false
  end.

Definition at_end (s : string) : bool :=
  match s with
  | EmptyString => true
  | String _ _ => false
  end.

(** [/^[0-9a-f]{8}-[0-9a-f]{4}-[0-9a-f]{4}-[0-9a-f]{4}-[0-9a-f]{12}$/i.test(s)]. *)
Definition uuidRegex_test (s : string) : bool :=
  hex_run 8 (dash (hex_run 4 (dash (hex_run 4 (dash (hex_run 4 (dash (hex_run 12 at_end)))))))) s.

End Js.

Global Instance Q_eq_dec : EqDecision Q.
Proof. solve_decision. Defined.

Global Instance value_eq_dec : EqDecision Js.value.
Proof. solve_decision. Defined.

(** ** Rows of the two tables *)

(** A row of [rooms]; only the inventory column is read by the engine. *)
Record Room := mkRoom {
  total_rooms : option Z
}.

(** A row of [bookings].  [check_in] and [check_out] are the columns the
    rooms service filters on; the booking service never writes them. *)
Record Booking := mkBooking {
  id : string;
  user_id : string;
  hotel_id : string;
  room_id : string;
  date : string;
  price : Js.value;
  note : option string;
  status : string;
  create_at : string;
  check_in : option string;
  check_out : option string
}.

Global Instance Booking_eq_dec : EqDecision Booking.
Proof. solve_decision. Defined.

(** The persisted state together with the two sources of fresh values the
    service draws from: how many UUIDs have been generated and how many times
    the clock has been read. *)
Record World := mkWorld {
  bookings : list Booking;
  rooms : gmap string Room;
  uuid_calls : nat;
  clock_reads : nat
}.

(** What the code takes from its environment. *)
Record Env := mkEnv {
  (** the [k]-th value returned by [uuidv4()] *)
  uuidv4 : nat → string;
  (** the [k]-th value of [new Date().toISOString()] *)
  toISOString : nat → string;
  (** the message of the error [.single()] reports when the query did not
      yield exactly one row *)
  single_error : string;
  (** [new Date(s).getTime()]; [None] is [NaN] *)
  getTime : string → option Z;
  (** [Number(s)] for a string; [None] is [NaN] *)
  toNumber : string → option Q;
  (** local midnight of the current day, in milliseconds *)
  today : Z
}.

(** The [{ success, data | error }] objects returned by the services. *)
Inductive Result (A : Type) : Type :=
| Success (data : A)
| Failure (error : string).
Arguments Success {A} data.
Arguments Failure {A} error.

(** Computations that read and write the world and may throw. *)
Definition M (A : Type) : Type := World → Result A * World.

Definition ret {A} (a : A) : M A := λ w, (Success a, w).

Definition throw {A} (msg : string) : M A := λ w, (Failure msg, w).

Definition bind {A B} (m : M A) (k : A → M B) : M B :=
  λ w, match m w with
       | (Success a, w') => k a w'
       | (Failure e, w') => (Failure e, w')
       end.

Notation "'let!' x ':=' m 'in' k" := (bind m (λ x, k))
  (at level 10, x name, m at level 100, k at level 200).

Notation "m1 ';;' m2" := (bind m1 (λ _, m2))
  (at level 100, m2 at level 200, right associativity).

(** ** The queries the services issue *)

Module Db.

(** [.from("rooms").select(...).eq("id", room_id).single()] *)
Definition room_single (env : Env) (room_id : string) (w : World) : Result Room :=
  match rooms w !! room_id with
  | Some r => Success r
  | None => Failure (single_error env)
  end.

(** [.single()] applied to the rows a query returned. *)
Definition single (env : Env) (rows : list Booking) : Result Booking :=
  match rows with
  | [b] => Success b
  | _ => Failure (single_error env)
  end.

Definition has_id (i : string) (b : Booking) : Prop := id b = i.

Global Instance has_id_dec i b : Decision (has_id i b).
Proof. unfold has_id. apply _. Defined.

(** [.from("bookings").select(...).eq("id", id)] *)
Definition by_id (i : string) (w : World) : list Booking :=
  filter (has_id i) (bookings w).

(** [.eq("room_id", r).eq("date", d).eq("status", "active")] *)
Definition active_on (r d : string) (b : Booking) : Prop :=
  room_id b = r ∧ date b = d ∧ status b = "active".

Global Instance active_on_dec r d b : Decision (active_on r d b).
Proof. unfold active_on. apply _. Defined.

(** [.neq("id", e)] *)
Definition other_than (e : string) (b : Booking) : Prop := id b ≠ e.

Global Instance other_than_dec e b : Decision (other_than e b).
Proof. unfold other_than. apply _. Defined.

(** [.insert(rows)]: the rows are appended to the table. *)
Definition insert (rows : list Booking) (w : World) : World :=
  mkWorld (bookings w ++ rows) (rooms w) (uuid_calls w) (clock_reads w).

(** [.update(patch).eq("id", i)]: every row with that id is rewritten. *)
Definition update (patch : Booking → Booking) (i : string) (w : World) : World :=
  mkWorld (map (λ b, if decide (has_id i b) then patch b else b) (bookings w))
          (rooms w) (uuid_calls w) (clock_reads w).

End Db.

(** ** Request and response shapes of the booking service *)

(** The object returned by a successful availability check. *)
Record AvailabilityResult := mkAvailability {
  isAvailable : bool;
  totalRooms : option Z;
  currentBookings : nat;
  availableRooms : Z
}.

(** The argument of [createBooking]. *)
Record BookingData := mkBookingData {
  bd_user_id : string;
  bd_hotel_id : string;
  bd_room_id : string;
  bd_date : string;
  bd_price : Js.value;
  bd_note : option string
}.

(** The argument of [createMultipleBookings]. *)
Record MultiBookingData := mkMultiBookingData {
  mb_user_id : string;
  mb_hotel_id : string;
  mb_room_id : string;
  mb_dates : list string;
  mb_price : Js.value;
  mb_note : option string
}.

(** An entry of [unavailableDates]. *)
Record UnavailableDate := mkUnavailable {
  ud_date : string;
  ud_totalRooms : option Z;
  ud_currentBookings : nat
}.

(** What a successful [createMultipleBookings] returns besides [success]. *)
Record MultiResult := mkMultiResult {
  mr_data : list Booking;
  mr_count : nat;
  mr_dates : list string
}.

(** The argument of [updateBooking]; [None] is a key that is absent (or
    [undefined]).  A note can be set to [null]; the price is any JSON
    value. *)
Record UpdateData := mkUpdateData {
  u_price : option Js.value;
  u_note : option (option string);
  u_status : option string;
  u_room_id : option string;
  u_date : option string
}.

Definition dquote : string := String (ascii_of_nat 34) EmptyString.

Module BookingService.

Section Service.

Variable env : Env.

Definition read {A} (q : World → A) : M A := λ w, (Success (q w), w).

Definition write (f : World → World) : M unit := λ w, (Success tt, f w).

(** [const r = await this.method(...)]: the callee has its own try/catch and
    hands back a result object instead of throwing. *)
Definition await {A} (m : M A) : M (Result A) :=
  λ w, let '(r, w') := m w in (Success r, w').

(** [uuidv4()] *)
Definition new_uuid : M string :=
  λ w, (Success (uuidv4 env (uuid_calls w)),
        mkWorld (bookings w) (rooms w) (S (uuid_calls w)) (clock_reads w)).

(** [new Date().toISOString()] *)
Definition now_iso : M string :=
  λ w, (Success (toISOString env (clock_reads w)),
        mkWorld (bookings w) (rooms w) (uuid_calls w) (S (clock_reads w))).

Definition getBookingById (i : string) : M Booking :=
  let! rows := read (Db.by_id i) in
  match Db.single env rows with
  | Failure error => throw ("Booking not found: " +:+ error)
  | Success data => ret data
  end.

(** The count query of [checkRoomAvailability], built up the way the source
    chains the filters. *)
Definition count_query (r d : string) (excludeBookingId : option string)
    (w : World) : nat :=
  let query := filter (Db.active_on r d) (bookings w) in
  let query :=
    match excludeBookingId with
    | Some e => if Js.truthy e then filter (Db.other_than e) query else query
    | None => query
    end in
  length query.

Definition checkRoomAvailability (r d : string) (excludeBookingId : option string)
    : M AvailabilityResult :=
  let! room := read (Db.room_single env r) in
  match room with
  | Failure roomError => throw ("Room not found: " +:+ roomError)
  | Success roomData =>
      let totalRooms := total_rooms roomData in
      let! count := read (count_query r d excludeBookingId) in
      let isAvailable := (Z.of_nat count <? Js.to_number totalRooms)%Z in
      ret {| isAvailable := isAvailable;
             totalRooms := totalRooms;
             currentBookings := count;
             availableRooms := (Js.to_number totalRooms - Z.of_nat count)%Z |}
  end.

Definition fully_booked_message (d : string) (a : AvailabilityResult) : string :=
  "Room is fully booked for " +:+ d +:+ ". Available rooms: " +:+ Js.show (totalRooms a)
  +:+ ", Current bookings: " +:+ pretty (currentBookings a).

(** The row both creation paths build for one date. *)
Definition new_booking (user hotel room d : string) (p : Js.value) (n : option string)
    : M Booking :=
  let! uuid := new_uuid in
  let! now := now_iso in
  ret {| id := uuid;
         user_id := user;
         hotel_id := hotel;
         room_id := room;
         date := d;
         price := p;
         note := Js.or_null n;
         status := "active";
         create_at := now;
         check_in := None;
         check_out := None |}.

Definition createBooking (bookingData : BookingData) : M Booking :=
  let! availabilityCheck :=
    await (checkRoomAvailability (bd_room_id bookingData) (bd_date bookingData) None) in
  match availabilityCheck with
  | Failure error => throw error
  | Success a =>
      if negb (isAvailable a) then
        throw (fully_booked_message (bd_date bookingData) a)
      else
        let! newBooking :=
          new_booking (bd_user_id bookingData) (bd_hotel_id bookingData)
                      (bd_room_id bookingData) (bd_date bookingData)
                      (bd_price bookingData) (bd_note bookingData) in
        write (Db.insert [newBooking]) ;;
        ret newBooking
  end.

(** The validation loop of [createMultipleBookings]. *)
Fixpoint check_dates (r : string) (dates : list string)
    (unavailableDates : list UnavailableDate) : M (list UnavailableDate) :=
  match dates with
  | [] => ret unavailableDates
  | d :: rest =>
      let! availabilityCheck := await (checkRoomAvailability r d None) in
      match availabilityCheck with
      | Failure error => throw error
      | Success a =>
          check_dates r rest
            (if negb (isAvailable a) then
               unavailableDates ++ [mkUnavailable d (totalRooms a) (currentBookings a)]
             else unavailableDates)
      end
  end.

Definition unavailable_item (item : UnavailableDate) : string :=
  ud_date item +:+ " (Available: " +:+ Js.show (ud_totalRooms item)
  +:+ ", Current: " +:+ pretty (ud_currentBookings item) +:+ ")".

(** [dates.map((date) => ({ id: uuidv4(), ... }))] *)
Fixpoint bookings_to_insert (user hotel room : string) (p : Js.value) (n : option string)
    (dates : list string) : M (list Booking) :=
  match dates with
  | [] => ret []
  | d :: rest =>
      let! b := new_booking user hotel room d p n in
      let! bs := bookings_to_insert user hotel room p n rest in
      ret (b :: bs)
  end.

Definition createMultipleBookings (bookingData : MultiBookingData) : M MultiResult :=
  let dates := mb_dates bookingData in
  if bool_decide (length dates = 0) then throw "dates must be a non-empty array"
  else
    let! unavailableDates := check_dates (mb_room_id bookingData) dates [] in
    if bool_decide (0 < length unavailableDates) then
      let errorMessage := Js.join ", " (map unavailable_item unavailableDates) in
      throw ("Room is fully booked for these dates: " +:+ errorMessage)
    else
      let! bookingsToInsert :=
        bookings_to_insert (mb_user_id bookingData) (mb_hotel_id bookingData)
          (mb_room_id bookingData) (mb_price bookingData) (mb_note bookingData) dates in
      write (Db.insert bookingsToInsert) ;;
      ret {| mr_data := bookingsToInsert;
             mr_count := length bookingsToInsert;
             mr_dates := dates |}.

(** [.update(cleanData)] on one row. *)
Definition apply_update (cleanData : UpdateData) (b : Booking) : Booking :=
  {| id := id b;
     user_id := user_id b;
     hotel_id := hotel_id b;
     room_id := default (room_id b) (u_room_id cleanData);
     date := default (date b) (u_date cleanData);
     price := default (price b) (u_price cleanData);
     note := default (note b) (u_note cleanData);
     status := default (status b) (u_status cleanData);
     create_at := create_at b;
     check_in := check_in b;
     check_out := check_out b |}.

Definition status_rejected (cleanData : UpdateData) : bool :=
  match u_status cleanData with
  | Some s => Js.truthy s && negb (bool_decide (s ∈ ["active"; "cancel"]))
  | None => false
  end.

Definition status_message : string :=
  "Status must be either " +:+ dquote +:+ "active" +:+ dquote +:+ " or "
  +:+ dquote +:+ "cancel" +:+ dquote.

Definition updateBooking (i : string) (updateData : UpdateData) : M Booking :=
  let cleanData := updateData in
  (if status_rejected cleanData then throw status_message else ret tt) ;;
  (if Js.truthy_opt (u_room_id cleanData) || Js.truthy_opt (u_date cleanData) then
     let! currentBooking := await (getBookingById i) in
     match currentBooking with
     | Failure _ => throw "Booking not found"
     | Success current =>
         let r := Js.or_else (u_room_id cleanData) (room_id current) in
         let d := Js.or_else (u_date cleanData) (date current) in
         let! availabilityCheck := await (checkRoomAvailability r d (Some i)) in
         match availabilityCheck with
         | Failure error => throw error
         | Success a =>
             if negb (isAvailable a) then throw (fully_booked_message d a)
             else ret tt
         end
     end
   else ret tt) ;;
  write (Db.update (apply_update cleanData) i) ;;
  let! rows := read (Db.by_id i) in
  match Db.single env rows with
  | Failure error => throw ("Failed to update booking: " +:+ error)
  | Success data => ret data
  end.

Definition set_cancel (b : Booking) : Booking :=
  apply_update (mkUpdateData None None (Some "cancel") None None) b.

Definition cancelBooking (i : string) : M Booking :=
  write (Db.update set_cancel i) ;;
  let! rows := read (Db.by_id i) in
  match Db.single env rows with
  | Failure error => throw ("Failed to cancel booking: " +:+ error)
  | Success data => ret data
  end.

End Service.

End BookingService.

(** ** The HTTP-facing controller *)

(** The JSON body of [POST /api/bookings]; [None] is a missing key.  The
    identifiers, the dates and the note are strings; the price is any JSON
    value, since the code compares it without looking at its type. *)
Record CreateBody := mkCreateBody {
  cb_user_id : option string;
  cb_hotel_id : option string;
  cb_room_id : option string;
  cb_date : option string;
  cb_dates : option (list string);
  cb_price : option Js.value;
  cb_note : option string
}.

(** What the controller sends back: the HTTP status and the JSON payload. *)
Record Response := mkResponse {
  res_status : nat;
  res_success : bool;
  res_message : string;
  res_errors : list string;
  res_data : list Booking
}.

Module BookingController.

Section Controller.

Variable env : Env.

(** [if (c) errors.push(msg)] *)
Definition push_if (c : bool) (msg : string) (errors : list string) : list string :=
  if c then errors ++ [msg] else errors.

(** [v && !uuidRegex.test(v)] *)
Definition present_not_uuid (v : option string) : bool :=
  match v with
  | Some s => Js.truthy s && negb (Js.uuidRegex_test s)
  | None => false
  end.

(** [isNaN(new Date(s).getTime())] *)
Definition invalid_date (s : string) : bool :=
  match getTime env s with
  | Some _ => false
  | None => true
  end.

(** [new Date(s) < today] *)
Definition before_today (s : string) : bool :=
  match getTime env s with
  | Some t => (t <? today env)%Z
  | None => false
  end.

Definition isMultipleDates (body : CreateBody) : bool :=
  match cb_dates body with
  | Some (_ :: _) => true
  | _ => false
  end.

Definition isSingleDate (body : CreateBody) : bool :=
  Js.truthy_opt (cb_date body) && negb (isMultipleDates body).

(** [dates.forEach((dateStr, index) => ...)] *)
Fixpoint validate_dates (index : nat) (dates : list string) (errors : list string)
    : list string :=
  match dates with
  | [] => errors
  | dateStr :: rest =>
      validate_dates (S index) rest
        (if invalid_date dateStr then
           errors ++ ["dates[" +:+ pretty index +:+ "] must be valid date"]
         else if before_today dateStr then
           errors ++ ["dates[" +:+ pretty index +:+ "] cannot be in the past"]
         else errors)
  end.

(** The [errors] array of [createBooking] when validation is over. *)
Definition create_errors (body : CreateBody) : list string :=
  let errors := [] in
  let errors := push_if (negb (Js.truthy_opt (cb_user_id body))) "user_id is required" errors in
  let errors := push_if (negb (Js.truthy_opt (cb_hotel_id body))) "hotel_id is required" errors in
  let errors := push_if (negb (Js.truthy_opt (cb_room_id body))) "room_id is required" errors in
  let errors :=
    push_if (match cb_price body with
             | Some p => Js.falsy p || Js.le_zero (toNumber env) p
             | None => true
             end) "price must be greater than 0" errors in
  let errors := push_if (present_not_uuid (cb_user_id body)) "user_id must be valid UUID" errors in
  let errors := push_if (present_not_uuid (cb_hotel_id body)) "hotel_id must be valid UUID" errors in
  let errors := push_if (present_not_uuid (cb_room_id body)) "room_id must be valid UUID" errors in
  let errors :=
    if isSingleDate body then
      let d := default "" (cb_date body) in
      let errors := push_if (invalid_date d) "date must be valid date" errors in
      push_if (before_today d) "date cannot be in the past" errors
    else errors in
  if isMultipleDates body then
    let dates := default [] (cb_dates body) in
    let errors := push_if (bool_decide (30 < length dates)) "maximum 30 dates allowed per booking" errors in
    let errors := validate_dates 0 dates errors in
    let uniqueDates := Js.new_Set dates in
    push_if (negb (bool_decide (length uniqueDates = length dates)))
      "duplicate dates are not allowed" errors
  else errors.

Definition reply (code : nat) (ok : bool) (msg : string) (errors : list string)
    (data : list Booking) : Response :=
  mkResponse code ok msg errors data.

(** Everything [createBooking] does before it first calls the service:
    [Some] response when the request is turned away. *)
Definition create_gate (body : CreateBody) : option Response :=
  if negb (isSingleDate body) && negb (isMultipleDates body) then
    Some (reply 400 false "Either 'date' (string) or 'dates' (array) must be provided" [] [])
  else
    let errors := create_errors body in
    if bool_decide (0 < length errors) then
      Some (reply 400 false "Validation failed" errors [])
    else None.

(** The chain of [if (result.error.includes(marker)) return res.status(code)]
    that ends in status 500. *)
Fixpoint failure_status (markers : list (string * nat)) (error : string) : nat :=
  match markers with
  | [] => 500
  | (marker, code) :: rest =>
      if Js.includes marker error then code else failure_status rest error
  end.

Definition createBooking (body : CreateBody) (w : World) : Response * World :=
  match create_gate body with
  | Some res => (res, w)
  | None =>
      let user := default "" (cb_user_id body) in
      let hotel := default "" (cb_hotel_id body) in
      let room := default "" (cb_room_id body) in
      let p := default Js.Null (cb_price body) in
      if isSingleDate body then
        match BookingService.createBooking env
                (mkBookingData user hotel room (default "" (cb_date body)) p (cb_note body)) w with
        | (Failure error, w') =>
            (reply (failure_status [("fully booked", 409)] error) false error [] [], w')
        | (Success data, w') =>
            (reply 201 true "Booking created successfully" [] [data], w')
        end
      else
        match BookingService.createMultipleBookings env
                (mkMultiBookingData user hotel room (default [] (cb_dates body)) p (cb_note body)) w with
        | (Failure error, w') =>
            (reply (failure_status [("fully booked", 409)] error) false error [] [], w')
        | (Success result, w') =>
            (reply 201 true
               (pretty (mr_count result) +:+ " bookings created successfully for "
                +:+ pretty (length (mr_dates result)) +:+ " dates")
               [] (mr_data result), w')
        end
  end.

(** The [errors] array of [updateBooking]. *)
Definition update_errors (body : UpdateData) : list string :=
  let errors := [] in
  let errors :=
    push_if (match u_price body with
             | Some p => Js.le_zero (toNumber env) p
             | None => false
             end) "price must be greater than 0" errors in
  let errors :=
    push_if (match u_status body with
             | Some s => negb (bool_decide (s ∈ ["active"; "cancel"]))
             | None => false
             end) ("status must be either " +:+ dquote +:+ "active" +:+ dquote +:+ " or "
                   +:+ dquote +:+ "cancel" +:+ dquote) errors in
  let errors :=
    push_if (match u_room_id body with
             | Some r => negb (Js.uuidRegex_test r)
             | None => false
             end) "room_id must be valid UUID" errors in
  match u_date body with
  | Some d =>
      let errors := push_if (invalid_date d) "date must be valid date" errors in
      push_if (before_today d) "date cannot be in the past" errors
  | None => errors
  end.

Definition no_fields (body : UpdateData) : bool :=
  match u_price body, u_note body, u_status body, u_room_id body, u_date body with
  | None, None, None, None, None => true
  | _, _, _, _, _ => false
  end.

(** Everything [updateBooking] does before it calls the service. *)
Definition update_gate (i : string) (body : UpdateData) : option Response :=
  if negb (Js.uuidRegex_test i) then
    Some (reply 400 false "Invalid booking ID format" [] [])
  else
    let errors := update_errors body in
    if bool_decide (0 < length errors) then
      Some (reply 400 false "Validation failed" errors [])
    else if no_fields body then
      Some (reply 400 false "No fields to update" [] [])
    else None.

Definition updateBooking (i : string) (body : UpdateData) (w : World)
    : Response * World :=
  match update_gate i body with
  | Some res => (res, w)
  | None =>
      match BookingService.updateBooking env i body w with
      | (Failure error, w') =>
          (reply (failure_status [("not found", 404); ("fully booked", 409)] error)
             false error [] [], w')
      | (Success data, w') =>
          (reply 200 true "Booking updated successfully" [] [data], w')
      end
  end.

Definition cancelBooking (i : string) (w : World) : Response * World :=
  if negb (Js.uuidRegex_test i) then
    (reply 400 false "Invalid booking ID format" [] [], w)
  else
    match BookingService.cancelBooking env i w with
    | (Failure error, w') =>
        (reply (failure_status [("not found", 404)] error) false error [] [], w')
    | (Success data, w') =>
        (reply 200 true "Booking cancelled successfully" [] [data], w')
    end.

End Controller.

End BookingController.

(** ** The availability query of the rooms service *)

(** The [data] object of a successful [RoomsService.checkRoomAvailability],
    without the display names. *)
Record RoomAvailability := mkRoomAvailability {
  ra_totalRooms : option Z;
  ra_bookedRooms : nat;
  ra_availableRooms : Z;
  ra_isAvailable : bool
}.

Module RoomsService.

Section Service.

Variable env : Env.

(** How the store orders two dates ([lte]/[gte] on the date columns). *)
Variable date_le : string → string → bool.

(** [.in("status", ["confirmed", "checked_in"])] *)
Definition in_status (b : Booking) : Prop :=
  status b ∈ ["confirmed"; "checked_in"].

(** [and(check_in.lte.checkOutDate, check_out.gte.checkInDate)]; a [null]
    column satisfies neither comparison. *)
Definition overlaps (checkInDate checkOutDate : string) (b : Booking) : bool :=
  match check_in b, check_out b with
  | Some ci, Some co => date_le ci checkOutDate && date_le checkInDate co
  | _, _ => false
  end.

Definition booked_query (r checkInDate checkOutDate : string) (w : World) : nat :=
  length (filter (λ b, room_id b = r ∧ in_status b
                       ∧ overlaps checkInDate checkOutDate b = true) (bookings w)).

Definition checkRoomAvailability (r checkInDate checkOutDate : string)
    : M RoomAvailability :=
  let! room := BookingService.read (Db.room_single env r) in
  match room with
  | Failure roomError => throw ("Room not found: " +:+ roomError)
  | Success room =>
      match total_rooms room with
      | None | Some 0%Z => throw "Room total count not set - cannot check availability"
      | Some total =>
          let! bookedRooms := BookingService.read (booked_query r checkInDate checkOutDate) in
          let availableRooms := (total - Z.of_nat bookedRooms)%Z in
          ret {| ra_totalRooms := Some total;
                 ra_bookedRooms := bookedRooms;
                 ra_availableRooms := Z.max 0 availableRooms;
                 ra_isAvailable := (0 <? availableRooms)%Z |}
      end
  end.

End Service.

End RoomsService.

(** ** What the specification says, in its own words *)

(** A booking the availability check is specified to count: same room, same
    date, status [active], and not the excluded booking when one is given. *)
Definition spec_counted (r d : string) (excludeBookingId : option string)
    (b : Booking) : Prop :=
  room_id b = r ∧ date b = d ∧ status b = "active"
  ∧ match excludeBookingId with
    | Some e => id b ≠ e
    | None => True
    end.

Global Instance spec_counted_dec r d ex b : Decision (spec_counted r d ex b).
Proof. unfold spec_counted. destruct ex; apply _. Defined.

(** A booking the room-detail availability computation is specified to
    count: same room, status [confirmed] or [checked_in], and a stay that
    overlaps the range asked about. *)
Definition spec_stay_counted (date_le : string → string → bool)
    (r checkInDate checkOutDate : string) (b : Booking) : Prop :=
  room_id b = r
  ∧ (status b = "confirmed" ∨ status b = "checked_in")
  ∧ match check_in b, check_out b with
    | Some first, Some last =>
        date_le first checkOutDate = true ∧ date_le checkInDate last = true
    | _, _ => False
    end.

Global Instance spec_stay_counted_dec date_le r ci co b :
  Decision (spec_stay_counted date_le r ci co b).
Proof.
  unfold spec_stay_counted. destruct (check_in b), (check_out b); apply _.
Defined.

(** Number of active bookings of room [r] on date [d]. *)
Definition active_count (w : World) (r d : string) : nat :=
  length (filter (Db.active_on r d) (bookings w)).

(** The inventory of room [r] as a number; a room that is missing or has no
    configured inventory has none. *)
Definition capacity (w : World) (r : string) : Z :=
  match rooms w !! r with
  | Some room => Js.to_number (total_rooms room)
  | None => 0%Z
  end.

(** The inventory invariant of the specification. *)
Definition within_capacity (w : World) : Prop :=
  ∀ r d, (Z.of_nat (active_count w r d) ≤ capacity w r)%Z.

(** Room [r] still has a free unit on date [d]. *)
Definition spec_available (w : World) (r d : string) : Prop :=
  (Z.of_nat (active_count w r d) < capacity w r)%Z.

Global Instance spec_available_dec w r d : Decision (spec_available w r d).
Proof. unfold spec_available. apply _. Defined.

(** How a batch failure describes one conflicting date. *)
Definition spec_conflict (w : World) (r d : string) : string :=
  d +:+ " (Available: "
  +:+ Js.show (match rooms w !! r with Some room => total_rooms room | None => None end)
  +:+ ", Current: " +:+ pretty (active_count w r d) +:+ ")".

(** ** Closed forms of the service's building blocks *)

(** The row [new_booking] builds when [k] UUIDs and [c] clock readings have
    been drawn before. *)
Definition fresh_row (env : Env) (k c : nat) (user hotel room d : string) (p : Js.value)
    (n : option string) : Booking :=
  {| id := uuidv4 env k; user_id := user; hotel_id := hotel; room_id := room;
     date := d; price := p; note := Js.or_null n; status := "active";
     create_at := toISOString env c; check_in := None; check_out := None |}.

(** Rows built for a list of dates, one UUID and one clock reading each. *)
Fixpoint fresh_rows (env : Env) (k c : nat) (user hotel room : string) (p : Js.value)
    (n : option string) (dates : list string) : list Booking :=
  match dates with
  | [] => []
  | d :: rest =>
      fresh_row env k c user hotel room d p n
      :: fresh_rows env (S k) (S c) user hotel room p n rest
  end.

(** The world after [n] more UUIDs and clock readings were drawn. *)
Definition advance (w : World) (n : nat) : World :=
  mkWorld (bookings w) (rooms w) (uuid_calls w + n) (clock_reads w + n).

(** What one round of the validation loop adds to [unavailableDates]. *)
Definition unavailable_entry (env : Env) (w : World) (r d : string)
    : list UnavailableDate :=
  match BookingService.checkRoomAvailability env r d None w with
  | (Success a, _) =>
      if isAvailable a then []
      else [mkUnavailable d (totalRooms a) (currentBookings a)]
  | (Failure _, _) => []
  end.

(** The availability gate of [updateBooking]: [None] when the update may go
    ahead, [Some] error when it is refused. *)
Definition update_refusal (env : Env) (i : string) (u : UpdateData) (w : World)
    : option string :=
  if BookingService.status_rejected u then Some BookingService.status_message
  else if Js.truthy_opt (u_room_id u) || Js.truthy_opt (u_date u) then
    match Db.by_id i w with
    | [current] =>
        let r := Js.or_else (u_room_id u) (room_id current) in
        let d := Js.or_else (u_date u) (date current) in
        match BookingService.checkRoomAvailability env r d (Some i) w with
        | (Success a, _) =>
            if isAvailable a then None
            else Some (BookingService.fully_booked_message d a)
        | (Failure e, _) => Some e
        end
    | _ => Some "Booking not found"
    end
  else None.

(** ** Sequences of engine operations *)

Inductive Op : Type :=
| CreateBooking (data : BookingData)
| CreateMultipleBookings (data : MultiBookingData)
| UpdateBooking (i : string) (u : UpdateData)
| CancelBooking (i : string).

(** One request, run to completion; whatever it returns is dropped. *)
Definition run_op (env : Env) (op : Op) (w : World) : World :=
  match op with
  | CreateBooking data => snd (BookingService.createBooking env data w)
  | CreateMultipleBookings data => snd (BookingService.createMultipleBookings env data w)
  | UpdateBooking i u => snd (BookingService.updateBooking env i u w)
  | CancelBooking i => snd (BookingService.cancelBooking env i w)
  end.

Definition run_ops (env : Env) (ops : list Op) (w : World) : World :=
  fold_left (λ w op, run_op env op w) ops w.

(** The room and date an update carries are non-empty strings. *)
Definition well_formed_target (u : UpdateData) : Prop :=
  u_room_id u ≠ Some "" ∧ u_date u ≠ Some "".

(** Requests under which the inventory invariant is maintained: a batch
    names each date once, and an update that sets the status to active also
    names the room or the date it moves to. *)
Definition capacity_checked (op : Op) : Prop :=
  match op with
  | CreateBooking _ => True
  | CreateMultipleBookings data => NoDup (mb_dates data)
  | UpdateBooking _ u =>
      well_formed_target u
      ∧ (u_status u = Some "active" → u_room_id u ≠ None ∨ u_date u ≠ None)
  | CancelBooking _ => True
  end.

(** ** Malformed requests *)

(** [create_defect env body msg]: the creation request [body] is malformed
    in a way the specification lists, and [msg] is the validation message
    that names the offending field. *)
Inductive create_defect (env : Env) (body : CreateBody) : string → Prop :=
| user_id_not_uuid s :
    cb_user_id body = Some s → s ≠ "" → Js.uuidRegex_test s = false →
    create_defect env body "user_id must be valid UUID"
| hotel_id_not_uuid s :
    cb_hotel_id body = Some s → s ≠ "" → Js.uuidRegex_test s = false →
    create_defect env body "hotel_id must be valid UUID"
| room_id_not_uuid s :
    cb_room_id body = Some s → s ≠ "" → Js.uuidRegex_test s = false →
    create_defect env body "room_id must be valid UUID"
| user_id_empty :
    cb_user_id body = Some "" → create_defect env body "user_id is required"
| hotel_id_empty :
    cb_hotel_id body = Some "" → create_defect env body "hotel_id is required"
| room_id_empty :
    cb_room_id body = Some "" → create_defect env body "room_id is required"
| price_not_positive p :
    cb_price body = Some (Js.Num p) → (p <= 0)%Q →
    create_defect env body "price must be greater than 0"
| date_invalid s :
    cb_dates body = None ∨ cb_dates body = Some [] →
    cb_date body = Some s → getTime env s = None →
    create_defect env body "date must be valid date"
| date_past s t :
    cb_dates body = None ∨ cb_dates body = Some [] →
    cb_date body = Some s → getTime env s = Some t → (t < today env)%Z →
    create_defect env body "date cannot be in the past"
| too_many_dates ds :
    cb_dates body = Some ds → 30 < length ds →
    create_defect env body "maximum 30 dates allowed per booking"
| dates_entry_invalid ds j s :
    cb_dates body = Some ds → ds !! j = Some s → getTime env s = None →
    create_defect env body ("dates[" +:+ pretty j +:+ "] must be valid date")
| dates_entry_past ds j s t :
    cb_dates body = Some ds → ds !! j = Some s →
    getTime env s = Some t → (t < today env)%Z →
    create_defect env body ("dates[" +:+ pretty j +:+ "] cannot be in the past")
| dates_duplicate ds :
    cb_dates body = Some ds → ¬ NoDup ds →
    create_defect env body "duplicate dates are not allowed".

(** The same for an update of booking [i] with fields [u]. *)
Inductive update_defect (env : Env) (i : string) (u : UpdateData) : string → Prop :=
| booking_id_not_uuid :
    Js.uuidRegex_test i = false →
    update_defect env i u "Invalid booking ID format"
| new_price_not_positive p :
    u_price u = Some (Js.Num p) → (p <= 0)%Q →
    update_defect env i u "price must be greater than 0"
| new_room_id_not_uuid r :
    u_room_id u = Some r → Js.uuidRegex_test r = false →
    update_defect env i u "room_id must be valid UUID"
| new_date_invalid s :
    u_date u = Some s → getTime env s = None →
    update_defect env i u "date must be valid date"
| new_date_past s t :
    u_date u = Some s → getTime env s = Some t → (t < today env)%Z →
    update_defect env i u "date cannot be in the past".

(** A response that turns the request away as invalid. *)
Definition rejected (res : Response) : Prop :=
  res_status res = 400 ∧ res_success res = false ∧ res_data res = [].

(** The rejection of a creation request names [msg] among its errors, or,
    when the request carries no date at all, says that a date is missing. *)
Definition create_rejection (body : CreateBody) (msg : string) (res : Response) : Prop :=
  rejected res
  ∧ ((Js.truthy_opt (cb_date body) = false
      ∧ (cb_dates body = None ∨ cb_dates body = Some [])
      ∧ res_message res = "Either 'date' (string) or 'dates' (array) must be provided")
     ∨ (res_message res = "Validation failed" ∧ msg ∈ res_errors res)).

(** The rejection of an update names [msg] among its errors, or, when the
    booking id is not a UUID, says so. *)
Definition update_rejection (i : string) (msg : string) (res : Response) : Prop :=
  rejected res
  ∧ ((Js.uuidRegex_test i = false ∧ res_message res = "Invalid booking ID format")
     ∨ (res_message res = "Validation failed" ∧ msg ∈ res_errors res)).

(** ** Sample environment and stores used by the examples *)

Definition sample_env : Env :=
  {| uuidv4 := λ k, "booking-" +:+ pretty k;
     toISOString := λ k, "2026-11-02T09:00:0" +:+ pretty k +:+ ".000Z";
     single_error := "JSON object requested, multiple (or no) rows returned";
     getTime := λ s,
       if decide (s = "2030-01-01") then Some 1893456000000%Z
       else if decide (s = "2030-01-02") then Some 1893542400000%Z
       else if decide (s = "2020-01-01") then Some 1577836800000%Z
       else None;
     toNumber := λ s,
       if decide (s = "") then Some 0%Q
       else if decide (s = "0") then Some 0%Q
       else if decide (s = "1200") then Some 1200%Q
       else None;
     today := 1793577600000%Z |}.

(** One room type with a single room and one with two rooms. *)
Definition sample_rooms : gmap string Room :=
  <["R1" := mkRoom (Some 1%Z)]> (<["R2" := mkRoom (Some 2%Z)]> ∅).

(** No bookings yet. *)
Definition sample_world : World := mkWorld [] sample_rooms 0 0.

(** A directory with a room whose inventory was never set and one whose
    inventory is zero. *)
Definition unconfigured_world : World :=
  mkWorld [] (<["R0" := mkRoom None]> (<["RZ" := mkRoom (Some 0%Z)]> ∅)) 0 0.

Definition sample_booking (i r d st : string) : Booking :=
  {| id := i; user_id := "U1"; hotel_id := "H1"; room_id := r; date := d;
     price := Js.Num 1000; note := None; status := st; create_at := "2026-11-01T08:00:00.000Z";
     check_in := None; check_out := None |}.

Definition booking_a : Booking :=
  sample_booking "11111111-1111-4111-8111-111111111111" "R1" "2030-01-01" "active".

Definition booking_b : Booking :=
  sample_booking "22222222-2222-4222-8222-222222222222" "R1" "2030-01-02" "active".

Definition booking_c : Booking :=
  sample_booking "33333333-3333-4333-8333-333333333333" "R2" "2030-01-01" "cancel".

(** Room R1 is taken on both days; room R2 only has a cancelled booking. *)
(** A booking of the single-unit room for one night, with the stay columns
    filled in, in status [st]. *)
Definition stay (st : string) : Booking :=
  {| id := "55555555-5555-4555-8555-555555555555"; user_id := "U1"; hotel_id := "H1";
     room_id := "R1"; date := "2030-01-01"; price := Js.Num 1000; note := None;
     status := st; create_at := "2026-11-01T08:00:00.000Z";
     check_in := Some "2030-01-01"; check_out := Some "2030-01-01" |}.

(** The sample rooms with that booking as the only row. *)
Definition stay_world (st : string) : World := mkWorld [stay st] sample_rooms 0 0.

Definition busy_world : World :=
  mkWorld [booking_a; booking_b; booking_c] sample_rooms 0 0.

Definition sample_request : BookingData :=
  mkBookingData "U1" "H1" "R1" "2030-01-01" (Js.Num 1000) (Some "").

(** Book the only room, cancel that booking, book the room again, then set
    the first booking back to active. *)
Definition reactivation : list Op :=
  [CreateBooking sample_request;
   CancelBooking "booking-0";
   CreateBooking sample_request;
   UpdateBooking "booking-0" (mkUpdateData None None (Some "active") None None)].

(** A sequence in which every request is capacity-checked. *)
Definition checked_sequence : list Op :=
  [CreateBooking sample_request;
   CreateBooking sample_request;
   CreateMultipleBookings (mkMultiBookingData "U1" "H1" "R2" ["2030-01-01"; "2030-01-02"] (Js.Num 500) None);
   CancelBooking "booking-0";
   UpdateBooking "booking-1" (mkUpdateData None None (Some "active") (Some "R1") None);
   UpdateBooking "booking-2" (mkUpdateData (Some (Js.Num 700)) None None None (Some "2030-01-02"))].

Definition missing_id : string := "00000000-0000-4000-8000-000000000000".

(** Two nights in room R1, the second of which is taken. *)
Definition conflicting_batch : MultiBookingData :=
  mkMultiBookingData "U1" "H1" "R1" ["2030-01-03"; "2030-01-02"] (Js.Num 500) None.

(** A creation request for a day that has passed. *)
Definition stale_request : CreateBody :=
  mkCreateBody (Some missing_id) (Some missing_id) (Some missing_id)
    (Some "2020-01-01") None (Some (Js.Num 1000)) None.

(** A creation request with a user id that is no UUID and without any
    date. *)
Definition dateless_request : CreateBody :=
  mkCreateBody (Some "not-a-uuid") (Some missing_id) (Some missing_id)
    None None (Some (Js.Num 1000)) None.

Definition move_to_first_day : UpdateData :=
  mkUpdateData None None None None (Some "2030-01-01").

Definition reprice : UpdateData :=
  mkUpdateData (Some (Js.Num 1200)) None None None None.

Definition free_of_charge : UpdateData :=
  mkUpdateData (Some (Js.Num 0)) None None None None.

(** A batch that names the same night twice. *)
Definition repeated_night : list Op :=
  [CreateMultipleBookings
     (mkMultiBookingData "U1" "H1" "R1" ["2030-01-01"; "2030-01-01"] (Js.Num 500) None)].

(** Two bookings of the single room, one of them with an empty date, and an
    update that moves the other one onto the empty date. *)
Definition empty_date_move : list Op :=
  [CreateBooking (mkBookingData "U1" "H1" "R1" "" (Js.Num 1000) None);
   CreateBooking sample_request;
   UpdateBooking "booking-1" (mkUpdateData None None None None (Some ""))].

Ltac rejected_tac :=
  unfold rejected, BookingController.reply;
  cbn [res_status res_success res_data res_message res_errors];
  repeat split.

(** ** The rest of the booking service *)

(** The [filters] argument of [getAllBookings]; [None] is an absent key. *)
Record Filters := mkFilters {
  f_user_id : option string;
  f_date : option string;
  f_status : option string;
  f_hotel_id : option string
}.

(** The [pagination] block of a list result. *)
Record Pagination := mkPagination {
  currentPage : Z;
  totalPages : Z;
  totalItems : nat;
  itemsPerPage : Z;
  hasNextPage : bool;
  hasPrevPage : bool
}.

(** What a successful list query returns besides [success]. *)
Record BookingPage := mkBookingPage {
  pg_data : list Booking;
  pg_pagination : Pagination
}.

Module DbRest.

(** [.delete().eq("id", i)]: every row with that id is removed. *)
Definition delete (i : string) (w : World) : World :=
  mkWorld (filter (Db.other_than i) (bookings w)) (rooms w) (uuid_calls w) (clock_reads w).

(** [.range(from, to)]: the rows at positions [from] to [to], both included.
    The services compute [from] as [(page - 1) * limit]; what the store does
    with a negative start is not part of this model. *)
Definition range (from to : Z) (rows : list Booking) : list Booking :=
  take (Z.to_nat (to - from + 1)) (drop (Z.to_nat from) rows).

(** [if (v) query = query.eq(column, v)] *)
Definition eq_if_given (column : Booking → string) (v : option string)
    (rows : list Booking) : list Booking :=
  match v with
  | Some s => if Js.truthy s then filter (λ b, column b = s) rows else rows
  | None => rows
  end.

End DbRest.

Module BookingServiceRest.

Section Service.

Variable env : Env.

(** [.order("create_at", { ascending: false })], as the store does it. *)
Variable newest_first : list Booking → list Booking.

(** [.order("date", { ascending: true })], as the store does it. *)
Variable by_date : list Booking → list Booking.

(** How the store compares two values of the [date] column ([lte]). *)
Variable date_le : string → string → bool.

(** [Math.ceil(count / limit)] for a non-zero [limit]; by zero JavaScript
    divides to [Infinity] or [NaN], which this model does not represent. *)
Definition ceil_div (count limit : Z) : Z := (- ((- count) / limit))%Z.

(** The "Calculate pagination info" block shared by the list queries. *)
Definition pagination_info (page limit : Z) (count : nat) : Pagination :=
  let totalPages := ceil_div (Z.of_nat count) limit in
  let hasNextPage := (page <? totalPages)%Z in
  let hasPrevPage := (1 <? page)%Z in
  {| currentPage := page;
     totalPages := totalPages;
     totalItems := count;
     itemsPerPage := limit;
     hasNextPage := hasNextPage;
     hasPrevPage := hasPrevPage |}.

(** The four optional filters, applied in the order of the source. *)
Definition apply_filters (filters : Filters) (rows : list Booking) : list Booking :=
  let rows := DbRest.eq_if_given user_id (f_user_id filters) rows in
  let rows := DbRest.eq_if_given date (f_date filters) rows in
  let rows := DbRest.eq_if_given status (f_status filters) rows in
  DbRest.eq_if_given hotel_id (f_hotel_id filters) rows.

Definition getAllBookings (page limit : Z) (filters : Filters) : M BookingPage :=
  let offset := ((page - 1) * limit)%Z in
  let! count := BookingService.read (λ w, length (apply_filters filters (bookings w))) in
  let! data :=
    BookingService.read
      (λ w, DbRest.range offset (offset + limit - 1)
              (newest_first (apply_filters filters (bookings w)))) in
  ret {| pg_data := data; pg_pagination := pagination_info page limit count |}.

Definition getBookingsByUserId (userId : string) (page limit : Z) : M BookingPage :=
  getAllBookings page limit (mkFilters (Some userId) None None None).

(** [.gte("date", startDate).lte("date", endDate)] *)
Definition in_date_range (startDate endDate : string) (b : Booking) : Prop :=
  date_le startDate (date b) = true ∧ date_le (date b) endDate = true.

Global Instance in_date_range_dec s e b : Decision (in_date_range s e b).
Proof. unfold in_date_range. apply _. Defined.

Definition getBookingsByDateRange (startDate endDate : string) (page limit : Z)
    : M BookingPage :=
  let offset := ((page - 1) * limit)%Z in
  let! count :=
    BookingService.read
      (λ w, length (filter (in_date_range startDate endDate) (bookings w))) in
  let! data :=
    BookingService.read
      (λ w, DbRest.range offset (offset + limit - 1)
              (by_date (filter (in_date_range startDate endDate) (bookings w)))) in
  ret {| pg_data := data; pg_pagination := pagination_info page limit count |}.

(** [.delete().eq("id", i).select(...).single()]: the matching rows are
    removed and handed back; [.single()] then wants exactly one of them. *)
Definition deleteBooking (i : string) : M Booking :=
  let! rows := BookingService.read (Db.by_id i) in
  BookingService.write (DbRest.delete i) ;;
  match Db.single env rows with
  | Failure error => throw ("Failed to delete booking: " +:+ error)
  | Success data => ret data
  end.

End Service.

End BookingServiceRest.

(** ** The rest of the booking controller *)

(** The reply of [GET /api/bookings/room/:roomId/availability]. *)
Record AvailabilityReply := mkAvailabilityReply {
  av_status : nat;
  av_success : bool;
  av_message : string;
  av_data : option AvailabilityResult
}.

Module BookingControllerRest.

Section Controller.

Variable env : Env.

(** [GET /api/bookings/:id]; a successful reply carries no message. *)
Definition getBookingById (i : string) (w : World) : Response * World :=
  if negb (Js.uuidRegex_test i) then
    (BookingController.reply 400 false "Invalid booking ID format" [] [], w)
  else
    match BookingService.getBookingById env i w with
    | (Failure error, w') => (BookingController.reply 404 false error [] [], w')
    | (Success data, w') => (BookingController.reply 200 true "" [] [data], w')
    end.

(** [DELETE /api/bookings/:id] *)
Definition deleteBooking (i : string) (w : World) : Response * World :=
  if negb (Js.uuidRegex_test i) then
    (BookingController.reply 400 false "Invalid booking ID format" [] [], w)
  else
    match BookingServiceRest.deleteBooking env i w with
    | (Failure error, w') =>
        (BookingController.reply
           (BookingController.failure_status [("not found", 404)] error) false error [] [], w')
    | (Success data, w') =>
        (BookingController.reply 200 true "Booking deleted successfully" [] [data], w')
    end.

(** [GET /api/bookings/room/:roomId/availability?date=...] *)
Definition checkRoomAvailability (roomId : string) (date : option string) (w : World)
    : AvailabilityReply * World :=
  if negb (Js.uuidRegex_test roomId) then
    (mkAvailabilityReply 400 false "Invalid room ID format" None, w)
  else if negb (Js.truthy_opt date) then
    (mkAvailabilityReply 400 false "date is required" None, w)
  else
    let d := default "" date in
    if BookingController.invalid_date env d then
      (mkAvailabilityReply 400 false "Invalid date format" None, w)
    else
      match BookingService.checkRoomAvailability env roomId d None w with
      | (Failure error, w') =>
          (mkAvailabilityReply
             (BookingController.failure_status [("not found", 404)] error) false error None, w')
      | (Success result, w') => (mkAvailabilityReply 200 true "" (Some result), w')
      end.

End Controller.

End BookingControllerRest.

(** ** The rest of the rooms service *)

(** The [data] object of [getCurrentRoomAvailability], without the display
    names; the fields the unset-inventory branch leaves out are [None]. *)
Record CurrentAvailability := mkCurrentAvailability {
  ca_totalRooms : option Z;
  ca_occupiedRooms : option nat;
  ca_availableRooms : option Z;
  ca_isAvailable : option bool;
  ca_status : string;
  ca_asOfDate : option string;
  ca_message : option string
}.

(** What [checkRoomHasBookings] returns besides [success]. *)
Record HasBookings := mkHasBookings {
  hasBookings : bool;
  bookingsCount : nat
}.

Module RoomsServiceRest.

Section Service.

Variable env : Env.

Variable date_le : string → string → bool.

(** [s.split("T")[0]] *)
Fixpoint before_T (s : string) : string :=
  match s with
  | EmptyString => EmptyString
  | String c s' => if Ascii.eqb c "T" then EmptyString else String c (before_T s')
  end.

(** [.lte("check_in", today).gte("check_out", today)]; a [null] column
    satisfies neither comparison. *)
Definition covers (today : string) (b : Booking) : bool :=
  match check_in b, check_out b with
  | Some ci, Some co => date_le ci today && date_le today co
  | _, _ => false
  end.

Definition occupied_query (r today : string) (w : World) : nat :=
  length (filter (λ b, room_id b = r ∧ RoomsService.in_status b
                       ∧ covers today b = true) (bookings w)).

Definition getCurrentRoomAvailability (r : string) : M CurrentAvailability :=
  let! room := BookingService.read (Db.room_single env r) in
  match room with
  | Failure roomError => throw ("Room not found: " +:+ roomError)
  | Success room =>
      match total_rooms room with
      | None | Some 0%Z =>
          ret {| ca_totalRooms := total_rooms room;
                 ca_occupiedRooms := None;
                 ca_availableRooms := None;
                 ca_isAvailable := None;
                 ca_status := "unavailable";
                 ca_asOfDate := None;
                 ca_message := Some "Room total count not set" |}
      | Some total =>
          let! now := BookingService.now_iso env in
          let today := before_T now in
          let! occupiedRooms := BookingService.read (occupied_query r today) in
          let availableRooms := (total - Z.of_nat occupiedRooms)%Z in
          ret {| ca_totalRooms := Some total;
                 ca_occupiedRooms := Some occupiedRooms;
                 ca_availableRooms := Some (Z.max 0 availableRooms);
                 ca_isAvailable := Some (0 <? availableRooms)%Z;
                 ca_status := if (0 <? availableRooms)%Z then "available" else "fully_booked";
                 ca_asOfDate := Some today;
                 ca_message := None |}
      end
  end.

(** [.in("status", ["confirmed", "checked_in", "pending"])] *)
Definition blocking_status (b : Booking) : Prop :=
  status b ∈ ["confirmed"; "checked_in"; "pending"].

Definition checkRoomHasBookings (roomId : string) : M HasBookings :=
  let! count :=
    BookingService.read
      (λ w, length (filter (λ b, room_id b = roomId ∧ blocking_status b) (bookings w))) in
  ret {| hasBookings := bool_decide (0 < count); bookingsCount := count |}.

End Service.

End RoomsServiceRest.

(** ** Requests of every kind, one after the other *)

(** An engine operation or a hard delete. *)
Inductive Request : Type :=
| Engine (op : Op)
| DeleteBooking (i : string).

Definition run_request (env : Env) (q : Request) (w : World) : World :=
  match q with
  | Engine op => run_op env op w
  | DeleteBooking i => snd (BookingServiceRest.deleteBooking env i w)
  end.

Definition run_requests (env : Env) (qs : list Request) (w : World) : World :=
  fold_left (λ w q, run_request env q w) qs w.

Definition request_checked (q : Request) : Prop :=
  match q with
  | Engine op => capacity_checked op
  | DeleteBooking _ => True
  end.

(** The status values the booking engine writes. *)
Definition engine_statuses (w : World) : Prop :=
  ∀ b, b ∈ bookings w → status b ∈ ["active"; "cancel"; ""].

(** Every booking id was handed out by the generator, and only once. *)
Definition ids_generated (env : Env) (w : World) : Prop :=
  NoDup (map id (bookings w))
  ∧ ∀ b, b ∈ bookings w → ∃ k, k < uuid_calls w ∧ id b = uuidv4 env k.

(** A date the controller accepts: it parses, and not to a moment before
    the start of the current day. *)
Definition date_acceptable (env : Env) (s : string) : Prop :=
  ∃ t, getTime env s = Some t ∧ (today env ≤ t)%Z.

(** A price the test [price <= 0] lets through: a positive number, [true],
    or a string, array or object that does not convert to a number at most
    zero; one that converts to no number at all is let through. *)
Definition price_not_refused (env : Env) (v : Js.value) : Prop :=
  match v with
  | Js.Null => False
  | Js.Bool b => b = true
  | Js.Num q => (0 < q)%Q
  | Js.Str s => ∀ q, toNumber env s = Some q → (0 < q)%Q
  | Js.Obj s => ∀ q, toNumber env s = Some q → (0 < q)%Q
  end.

(** Three identifiers of UUID shape and a price that is present, is not the
    empty string and is let through by [price <= 0]. *)
Definition identifiers_and_price_ok (env : Env) (body : CreateBody) : Prop :=
  (∃ s, cb_user_id body = Some s ∧ Js.uuidRegex_test s = true)
  ∧ (∃ s, cb_hotel_id body = Some s ∧ Js.uuidRegex_test s = true)
  ∧ (∃ s, cb_room_id body = Some s ∧ Js.uuidRegex_test s = true)
  ∧ (∃ p, cb_price body = Some p ∧ p ≠ Js.Str "" ∧ price_not_refused env p).

(** What the creation validation asks of a request: besides the identifiers
    and the price, either a non-empty list of at most 30 acceptable date
    strings, no two of them the same string, or no such list and one
    non-empty acceptable date. *)
Definition well_formed_create (env : Env) (body : CreateBody) : Prop :=
  identifiers_and_price_ok env body
  ∧ match cb_dates body with
    | Some (d :: ds) =>
        length (d :: ds) ≤ 30 ∧ NoDup (d :: ds)
        ∧ ∀ s, s ∈ d :: ds → date_acceptable env s
    | _ => ∃ s, cb_date body = Some s ∧ s ≠ "" ∧ date_acceptable env s
    end.

(** The dates a creation request asks for: the entries of a non-empty
    [dates] array, else the single [date]. *)
Definition requested_dates (body : CreateBody) : list string :=
  match cb_dates body with
  | Some (d :: ds) => d :: ds
  | _ => match cb_date body with
         | Some d => [d]
         | None => []
         end
  end.

(** ** Nights rather than date strings *)

(** A booking of room [r] that is active on the calendar day that starts at
    instant [t]: its date parses to [t], however it is spelled. *)
Definition active_on_day (env : Env) (r : string) (t : Z) (b : Booking) : Prop :=
  room_id b = r ∧ getTime env (date b) = Some t ∧ status b = "active".

Global Instance active_on_day_dec env r t b : Decision (active_on_day env r t b).
Proof. unfold active_on_day. apply _. Defined.

Definition active_count_on_day (env : Env) (w : World) (r : string) (t : Z) : nat :=
  length (filter (active_on_day env r t) (bookings w)).

(** The inventory invariant per room and night. *)
Definition within_capacity_by_day (env : Env) (w : World) : Prop :=
  ∀ r t, (Z.of_nat (active_count_on_day env w r t) ≤ capacity w r)%Z.

(** Every day is spelled in one way only among the strings [ds]: two of
    them that parse to the same instant are the same string. *)
Definition one_spelling_per_day (env : Env) (ds : list string) : Prop :=
  ∀ s1 s2 t, s1 ∈ ds → s2 ∈ ds →
             getTime env s1 = Some t → getTime env s2 = Some t → s1 = s2.

Definition failed {A} (r : Result A) : bool :=
  match r with
  | Success _ => false
  | Failure _ => true
  end.

(** Whether the service answers the request with [success: false]. *)
Definition request_failed (env : Env) (q : Request) (w : World) : bool :=
  match q with
  | Engine (CreateBooking data) => failed (fst (BookingService.createBooking env data w))
  | Engine (CreateMultipleBookings data) =>
      failed (fst (BookingService.createMultipleBookings env data w))
  | Engine (UpdateBooking i u) => failed (fst (BookingService.updateBooking env i u w))
  | Engine (CancelBooking i) => failed (fst (BookingService.cancelBooking env i w))
  | DeleteBooking i => failed (fst (BookingServiceRest.deleteBooking env i w))
  end.

(** The rows a list query hands back; none when it failed. *)
Definition page_rows (r : Result BookingPage * World) : list Booking :=
  match fst r with
  | Success pg => pg_data pg
  | Failure _ => []
  end.

(** ** Sample data for the listings, the controller and the rooms service *)

(** The booking the first creation request on [sample_world] inserts. *)
Definition first_booking : Booking :=
  fresh_row sample_env 0 0 "U1" "H1" "R1" "2030-01-01" (Js.Num 1000) (Some "").

Definition first_booking_world : World :=
  mkWorld [first_booking] sample_rooms 1 1.

(** A room type whose id has UUID shape, as the controller requires. *)
Definition uuid_room : string := "44444444-4444-4444-8444-444444444444".

Definition uuid_world : World :=
  mkWorld [] (<[uuid_room := mkRoom (Some 1%Z)]> ∅) 0 0.

Definition valid_create_body : CreateBody :=
  mkCreateBody (Some missing_id) (Some missing_id) (Some uuid_room)
    (Some "2030-01-01") None (Some (Js.Num 1000)) None.

(** Creations, a batch, a cancellation, updates and deletes. *)
Definition mixed_requests : list Request :=
  map Engine checked_sequence ++ [DeleteBooking "booking-1"; DeleteBooking missing_id].

(** [order("create_at", { ascending: false })] and
    [order("date", { ascending: true })] on ISO strings. *)
Definition sample_newest_first : list Booking → list Booking :=
  merge_sort (λ a b, String.leb (create_at b) (create_at a)).

Definition sample_by_date : list Booking → list Booking :=
  merge_sort (λ a b, String.leb (date a) (date b)).

Definition no_filters : Filters := mkFilters None None None None.

(** A batch for two nights of the room with the UUID-shaped id. *)
Definition valid_batch_body : CreateBody :=
  mkCreateBody (Some missing_id) (Some missing_id) (Some uuid_room)
    None (Some ["2030-01-01"; "2030-01-02"]) (Some (Js.Num 1000)) None.

Definition move_to_second_day : UpdateData :=
  mkUpdateData None None None None (Some "2030-01-02").

(** The sample environment with a second spelling of its first day. *)
Definition spelling_env : Env :=
  {| uuidv4 := uuidv4 sample_env;
     toISOString := toISOString sample_env;
     single_error := single_error sample_env;
     getTime := λ s,
       if decide (s = "2030-01-01T00:00:00.000Z") then Some 1893456000000%Z
       else getTime sample_env s;
     toNumber := toNumber sample_env;
     today := today sample_env |}.

(** * Properties *)

Section AvailabilityFacts.

Variable env : Env.

Lemma check_found (w : World) (r d : string) (ex : option string) (room : Room) :
  rooms w !! r = Some room →
  BookingService.checkRoomAvailability env r d ex w =
    (Success {| isAvailable :=
                  (Z.of_nat (BookingService.count_query r d ex w)
                   <? Js.to_number (total_rooms room))%Z;
                totalRooms := total_rooms room;
                currentBookings := BookingService.count_query r d ex w;
                availableRooms :=
                  (Js.to_number (total_rooms room)
                   - Z.of_nat (BookingService.count_query r d ex w))%Z |}, w).
Proof.
  intros Hroom.
  unfold BookingService.checkRoomAvailability, bind, BookingService.read, Db.room_single.
  now rewrite Hroom.
Qed.

Lemma check_missing (w : World) (r d : string) (ex : option string) :
  rooms w !! r = None →
  BookingService.checkRoomAvailability env r d ex w =
    (Failure ("Room not found: " +:+ single_error env), w).
Proof.
  intros Hroom.
  unfold BookingService.checkRoomAvailability, bind, BookingService.read, Db.room_single.
  now rewrite Hroom.
Qed.

(** The availability check never writes. *)
Lemma check_read_only (w : World) (r d : string) (ex : option string) :
  snd (BookingService.checkRoomAvailability env r d ex w) = w.
Proof.
  destruct (rooms w !! r) as [room|] eqn:Hroom.
  - now rewrite (check_found _ _ _ _ _ Hroom).
  - now rewrite (check_missing _ _ _ _ Hroom).
Qed.

(** The chained filters of the count query select the bookings the
    specification describes. *)
Lemma count_query_spec (w : World) (r d : string) (ex : option string) :
  (∀ e, ex = Some e → e ≠ "") →
  BookingService.count_query r d ex w
  = length (filter (spec_counted r d ex) (bookings w)).
Proof.
  intros Hex. unfold BookingService.count_query.
  destruct ex as [e|].
  - destruct e as [|c e]; [now destruct (Hex "" eq_refl)|]. cbn [Js.truthy].
    rewrite list_filter_filter. f_equal. apply list_filter_iff.
    intros b. unfold spec_counted, Db.active_on, Db.other_than. tauto.
  - f_equal. apply list_filter_iff.
    intros b. unfold spec_counted, Db.active_on. tauto.
Qed.

Lemma count_query_all (w : World) (r d : string) :
  BookingService.count_query r d None w = active_count w r d.
Proof. reflexivity. Qed.

(** C4: for an existing room with a configured inventory the check succeeds
    without touching the store; [currentBookings] is the number of bookings of
    that room on exactly that date with status active, other than the
    excluded booking when one is given; [availableRooms] is
    [totalRooms - currentBookings]; and [isAvailable] holds exactly when
    [availableRooms > 0], that is when [currentBookings < totalRooms]. *)
Theorem checkRoomAvailability_result (w : World) (r d : string)
    (ex : option string) (room : Room) (t : Z) :
  rooms w !! r = Some room →
  total_rooms room = Some t →
  (∀ e, ex = Some e → e ≠ "") →
  ∃ a, BookingService.checkRoomAvailability env r d ex w = (Success a, w)
       ∧ totalRooms a = Some t
       ∧ currentBookings a = length (filter (spec_counted r d ex) (bookings w))
       ∧ availableRooms a = (t - Z.of_nat (currentBookings a))%Z
       ∧ (isAvailable a = true ↔ (0 < availableRooms a)%Z)
       ∧ (isAvailable a = true ↔ (Z.of_nat (currentBookings a) < t)%Z).
Proof.
  intros Hroom Ht Hex. eexists. split; [apply (check_found _ _ _ _ _ Hroom)|].
  cbn [totalRooms currentBookings availableRooms isAvailable].
  rewrite Ht. cbn [Js.to_number].
  repeat split; try (apply count_query_spec; assumption);
    rewrite ?Z.ltb_lt; lia.
Qed.

End AvailabilityFacts.

Section StoreFacts.

Variable f : Booking → Booking.
Hypothesis f_keeps_id : ∀ b, id (f b) = id b.

Lemma by_id_update (i : string) (w : World) :
  Db.by_id i (Db.update f i w) = map f (Db.by_id i w).
Proof.
  unfold Db.by_id, Db.update. cbn [bookings].
  induction (bookings w) as [|b l IH]; [reflexivity|].
  cbn [map]. rewrite !filter_cons.
  destruct (decide (Db.has_id i b)) as [Hb|Hb].
  - rewrite decide_True by (unfold Db.has_id in *; now rewrite f_keeps_id).
    cbn [map]. now rewrite IH.
  - rewrite decide_False by assumption. apply IH.
Qed.

Lemma update_no_match (i : string) (w : World) :
  Db.by_id i w = [] → Db.update f i w = w.
Proof.
  destruct w as [bs rs k c]. unfold Db.by_id, Db.update. cbn [bookings rooms uuid_calls clock_reads].
  intros Hnone. f_equal.
  induction bs as [|b l IH]; [reflexivity|].
  rewrite filter_cons in Hnone.
  destruct (decide (Db.has_id i b)); [discriminate|].
  cbn [map]. rewrite decide_False by assumption. now rewrite IH.
Qed.

Lemma update_twice (i : string) (w : World) :
  (∀ b, f (f b) = f b) →
  Db.update f i (Db.update f i w) = Db.update f i w.
Proof.
  intros Hidem. unfold Db.update. cbn [bookings rooms uuid_calls clock_reads].
  f_equal. rewrite map_map. apply map_ext. intros b.
  destruct (decide (Db.has_id i b)) as [Hb|Hb].
  - rewrite decide_True by (unfold Db.has_id in *; now rewrite f_keeps_id).
    apply Hidem.
  - now rewrite decide_False by assumption.
Qed.

End StoreFacts.

Lemma not_found_marker_cancel (m : string) :
  Js.includes "not found" ("Failed to cancel booking: " +:+ m)
  = Js.includes "not found" m.
Proof. reflexivity. Qed.

Section CancelFacts.

Variable env : Env.

Lemma set_cancel_keeps_id (b : Booking) : id (BookingService.set_cancel b) = id b.
Proof. reflexivity. Qed.

Lemma set_cancel_twice (b : Booking) :
  BookingService.set_cancel (BookingService.set_cancel b) = BookingService.set_cancel b.
Proof. reflexivity. Qed.

Lemma cancelBooking_single (w : World) (i : string) (b : Booking) :
  Db.by_id i w = [b] →
  BookingService.cancelBooking env i w
  = (Success (BookingService.set_cancel b), Db.update BookingService.set_cancel i w).
Proof.
  intros Hb. unfold BookingService.cancelBooking, bind, BookingService.write, BookingService.read.
  rewrite (by_id_update _ set_cancel_keeps_id), Hb. reflexivity.
Qed.

(** C6: cancelling an existing booking sets its status to cancel and
    changes no other field; cancelling it again succeeds, returns the same
    record and leaves the whole store exactly as the first call left it. *)
Theorem cancelBooking_idempotent (w : World) (i : string) (b : Booking) :
  Db.by_id i w = [b] →
  ∃ b' w',
    BookingService.cancelBooking env i w = (Success b', w')
    ∧ b' = {| id := id b; user_id := user_id b; hotel_id := hotel_id b;
              room_id := room_id b; date := date b; price := price b;
              note := note b; status := "cancel"; create_at := create_at b;
              check_in := check_in b; check_out := check_out b |}
    ∧ Db.by_id i w' = [b']
    ∧ BookingService.cancelBooking env i w' = (Success b', w').
Proof.
  intros Hb.
  exists (BookingService.set_cancel b), (Db.update BookingService.set_cancel i w).
  assert (Hb' : Db.by_id i (Db.update BookingService.set_cancel i w)
                = [BookingService.set_cancel b]).
  { now rewrite (by_id_update _ set_cancel_keeps_id), Hb. }
  repeat split.
  - now apply cancelBooking_single.
  - exact Hb'.
  - rewrite (cancelBooking_single _ _ _ Hb').
    now rewrite set_cancel_twice, (update_twice _ set_cancel_keeps_id _ _ set_cancel_twice).
Qed.

(** C9, evaluated: when no row carries the id, the service reports a
    failure and the store is untouched, as claimed.  The controller looks
    for "not found" in the error in order to answer 404, but the service
    has put [Failed to cancel booking: ] in front of the store's message,
    so whether the 404 is reached is left to the store's wording: the
    answer is 404 only when that wording contains "not found", and 500
    otherwise. *)
Theorem cancelBooking_missing (w : World) (i : string) :
  Db.by_id i w = [] →
  BookingService.cancelBooking env i w
  = (Failure ("Failed to cancel booking: " +:+ single_error env), w)
  ∧ (Js.uuidRegex_test i = true →
     ∃ res, BookingController.cancelBooking env i w = (res, w)
            ∧ res_success res = false
            ∧ res_data res = []
            ∧ res_status res
              = if Js.includes "not found" (single_error env) then 404 else 500).
Proof.
  intros Hnone.
  assert (Hsvc : BookingService.cancelBooking env i w
                 = (Failure ("Failed to cancel booking: " +:+ single_error env), w)).
  { unfold BookingService.cancelBooking, bind, BookingService.write, BookingService.read.
    rewrite (update_no_match _ _ _ Hnone), Hnone. reflexivity. }
  split; [exact Hsvc|].
  intros Hid. unfold BookingController.cancelBooking.
  rewrite Hid, Hsvc. cbn [negb]. eexists. split; [reflexivity|].
  cbn [BookingController.reply res_success res_data res_status BookingController.failure_status].
  now rewrite not_found_marker_cancel.
Qed.

End CancelFacts.

Section CreationFacts.

Variable env : Env.

Lemma advance_0 (w : World) : advance w 0 = w.
Proof. destruct w. unfold advance. cbn. now rewrite !Nat.add_0_r. Qed.

Lemma new_booking_run (w : World) (user hotel room d : string) (p : Js.value)
    (n : option string) :
  BookingService.new_booking env user hotel room d p n w
  = (Success (fresh_row env (uuid_calls w) (clock_reads w) user hotel room d p n),
     mkWorld (bookings w) (rooms w) (S (uuid_calls w)) (S (clock_reads w))).
Proof. reflexivity. Qed.

Lemma createBooking_run (w : World) (data : BookingData) :
  BookingService.createBooking env data w
  = match BookingService.checkRoomAvailability env (bd_room_id data) (bd_date data) None w with
    | (Failure e, _) => (Failure e, w)
    | (Success a, _) =>
        if isAvailable a then
          let b := fresh_row env (uuid_calls w) (clock_reads w) (bd_user_id data)
                     (bd_hotel_id data) (bd_room_id data) (bd_date data)
                     (bd_price data) (bd_note data) in
          (Success b,
           mkWorld (bookings w ++ [b]) (rooms w) (S (uuid_calls w)) (S (clock_reads w)))
        else (Failure (BookingService.fully_booked_message (bd_date data) a), w)
    end.
Proof.
  unfold BookingService.createBooking, bind at 1. unfold BookingService.await.
  pose proof (check_read_only env w (bd_room_id data) (bd_date data) None) as Hro.
  destruct (BookingService.checkRoomAvailability env _ _ None w) as [[a|e] w1].
  - cbn [snd] in Hro. subst w1. destruct (isAvailable a); reflexivity.
  - cbn [snd] in Hro. subst w1. reflexivity.
Qed.

Lemma bookings_to_insert_run (user hotel room : string) (p : Js.value) (n : option string)
    (dates : list string) (w : World) :
  BookingService.bookings_to_insert env user hotel room p n dates w
  = (Success (fresh_rows env (uuid_calls w) (clock_reads w) user hotel room p n dates),
     advance w (length dates)).
Proof.
  revert w. induction dates as [|d rest IH]; intros w.
  - cbn. now rewrite advance_0.
  - cbn [BookingService.bookings_to_insert]. unfold bind at 1.
    rewrite new_booking_run. unfold bind at 1. rewrite IH.
    cbn [ret fresh_rows uuid_calls clock_reads length]. unfold advance.
    cbn [bookings rooms uuid_calls clock_reads].
    now rewrite !Nat.add_succ_r.
Qed.

Lemma fresh_rows_length k c user hotel room p n dates :
  length (fresh_rows env k c user hotel room p n dates) = length dates.
Proof. revert k c. induction dates; intros; cbn; [reflexivity|now rewrite IHdates]. Qed.

Lemma fresh_rows_dates k c user hotel room p n dates :
  map date (fresh_rows env k c user hotel room p n dates) = dates.
Proof. revert k c. induction dates; intros; cbn; [reflexivity|now rewrite IHdates]. Qed.

Lemma fresh_rows_active k c user hotel room p n dates :
  Forall (λ b, status b = "active" ∧ room_id b = room)
         (fresh_rows env k c user hotel room p n dates).
Proof.
  revert k c. induction dates as [|d rest IH]; intros k c; constructor.
  - split; reflexivity.
  - apply IH.
Qed.

Lemma fresh_rows_lookup k c user hotel room p n dates j b :
  fresh_rows env k c user hotel room p n dates !! j = Some b →
  ∃ d, dates !! j = Some d ∧ b = fresh_row env (k + j) (c + j) user hotel room d p n.
Proof.
  revert k c j. induction dates as [|d rest IH]; intros k c j Hj; [discriminate|].
  destruct j as [|j]; cbn in Hj.
  - inversion Hj. exists d. now rewrite !Nat.add_0_r.
  - destruct (IH _ _ _ Hj) as (d' & Hd' & ->). exists d'. split; [exact Hd'|].
    now rewrite !Nat.add_succ_r.
Qed.

Lemma check_dates_run (w : World) (r : string) (room : Room) (dates : list string)
    (acc : list UnavailableDate) :
  rooms w !! r = Some room →
  BookingService.check_dates env r dates acc w
  = (Success (acc ++ concat (map (unavailable_entry env w r) dates)), w).
Proof.
  intros Hroom. revert acc. induction dates as [|d rest IH]; intros acc.
  - cbn. now rewrite app_nil_r.
  - cbn [BookingService.check_dates map concat]. unfold bind at 1, BookingService.await.
    unfold unavailable_entry at 1.
    rewrite (check_found env w r d None room Hroom).
    cbn [isAvailable totalRooms currentBookings].
    rewrite IH. destruct (_ <? _)%Z; cbn [negb].
    + reflexivity.
    + now rewrite <- app_assoc.
Qed.

Lemma check_dates_missing (w : World) (r : string) (d : string) (rest : list string)
    (acc : list UnavailableDate) :
  rooms w !! r = None →
  BookingService.check_dates env r (d :: rest) acc w
  = (Failure ("Room not found: " +:+ single_error env), w).
Proof.
  intros Hroom. cbn [BookingService.check_dates]. unfold bind at 1, BookingService.await.
  now rewrite (check_missing env w r d None Hroom).
Qed.

Lemma createMultipleBookings_run (w : World) (data : MultiBookingData) (room : Room) :
  mb_dates data ≠ [] →
  rooms w !! mb_room_id data = Some room →
  BookingService.createMultipleBookings env data w
  = match concat (map (unavailable_entry env w (mb_room_id data)) (mb_dates data)) with
    | [] =>
        let rows := fresh_rows env (uuid_calls w) (clock_reads w) (mb_user_id data)
                      (mb_hotel_id data) (mb_room_id data) (mb_price data)
                      (mb_note data) (mb_dates data) in
        (Success (mkMultiResult rows (length rows) (mb_dates data)),
         Db.insert rows (advance w (length (mb_dates data))))
    | u :: us =>
        (Failure ("Room is fully booked for these dates: "
                  +:+ Js.join ", " (map BookingService.unavailable_item (u :: us))), w)
    end.
Proof.
  intros Hne Hroom. unfold BookingService.createMultipleBookings.
  rewrite bool_decide_eq_false_2 by (destruct (mb_dates data); [congruence|cbn; lia]).
  unfold bind at 1. rewrite (check_dates_run w _ room _ [] Hroom). cbn [app].
  destruct (concat _) as [|u us].
  - rewrite bool_decide_eq_false_2 by (cbn; lia).
    unfold bind at 1. rewrite bookings_to_insert_run. reflexivity.
  - rewrite bool_decide_eq_true_2 by (cbn; lia). reflexivity.
Qed.

End CreationFacts.

Section BatchFacts.

Variable env : Env.

Lemma unavailable_entries_spec (w : World) (r : string) (room : Room)
    (dates : list string) :
  rooms w !! r = Some room →
  map BookingService.unavailable_item
      (concat (map (unavailable_entry env w r) dates))
  = map (spec_conflict w r) (filter (λ d, ¬ spec_available w r d) dates).
Proof.
  intros Hroom. induction dates as [|d rest IH]; [reflexivity|].
  cbn [map concat]. rewrite map_app, IH, filter_cons.
  unfold unavailable_entry at 1. rewrite (check_found env w r d None room Hroom).
  cbn [isAvailable totalRooms currentBookings]. rewrite count_query_all.
  assert (Hcap : capacity w r = Js.to_number (total_rooms room)).
  { unfold capacity. now rewrite Hroom. }
  destruct (Z.ltb_spec (Z.of_nat (active_count w r d)) (Js.to_number (total_rooms room)))
    as [Hlt|Hge].
  - rewrite decide_False; [reflexivity|].
    unfold spec_available. rewrite Hcap. tauto.
  - rewrite decide_True by (unfold spec_available; rewrite Hcap; lia).
    cbn [map app]. f_equal.
    unfold BookingService.unavailable_item, spec_conflict.
    cbn [ud_date ud_totalRooms ud_currentBookings]. now rewrite Hroom.
Qed.

(** C2: a batch request for a non-empty list of dates of an existing room.
    If some date has no free unit, the call fails with the fully-booked
    message that lists every such date, in request order, each with the
    room's total and that date's active count, and the world is exactly what
    it was.  If every date has a free unit, the call succeeds and appends
    one row per requested date, in order, each with status active, and
    nothing else changes in the bookings table. *)
Theorem createMultipleBookings_all_or_nothing (w : World) (data : MultiBookingData)
    (room : Room) :
  mb_dates data ≠ [] →
  rooms w !! mb_room_id data = Some room →
  let r := mb_room_id data in
  let conflicts := filter (λ d, ¬ spec_available w r d) (mb_dates data) in
  (conflicts ≠ [] →
   BookingService.createMultipleBookings env data w
   = (Failure ("Room is fully booked for these dates: "
               +:+ Js.join ", " (map (spec_conflict w r) conflicts)), w))
  ∧ (conflicts = [] →
     ∃ res w',
       BookingService.createMultipleBookings env data w = (Success res, w')
       ∧ bookings w' = bookings w ++ mr_data res
       ∧ rooms w' = rooms w
       ∧ length (mr_data res) = length (mb_dates data)
       ∧ mr_count res = length (mb_dates data)
       ∧ map date (mr_data res) = mb_dates data
       ∧ Forall (λ b, status b = "active" ∧ room_id b = r) (mr_data res)).
Proof.
  intros Hne Hroom r conflicts.
  pose proof (unavailable_entries_spec w r room (mb_dates data) Hroom) as Hspec.
  fold conflicts in Hspec.
  rewrite (createMultipleBookings_run env w data room Hne Hroom).
  fold r. destruct (concat _) as [|u us] eqn:Hcat.
  - split.
    + intros Hbad. destruct conflicts; [congruence|discriminate].
    + intros _. eexists _, _. split; [reflexivity|].
      cbn [bookings rooms mr_data mr_count Db.insert advance].
      rewrite fresh_rows_length, fresh_rows_dates.
      do 5 (split; [reflexivity|]).
      apply fresh_rows_active.
  - split.
    + intros _. now rewrite Hspec.
    + intros Hnil. rewrite Hnil in Hspec. discriminate.
Qed.

Lemma createMultipleBookings_success (w w' : World) (data : MultiBookingData)
    (res : MultiResult) :
  BookingService.createMultipleBookings env data w = (Success res, w') →
  mr_data res = fresh_rows env (uuid_calls w) (clock_reads w) (mb_user_id data)
                  (mb_hotel_id data) (mb_room_id data) (mb_price data)
                  (mb_note data) (mb_dates data)
  ∧ w' = Db.insert (mr_data res) (advance w (length (mb_dates data))).
Proof.
  intros Hrun.
  destruct (mb_dates data) as [|d rest] eqn:Hdates.
  { unfold BookingService.createMultipleBookings in Hrun. rewrite Hdates in Hrun.
    discriminate. }
  destruct (rooms w !! mb_room_id data) as [room|] eqn:Hroom.
  - rewrite (createMultipleBookings_run env w data room) in Hrun
      by (congruence || assumption).
    destruct (concat _); [|discriminate].
    rewrite Hdates in Hrun. inversion Hrun. cbn [mr_data]. split; reflexivity.
  - unfold BookingService.createMultipleBookings in Hrun. rewrite Hdates in Hrun.
    rewrite bool_decide_eq_false_2 in Hrun by (cbn; lia).
    unfold bind at 1 in Hrun. rewrite (check_dates_missing env w _ d rest [] Hroom) in Hrun.
    discriminate.
Qed.

(** C10: a row inserted by [createBooking] is appended with status active and
    with the next value of the UUID generator as its id, and its note is null
    when the supplied note is absent or the empty string; the rows inserted
    by [createMultipleBookings] are appended likewise, the [j]-th one
    carrying the [j]-th next UUID. *)
Theorem inserted_rows_are_normalised (w : World) :
  (∀ data b w',
     BookingService.createBooking env data w = (Success b, w') →
     bookings w' = bookings w ++ [b]
     ∧ status b = "active"
     ∧ id b = uuidv4 env (uuid_calls w)
     ∧ uuid_calls w' = S (uuid_calls w)
     ∧ (bd_note data = None ∨ bd_note data = Some "" → note b = None))
  ∧ (∀ data res w',
       BookingService.createMultipleBookings env data w = (Success res, w') →
       bookings w' = bookings w ++ mr_data res
       ∧ uuid_calls w' = uuid_calls w + length (mr_data res)
       ∧ ∀ j b, mr_data res !! j = Some b →
                status b = "active"
                ∧ id b = uuidv4 env (uuid_calls w + j)
                ∧ (mb_note data = None ∨ mb_note data = Some "" → note b = None)).
Proof.
  split.
  - intros data b w' Hrun. rewrite createBooking_run in Hrun.
    destruct (BookingService.checkRoomAvailability env _ _ None w) as [[a|e] w1];
      [|discriminate].
    destruct (isAvailable a); [|discriminate].
    inversion Hrun. cbn [bookings uuid_calls status id note fresh_row].
    do 4 (split; [reflexivity|]). intros [-> | ->]; reflexivity.
  - intros data res w' Hrun.
    destruct (createMultipleBookings_success _ _ _ _ Hrun) as [Hrows ->].
    cbn [bookings uuid_calls Db.insert advance].
    split; [reflexivity|]. split; [now rewrite Hrows, fresh_rows_length|].
    intros j b Hj. rewrite Hrows in Hj.
    destruct (fresh_rows_lookup _ _ _ _ _ _ _ _ _ _ _ Hj) as (d & _ & ->).
    cbn [status id note fresh_row]. do 2 (split; [reflexivity|]).
    intros [-> | ->]; reflexivity.
Qed.

End BatchFacts.

Section UpdateFacts.

Variable env : Env.

Lemma apply_update_keeps_id (u : UpdateData) (b : Booking) :
  id (BookingService.apply_update u b) = id b.
Proof. reflexivity. Qed.

Lemma getBookingById_single (w : World) (i : string) (b : Booking) :
  Db.by_id i w = [b] →
  BookingService.getBookingById env i w = (Success b, w).
Proof.
  intros Hb. unfold BookingService.getBookingById, bind, BookingService.read.
  now rewrite Hb.
Qed.

Lemma getBookingById_missing (w : World) (i : string) :
  Db.by_id i w = [] →
  BookingService.getBookingById env i w
  = (Failure ("Booking not found: " +:+ single_error env), w).
Proof.
  intros Hb. unfold BookingService.getBookingById, bind, BookingService.read.
  now rewrite Hb.
Qed.

Lemma updateBooking_run (i : string) (u : UpdateData) (w : World) :
  BookingService.updateBooking env i u w
  = match update_refusal env i u w with
    | Some e => (Failure e, w)
    | None =>
        match Db.single env (map (BookingService.apply_update u) (Db.by_id i w)) with
        | Success data => (Success data, Db.update (BookingService.apply_update u) i w)
        | Failure e =>
            (Failure ("Failed to update booking: " +:+ e),
             Db.update (BookingService.apply_update u) i w)
        end
    end.
Proof.
  assert (Hcommit : ∀ w0,
    (BookingService.write (Db.update (BookingService.apply_update u) i) ;;
     let! rows := BookingService.read (Db.by_id i) in
     match Db.single env rows with
     | Failure error => throw ("Failed to update booking: " +:+ error)
     | Success data => ret data
     end) w0
    = match Db.single env (map (BookingService.apply_update u) (Db.by_id i w0)) with
      | Success data => (Success data, Db.update (BookingService.apply_update u) i w0)
      | Failure e =>
          (Failure ("Failed to update booking: " +:+ e),
           Db.update (BookingService.apply_update u) i w0)
      end).
  { intros w0. unfold bind, BookingService.write, BookingService.read.
    rewrite (by_id_update _ (apply_update_keeps_id u)).
    destruct (Db.single env _); reflexivity. }
  unfold BookingService.updateBooking, update_refusal.
  unfold bind at 1.
  destruct (BookingService.status_rejected u); [reflexivity|].
  cbn [ret]. unfold bind at 1.
  destruct (Js.truthy_opt (u_room_id u) || Js.truthy_opt (u_date u)).
  - unfold bind at 1, BookingService.await.
    unfold BookingService.getBookingById, bind at 1, BookingService.read.
    destruct (Db.by_id i w) as [|current [|other rows]] eqn:Hrows; try reflexivity.
    cbn [Db.single ret]. unfold bind at 1.
    pose proof (check_read_only env w (Js.or_else (u_room_id u) (room_id current))
                  (Js.or_else (u_date u) (date current)) (Some i)) as Hro.
    destruct (BookingService.checkRoomAvailability env _ _ (Some i) w) as [[a|e] w1];
      cbn [snd] in Hro; subst w1; [|reflexivity].
    destruct (isAvailable a); cbn [negb]; [|reflexivity].
    cbn [ret]. rewrite Hcommit, Hrows. reflexivity.
  - cbn [ret]. apply Hcommit.
Qed.

End UpdateFacts.

Section UpdateClaim.

Variable env : Env.

Lemma or_else_default (o : option string) (s : string) :
  o ≠ Some "" → Js.or_else o s = default s o.
Proof. destruct o as [[|c t]|]; [congruence|reflexivity|reflexivity]. Qed.

Lemma truthy_opt_supplied (o : option string) :
  o ≠ Some "" → Js.truthy_opt o = bool_decide (o ≠ None).
Proof. destruct o as [[|c t]|]; [congruence|reflexivity|reflexivity]. Qed.

(** C5: updating an existing booking with well-formed fields.  When the
    update names a room or a date, availability is checked for the effective
    room and date with the booking itself excluded: if the check reports
    unavailable, the call fails with the fully-booked message and the world
    is unchanged; if it reports available, the fields are applied.  When the
    update names neither, the fields are applied without any check, whatever
    the occupancy of the room. *)
Theorem updateBooking_recheck (w : World) (i : string) (b : Booking) (u : UpdateData) :
  Db.by_id i w = [b] →
  (∀ s, u_status u = Some s → s = "active" ∨ s = "cancel") →
  well_formed_target u →
  let effective_room := default (room_id b) (u_room_id u) in
  let effective_date := default (date b) (u_date u) in
  let updated :=
    {| id := id b; user_id := user_id b; hotel_id := hotel_id b;
       room_id := effective_room; date := effective_date;
       price := default (price b) (u_price u);
       note := default (note b) (u_note u);
       status := default (status b) (u_status u);
       create_at := create_at b; check_in := check_in b; check_out := check_out b |} in
  let applied :=
    mkWorld (map (λ x, if decide (id x = i) then updated else x) (bookings w))
            (rooms w) (uuid_calls w) (clock_reads w) in
  (u_room_id u ≠ None ∨ u_date u ≠ None →
   match BookingService.checkRoomAvailability env effective_room effective_date (Some i) w with
   | (Success a, _) =>
       if isAvailable a then
         BookingService.updateBooking env i u w = (Success updated, applied)
       else
         BookingService.updateBooking env i u w
         = (Failure (BookingService.fully_booked_message effective_date a), w)
   | (Failure e, _) => BookingService.updateBooking env i u w = (Failure e, w)
   end)
  ∧ (u_room_id u = None ∧ u_date u = None →
     BookingService.updateBooking env i u w = (Success updated, applied)).
Proof.
  intros Hb Hstatus [Hroom Hdate] effective_room effective_date updated applied.
  assert (Hok : BookingService.status_rejected u = false).
  { unfold BookingService.status_rejected. destruct (u_status u) as [s|]; [|reflexivity].
    destruct (Hstatus s eq_refl) as [-> | ->]; reflexivity. }
  assert (Happlied : Db.update (BookingService.apply_update u) i w = applied).
  { unfold Db.update, applied. f_equal.
    assert (Hall : ∀ x, x ∈ bookings w → id x = i → x = b).
    { intros x Hx Hi.
      assert (Hin : x ∈ Db.by_id i w) by (apply list_elem_of_filter; now split).
      rewrite Hb in Hin. now apply list_elem_of_singleton in Hin. }
    apply map_ext_in. intros x Hx. apply list_elem_of_In in Hx.
    unfold Db.has_id. destruct (decide (id x = i)) as [Hi|Hi]; [|reflexivity].
    now rewrite (Hall x Hx Hi). }
  rewrite updateBooking_run. unfold update_refusal.
  rewrite Hok, Hb, (truthy_opt_supplied _ Hroom), (truthy_opt_supplied _ Hdate).
  rewrite (or_else_default _ _ Hroom), (or_else_default _ _ Hdate).
  fold effective_room effective_date. cbn [map Db.single]. rewrite Happlied.
  split.
  - intros Hsupplied.
    assert (Hgate : bool_decide (u_room_id u ≠ None) || bool_decide (u_date u ≠ None) = true).
    { destruct Hsupplied as [H|H]; rewrite (bool_decide_eq_true_2 _ H);
        [reflexivity|apply orb_true_r]. }
    rewrite Hgate.
    destruct (BookingService.checkRoomAvailability env _ _ (Some i) w) as [[a|e] w1];
      [|reflexivity].
    destruct (isAvailable a); reflexivity.
  - intros [Hr Hd].
    rewrite (bool_decide_eq_false_2 (u_room_id u ≠ None)) by (rewrite Hr; tauto).
    rewrite (bool_decide_eq_false_2 (u_date u ≠ None)) by (rewrite Hd; tauto).
    reflexivity.
Qed.

End UpdateClaim.

Section CountingFacts.

Variables (r d : string).

Lemma active_count_insert (w : World) (rows : list Booking) :
  active_count (Db.insert rows w) r d
  = active_count w r d + length (filter (Db.active_on r d) rows).
Proof.
  unfold active_count, Db.insert. cbn [bookings].
  now rewrite filter_app, length_app.
Qed.

Lemma active_count_advance (w : World) (n : nat) :
  active_count (advance w n) r d = active_count w r d.
Proof. reflexivity. Qed.

(** Rewriting rows so that none becomes active on [(r, d)] cannot raise the
    count there. *)
Lemma filter_map_shrinks (g : Booking → Booking) (l : list Booking) :
  (∀ b, Db.active_on r d (g b) → Db.active_on r d b) →
  length (filter (Db.active_on r d) (map g l)) ≤ length (filter (Db.active_on r d) l).
Proof.
  intros Hg. induction l as [|b l IH]; [reflexivity|].
  cbn [map]. rewrite !filter_cons.
  destruct (decide (Db.active_on r d (g b))) as [Hgb|Hgb].
  - rewrite decide_True by auto. cbn [length]. lia.
  - destruct (decide (Db.active_on r d b)); cbn [length]; lia.
Qed.

(** After [.update(f).eq("id", i)] the rows counted on [(r, d)] are the
    untouched rows counted before plus the rewritten rows that land there. *)
Lemma active_count_update (f : Booking → Booking) (i : string) (w : World) :
  active_count (Db.update f i w) r d
  = length (filter (Db.other_than i) (filter (Db.active_on r d) (bookings w)))
    + length (filter (Db.active_on r d) (map f (Db.by_id i w))).
Proof.
  unfold active_count, Db.update, Db.by_id. cbn [bookings].
  induction (bookings w) as [|b l IH]; [reflexivity|].
  cbn [map]. rewrite !filter_cons.
  destruct (decide (Db.has_id i b)) as [Hi|Hi].
  - cbn [map]. rewrite filter_cons.
    destruct (decide (Db.active_on r d b)) as [Hb|Hb].
    + rewrite filter_cons, (decide_False (P := Db.other_than i b))
        by (unfold Db.other_than, Db.has_id in *; tauto).
      destruct (decide (Db.active_on r d (f b))); cbn [length]; rewrite IH; lia.
    + destruct (decide (Db.active_on r d (f b))); cbn [length]; rewrite IH; lia.
  - destruct (decide (Db.active_on r d b)) as [Hb|Hb].
    + rewrite filter_cons, (decide_True (P := Db.other_than i b))
        by (unfold Db.other_than, Db.has_id in *; tauto).
      cbn [length]. rewrite IH. lia.
    + apply IH.
Qed.

Lemma others_below_count_query (i : string) (w : World) :
  length (filter (Db.other_than i) (filter (Db.active_on r d) (bookings w)))
  ≤ BookingService.count_query r d (Some i) w.
Proof.
  unfold BookingService.count_query. destruct (Js.truthy i); [reflexivity|].
  apply length_filter.
Qed.

Lemma others_below_count (i : string) (w : World) :
  length (filter (Db.other_than i) (filter (Db.active_on r d) (bookings w)))
  ≤ active_count w r d.
Proof. apply length_filter. Qed.

End CountingFacts.

Section InvariantFacts.

Variable env : Env.

Lemma within_capacity_same_rooms (w w' : World) :
  rooms w' = rooms w →
  (∀ r d, (Z.of_nat (active_count w' r d) ≤ capacity w r)%Z) →
  within_capacity w'.
Proof.
  intros Hrooms Hle r d. unfold capacity. rewrite Hrooms. apply Hle.
Qed.

Lemma createBooking_keeps_capacity (w : World) (data : BookingData) :
  within_capacity w →
  within_capacity (snd (BookingService.createBooking env data w)).
Proof.
  intros Hinv. rewrite createBooking_run.
  destruct (rooms w !! bd_room_id data) as [room|] eqn:Hroom.
  - rewrite (check_found env w _ _ None room Hroom). cbn [isAvailable].
    rewrite count_query_all.
    destruct (Z.ltb_spec (Z.of_nat (active_count w (bd_room_id data) (bd_date data)))
                (Js.to_number (total_rooms room))) as [Hlt|Hge]; [|exact Hinv].
    cbn [snd]. apply (within_capacity_same_rooms w); [reflexivity|].
    intros r d. unfold active_count. cbn [bookings].
    rewrite filter_app, length_app, filter_cons, filter_nil.
    destruct (decide (Db.active_on r d _)) as [(Hr & Hd & _)|_].
    + cbn [room_id date fresh_row] in Hr, Hd. subst r d.
      unfold capacity. rewrite Hroom. unfold active_count in Hlt. cbn [length]. lia.
    + cbn [length]. rewrite Nat.add_0_r. apply Hinv.
  - rewrite (check_missing env w _ _ None Hroom). exact Hinv.
Qed.

Lemma fresh_rows_on (k c : nat) (user hotel room : string) (p : Js.value)
    (n : option string) (dates : list string) (r d : string) :
  NoDup dates →
  length (filter (Db.active_on r d) (fresh_rows env k c user hotel room p n dates)) ≤ 1
  ∧ (0 < length (filter (Db.active_on r d) (fresh_rows env k c user hotel room p n dates))
     → r = room ∧ d ∈ dates).
Proof.
  intros Hnd. revert k c. induction Hnd as [|x l Hx Hl IH]; intros k c.
  - cbn. split; [lia|lia].
  - cbn [fresh_rows]. rewrite filter_cons.
    destruct (IH (S k) (S c)) as [Hle Hpos].
    destruct (decide (Db.active_on r d _)) as [(Hr & Hd & _)|_].
    + cbn [room_id date fresh_row] in Hr, Hd. subst r d. cbn [length].
      assert (Hzero : length (filter (Db.active_on room x)
                        (fresh_rows env (S k) (S c) user hotel room p n l)) = 0).
      { destruct (length _) eqn:Hlen; [reflexivity|].
        destruct Hpos as [_ Hin]; [lia|]. contradiction. }
      rewrite Hzero. split; [lia|]. intros _. split; [reflexivity|]. apply list_elem_of_here.
    + split; [exact Hle|]. intros Hp. destruct (Hpos Hp) as [-> Hin].
      split; [reflexivity|]. now apply list_elem_of_further.
Qed.

Lemma createMultipleBookings_keeps_capacity (w : World) (data : MultiBookingData) :
  NoDup (mb_dates data) →
  within_capacity w →
  within_capacity (snd (BookingService.createMultipleBookings env data w)).
Proof.
  intros Hnd Hinv.
  destruct (mb_dates data) as [|d0 rest] eqn:Hdates.
  { unfold BookingService.createMultipleBookings. rewrite Hdates. exact Hinv. }
  destruct (rooms w !! mb_room_id data) as [room|] eqn:Hroom.
  - assert (Hne : mb_dates data ≠ []) by congruence.
    pose proof (unavailable_entries_spec env w _ room (mb_dates data) Hroom) as Hspec.
    rewrite (createMultipleBookings_run env w data room Hne Hroom).
    destruct (concat _) as [|u us]; [|exact Hinv].
    cbn [snd]. apply (within_capacity_same_rooms w); [reflexivity|].
    intros r d. rewrite active_count_insert, active_count_advance.
    rewrite <- Hdates in Hnd.
    destruct (fresh_rows_on (uuid_calls w) (clock_reads w) (mb_user_id data)
                (mb_hotel_id data) (mb_room_id data) (mb_price data) (mb_note data)
                (mb_dates data) r d Hnd) as [Hle Hpos].
    destruct (length (filter (Db.active_on r d) _)) as [|m] eqn:Hlen.
    + rewrite Nat.add_0_r. apply Hinv.
    + destruct Hpos as [-> Hin]; [lia|].
      assert (Havail : spec_available w (mb_room_id data) d).
      { cbn [map] in Hspec. symmetry in Hspec. apply map_eq_nil in Hspec.
        destruct (decide (spec_available w (mb_room_id data) d)) as [Hy|Hn]; [exact Hy|].
        assert (Hbad : d ∈ filter (λ d, ¬ spec_available w (mb_room_id data) d)
                         (mb_dates data)) by (apply list_elem_of_filter; now split).
        rewrite Hspec in Hbad. now apply not_elem_of_nil in Hbad. }
      unfold spec_available in Havail. lia.
  - unfold BookingService.createMultipleBookings. rewrite Hdates.
    rewrite bool_decide_eq_false_2 by (cbn; lia).
    unfold bind at 1. rewrite (check_dates_missing env w _ d0 rest [] Hroom). exact Hinv.
Qed.

Lemma cancelBooking_world (w : World) (i : string) :
  snd (BookingService.cancelBooking env i w) = Db.update BookingService.set_cancel i w.
Proof.
  unfold BookingService.cancelBooking, bind, BookingService.write, BookingService.read.
  destruct (Db.single env _); reflexivity.
Qed.

Lemma update_shrinks_keeps_capacity (f : Booking → Booking) (i : string) (w : World) :
  (∀ r d b, Db.active_on r d (f b) → Db.active_on r d b) →
  within_capacity w →
  within_capacity (Db.update f i w).
Proof.
  intros Hf Hinv. apply (within_capacity_same_rooms w); [reflexivity|].
  intros r d. unfold active_count, Db.update. cbn [bookings].
  pose proof (filter_map_shrinks r d
                (λ b, if decide (Db.has_id i b) then f b else b) (bookings w)) as Hle.
  specialize (Hinv r d). unfold active_count in Hinv.
  assert (Hg : ∀ b, Db.active_on r d (if decide (Db.has_id i b) then f b else b)
                    → Db.active_on r d b).
  { intros b. destruct (decide (Db.has_id i b)); auto. }
  specialize (Hle Hg). lia.
Qed.

Lemma cancelBooking_keeps_capacity (w : World) (i : string) :
  within_capacity w →
  within_capacity (snd (BookingService.cancelBooking env i w)).
Proof.
  intros Hinv. rewrite cancelBooking_world.
  apply update_shrinks_keeps_capacity; [|exact Hinv].
  intros r d b (_ & _ & Hst). discriminate Hst.
Qed.

Lemma updateBooking_keeps_capacity (w : World) (i : string) (u : UpdateData) :
  capacity_checked (UpdateBooking i u) →
  within_capacity w →
  within_capacity (snd (BookingService.updateBooking env i u w)).
Proof.
  intros [[Hroom Hdate] Hact] Hinv. rewrite updateBooking_run.
  destruct (update_refusal env i u w) as [e|] eqn:Hgate; [exact Hinv|].
  assert (Hworld : within_capacity (Db.update (BookingService.apply_update u) i w)).
  2:{ destruct (Db.single env _); exact Hworld. }
  unfold update_refusal in Hgate.
  destruct (BookingService.status_rejected u); [discriminate|].
  rewrite (truthy_opt_supplied _ Hroom), (truthy_opt_supplied _ Hdate) in Hgate.
  destruct (bool_decide (u_room_id u ≠ None) || bool_decide (u_date u ≠ None)) eqn:Hsupplied.
  - destruct (Db.by_id i w) as [|current [|other rows]] eqn:Hrows; try discriminate.
    rewrite (or_else_default _ _ Hroom), (or_else_default _ _ Hdate) in Hgate.
    set (r' := default (room_id current) (u_room_id u)) in *.
    set (d' := default (date current) (u_date u)) in *.
    destruct (rooms w !! r') as [room|] eqn:Hr'.
    2:{ rewrite (check_missing env w r' d' (Some i) Hr') in Hgate. discriminate. }
    rewrite (check_found env w r' d' (Some i) room Hr') in Hgate. cbn [isAvailable] in Hgate.
    destruct (Z.ltb_spec (Z.of_nat (BookingService.count_query r' d' (Some i) w))
                (Js.to_number (total_rooms room))) as [Hlt|Hge]; [|discriminate].
    apply (within_capacity_same_rooms w); [reflexivity|].
    intros r d. rewrite active_count_update, Hrows. cbn [map].
    rewrite filter_cons, filter_nil.
    destruct (decide (Db.active_on r d _)) as [(Hr & Hd & _)|_].
    + cbn [room_id date BookingService.apply_update] in Hr, Hd. fold r' in Hr. fold d' in Hd.
      subst r d. pose proof (others_below_count_query r' d' i w) as Hle.
      unfold capacity. rewrite Hr'. cbn [length]. lia.
    + pose proof (others_below_count r d i w) as Hle. specialize (Hinv r d).
      cbn [length]. lia.
  - apply orb_false_elim in Hsupplied as [Hr Hd].
    apply bool_decide_eq_false in Hr, Hd.
    assert (Hr0 : u_room_id u = None) by (destruct (u_room_id u); [exfalso; auto|reflexivity]).
    assert (Hd0 : u_date u = None) by (destruct (u_date u); [exfalso; auto|reflexivity]).
    apply update_shrinks_keeps_capacity; [|exact Hinv].
    intros r d b (Hrb & Hdb & Hsb).
    cbn [room_id date status BookingService.apply_update] in Hrb, Hdb, Hsb.
    rewrite Hr0 in Hrb. rewrite Hd0 in Hdb. cbn in Hrb, Hdb.
    destruct (u_status u) as [s|] eqn:Hs; cbn in Hsb.
    + subst s. destruct (Hact eq_refl) as [H|H]; congruence.
    + repeat split; assumption.
Qed.

Lemma run_op_keeps_capacity (op : Op) (w : World) :
  capacity_checked op → within_capacity w → within_capacity (run_op env op w).
Proof.
  destruct op as [data|data|i u|i]; cbn [capacity_checked run_op].
  - intros _. apply createBooking_keeps_capacity.
  - apply createMultipleBookings_keeps_capacity.
  - apply updateBooking_keeps_capacity.
  - intros _. apply cancelBooking_keeps_capacity.
Qed.

(** C1, as the code has it: starting from a store within capacity (an empty
    bookings table over rooms whose inventory is positive is one), after any
    sequence of createBooking, createMultipleBookings with pairwise distinct
    dates, updateBooking whose room and date are non-empty when given and
    which names a room or a date whenever it sets the status to active, and
    cancelBooking, run one after the other, the number of active bookings of
    every room on every date is at most the room's inventory. *)
Theorem capacity_invariant (ops : list Op) (w : World) :
  within_capacity w →
  Forall capacity_checked ops →
  within_capacity (run_ops env ops w).
Proof.
  intros Hinv Hops. revert w Hinv.
  induction Hops as [|op ops Hop _ IH]; intros w Hinv; [exact Hinv|].
  cbn [run_ops fold_left]. apply IH. now apply run_op_keeps_capacity.
Qed.

End InvariantFacts.

(** An empty bookings table is within capacity when no inventory is negative. *)
Lemma empty_store_within_capacity (w : World) :
  bookings w = [] →
  map_Forall (λ _ room, ∃ t, total_rooms room = Some t ∧ (0 < t)%Z) (rooms w) →
  within_capacity w.
Proof.
  intros Hempty Hrooms r d. unfold active_count, capacity. rewrite Hempty. cbn.
  destruct (rooms w !! r) as [room|] eqn:Hr; [|lia].
  destruct (Hrooms r room Hr) as (t & -> & Ht). cbn. lia.
Qed.

Section ValidationFacts.

Variable env : Env.

Lemma push_if_keeps (c : bool) (m e : string) (errors : list string) :
  e ∈ errors → e ∈ BookingController.push_if c m errors.
Proof.
  intros He. unfold BookingController.push_if. destruct c; [|exact He].
  apply elem_of_app. now left.
Qed.

Lemma push_if_adds (c : bool) (m : string) (errors : list string) :
  c = true → m ∈ BookingController.push_if c m errors.
Proof.
  intros ->. unfold BookingController.push_if.
  apply elem_of_app. right. apply list_elem_of_here.
Qed.

Lemma validate_dates_keeps (k : nat) (ds : list string) (errors : list string) (e : string) :
  e ∈ errors → e ∈ BookingController.validate_dates env k ds errors.
Proof.
  revert k errors. induction ds as [|s ds IH]; intros k errors He; [exact He|].
  cbn [BookingController.validate_dates]. apply IH.
  destruct (BookingController.invalid_date env s);
    [|destruct (BookingController.before_today env s)];
    try exact He; apply elem_of_app; now left.
Qed.

Lemma validate_dates_invalid (k j : nat) (ds : list string) (errors : list string)
    (s : string) :
  ds !! j = Some s → getTime env s = None →
  ("dates[" +:+ pretty (k + j) +:+ "] must be valid date")
  ∈ BookingController.validate_dates env k ds errors.
Proof.
  revert k j errors. induction ds as [|x ds IH]; intros k j errors Hj Hs; [discriminate|].
  cbn [BookingController.validate_dates]. destruct j as [|j].
  - inversion Hj; subst x. apply validate_dates_keeps.
    unfold BookingController.invalid_date. rewrite Hs, Nat.add_0_r.
    apply elem_of_app. right. apply list_elem_of_here.
  - rewrite Nat.add_succ_r. apply (IH (S k) j); assumption.
Qed.

Lemma validate_dates_past (k j : nat) (ds : list string) (errors : list string)
    (s : string) (t : Z) :
  ds !! j = Some s → getTime env s = Some t → (t < today env)%Z →
  ("dates[" +:+ pretty (k + j) +:+ "] cannot be in the past")
  ∈ BookingController.validate_dates env k ds errors.
Proof.
  revert k j errors. induction ds as [|x ds IH]; intros k j errors Hj Hs Ht; [discriminate|].
  cbn [BookingController.validate_dates]. destruct j as [|j].
  - inversion Hj; subst x. apply validate_dates_keeps.
    unfold BookingController.invalid_date, BookingController.before_today.
    rewrite Hs, Nat.add_0_r. apply Z.ltb_lt in Ht. rewrite Ht.
    apply elem_of_app. right. apply list_elem_of_here.
  - rewrite Nat.add_succ_r. apply (IH (S k) j); assumption.
Qed.

Lemma set_add_spec (seen : list string) (x : string) :
  Js.set_add seen x = if decide (x ∈ seen) then seen else seen ++ [x].
Proof.
  induction seen as [|y seen IH].
  - cbn. rewrite decide_False; [reflexivity|apply not_elem_of_nil].
  - cbn [Js.set_add]. destruct (String.eqb_spec y x) as [->|Hne].
    + rewrite decide_True; [reflexivity|apply list_elem_of_here].
    + rewrite IH. destruct (decide (x ∈ seen)) as [Hin|Hout].
      * rewrite decide_True; [reflexivity|now apply list_elem_of_further].
      * rewrite decide_False; [reflexivity|].
        intros Hin. apply elem_of_cons in Hin as [->|Hin]; [congruence|contradiction].
Qed.

Lemma set_fold_length (ds seen : list string) :
  length (fold_left Js.set_add ds seen) ≤ length seen + length ds.
Proof.
  revert seen. induction ds as [|x ds IH]; intros seen; cbn [fold_left length]; [lia|].
  specialize (IH (Js.set_add seen x)). rewrite set_add_spec in *.
  destruct (decide (x ∈ seen)); [lia|]. rewrite length_app in IH. cbn in IH. lia.
Qed.

Lemma set_fold_full (ds seen : list string) :
  length (fold_left Js.set_add ds seen) = length seen + length ds →
  NoDup ds ∧ ∀ y, y ∈ ds → y ∉ seen.
Proof.
  revert seen. induction ds as [|x ds IH]; intros seen Hlen.
  - split; [constructor|]. intros y Hy. now apply not_elem_of_nil in Hy.
  - cbn [fold_left length] in Hlen.
    pose proof (set_fold_length ds (Js.set_add seen x)) as Hle.
    rewrite set_add_spec in Hlen, Hle.
    destruct (decide (x ∈ seen)) as [Hin|Hout]; [lia|].
    rewrite length_app in Hle. cbn [length] in Hle.
    destruct (IH (seen ++ [x])) as [Hnd Hfresh].
    { rewrite length_app. cbn [length]. lia. }
    split.
    + constructor; [|exact Hnd]. intros Hx. apply (Hfresh x Hx).
      apply elem_of_app. right. apply list_elem_of_here.
    + intros y Hy. apply elem_of_cons in Hy as [->|Hy]; [exact Hout|].
      intros Hseen. apply (Hfresh y Hy). apply elem_of_app. now left.
Qed.

Lemma new_Set_detects_duplicates (ds : list string) :
  ¬ NoDup ds → length (Js.new_Set ds) ≠ length ds.
Proof.
  intros Hdup Hlen. apply Hdup. now apply (set_fold_full ds []).
Qed.

Lemma truthy_true (s : string) : s ≠ "" → Js.truthy s = true.
Proof. destruct s; [congruence|reflexivity]. Qed.

Lemma multiple_of_nonempty (body : CreateBody) (ds : list string) :
  cb_dates body = Some ds → 0 < length ds →
  BookingController.isMultipleDates body = true.
Proof.
  intros Hds Hlen. unfold BookingController.isMultipleDates. rewrite Hds.
  destruct ds; [cbn in Hlen; lia|reflexivity].
Qed.

Lemma not_multiple (body : CreateBody) :
  cb_dates body = None ∨ cb_dates body = Some [] →
  BookingController.isMultipleDates body = false.
Proof.
  intros [H|H]; unfold BookingController.isMultipleDates; now rewrite H.
Qed.

(** Every listed defect leaves its message in the [errors] array, provided
    the request reaches the field validation at all. *)
Lemma create_errors_complete (body : CreateBody) (msg : string) :
  create_defect env body msg →
  BookingController.isSingleDate body = true ∨ BookingController.isMultipleDates body = true →
  msg ∈ BookingController.create_errors env body.
Proof.
  intros Hdefect Hkind. unfold BookingController.create_errors.
  assert (Htail : ∀ errors, msg ∈ errors →
    msg ∈ (if BookingController.isMultipleDates body then
             let dates := default [] (cb_dates body) in
             let errors := BookingController.push_if (bool_decide (30 < length dates))
                             "maximum 30 dates allowed per booking" errors in
             let errors := BookingController.validate_dates env 0 dates errors in
             let uniqueDates := Js.new_Set dates in
             BookingController.push_if
               (negb (bool_decide (length uniqueDates = length dates)))
               "duplicate dates are not allowed" errors
           else errors)).
  { intros errors He. destruct (BookingController.isMultipleDates body); [|exact He].
    cbn zeta. now apply push_if_keeps, validate_dates_keeps, push_if_keeps. }
  assert (Hmid : ∀ errors, msg ∈ errors →
    msg ∈ (if BookingController.isSingleDate body then
             let d := default "" (cb_date body) in
             let errors := BookingController.push_if (BookingController.invalid_date env d)
                             "date must be valid date" errors in
             BookingController.push_if (BookingController.before_today env d)
               "date cannot be in the past" errors
           else errors)).
  { intros errors He. destruct (BookingController.isSingleDate body); [|exact He].
    cbn zeta. now apply push_if_keeps, push_if_keeps. }
  cbn zeta.
  destruct Hdefect as [s Hs Hne Hre|s Hs Hne Hre|s Hs Hne Hre|Hs|Hs|Hs|p Hp Hle
                       |s Hnod Hs Ht|s t Hnod Hs Ht Hlt|ds Hds Hlen|ds j s Hds Hj Hs
                       |ds j s t Hds Hj Hs Hlt|ds Hds Hdup].
  - apply Htail, Hmid. do 2 apply push_if_keeps. apply push_if_adds.
    unfold BookingController.present_not_uuid. now rewrite Hs, (truthy_true _ Hne), Hre.
  - apply Htail, Hmid. apply push_if_keeps. apply push_if_adds.
    unfold BookingController.present_not_uuid. now rewrite Hs, (truthy_true _ Hne), Hre.
  - apply Htail, Hmid. apply push_if_adds.
    unfold BookingController.present_not_uuid. now rewrite Hs, (truthy_true _ Hne), Hre.
  - apply Htail, Hmid. do 6 apply push_if_keeps. apply push_if_adds. now rewrite Hs.
  - apply Htail, Hmid. do 5 apply push_if_keeps. apply push_if_adds. now rewrite Hs.
  - apply Htail, Hmid. do 4 apply push_if_keeps. apply push_if_adds. now rewrite Hs.
  - apply Htail, Hmid. do 3 apply push_if_keeps. apply push_if_adds. rewrite Hp.
    apply orb_true_iff. right. now apply Z.leb_le.
  - apply Htail.
    assert (Hsingle : BookingController.isSingleDate body = true).
    { destruct Hkind as [H|H]; [exact H|]. now rewrite (not_multiple _ Hnod) in H. }
    rewrite Hsingle. cbn zeta. apply push_if_keeps, push_if_adds.
    rewrite Hs. unfold BookingController.invalid_date. cbn. now rewrite Ht.
  - apply Htail.
    assert (Hsingle : BookingController.isSingleDate body = true).
    { destruct Hkind as [H|H]; [exact H|]. now rewrite (not_multiple _ Hnod) in H. }
    rewrite Hsingle. cbn zeta. apply push_if_adds.
    rewrite Hs. unfold BookingController.before_today. cbn. rewrite Ht. now apply Z.ltb_lt.
  - rewrite (multiple_of_nonempty body ds Hds) by lia. rewrite Hds. cbn zeta. cbn [default].
    apply push_if_keeps, validate_dates_keeps, push_if_adds. now apply bool_decide_eq_true_2.
  - rewrite (multiple_of_nonempty body ds Hds)
      by (apply lookup_lt_Some in Hj; lia).
    rewrite Hds. cbn zeta. cbn [default].
    apply push_if_keeps. apply (validate_dates_invalid 0 j ds _ s Hj Hs).
  - rewrite (multiple_of_nonempty body ds Hds)
      by (apply lookup_lt_Some in Hj; lia).
    rewrite Hds. cbn zeta. cbn [default].
    apply push_if_keeps. apply (validate_dates_past 0 j ds _ s t Hj Hs Hlt).
  - rewrite (multiple_of_nonempty body ds Hds)
      by (destruct ds; [exfalso; apply Hdup; constructor|cbn; lia]).
    rewrite Hds. cbn zeta. cbn [default].
    apply push_if_adds. apply negb_true_iff, bool_decide_eq_false_2.
    now apply new_Set_detects_duplicates.
Qed.

End ValidationFacts.

Section ValidationClaim.

Variable env : Env.

Lemma nonempty_of_elem (e : string) (errors : list string) :
  e ∈ errors → bool_decide (0 < length errors) = true.
Proof.
  intros He. apply bool_decide_eq_true_2.
  destruct errors; [now apply not_elem_of_nil in He|cbn; lia].
Qed.

Lemma create_rejected (body : CreateBody) (msg : string) :
  create_defect env body msg →
  ∃ res, BookingController.create_gate env body = Some res
         ∧ create_rejection body msg res.
Proof.
  intros Hdefect. unfold BookingController.create_gate.
  destruct (BookingController.isSingleDate body) eqn:Hsingle;
    destruct (BookingController.isMultipleDates body) eqn:Hmulti; cbn [negb andb].
  4:{ eexists. split; [reflexivity|]. split; [rejected_tac|]. left.
      unfold BookingController.isSingleDate in Hsingle. rewrite Hmulti in Hsingle.
      cbn [negb] in Hsingle. rewrite andb_true_r in Hsingle.
      split; [exact Hsingle|]. split; [|reflexivity].
      unfold BookingController.isMultipleDates in Hmulti.
      destruct (cb_dates body) as [[|d ds]|]; [now right|discriminate|now left]. }
  all: assert (Hin : msg ∈ BookingController.create_errors env body)
         by (apply create_errors_complete; [exact Hdefect|rewrite ?Hsingle, ?Hmulti; auto]);
       rewrite (nonempty_of_elem _ _ Hin); eexists; (split; [reflexivity|]);
       (split; [rejected_tac|]); right; split; [reflexivity|exact Hin].
Qed.

Lemma update_errors_complete (i : string) (u : UpdateData) (msg : string) :
  update_defect env i u msg →
  Js.uuidRegex_test i = true →
  msg ∈ BookingController.update_errors env u.
Proof.
  intros Hdefect Hid. unfold BookingController.update_errors. cbn zeta.
  assert (Htail : ∀ errors, msg ∈ errors →
    msg ∈ match u_date u with
          | Some d =>
              let errors := BookingController.push_if (BookingController.invalid_date env d)
                              "date must be valid date" errors in
              BookingController.push_if (BookingController.before_today env d)
                "date cannot be in the past" errors
          | None => errors
          end).
  { intros errors He. destruct (u_date u); [|exact He].
    cbn zeta. now apply push_if_keeps, push_if_keeps. }
  destruct Hdefect as [Hbad|p Hp Hle|r Hr Hre|s Hs Ht|s t Hs Ht Hlt].
  - congruence.
  - apply Htail. do 2 apply push_if_keeps. apply push_if_adds. rewrite Hp.
    now apply Z.leb_le.
  - apply Htail. apply push_if_adds. now rewrite Hr, Hre.
  - rewrite Hs. cbn zeta. apply push_if_keeps, push_if_adds.
    unfold BookingController.invalid_date. now rewrite Ht.
  - rewrite Hs. cbn zeta. apply push_if_adds.
    unfold BookingController.before_today. rewrite Ht. now apply Z.ltb_lt.
Qed.

Lemma update_rejected (i : string) (u : UpdateData) (msg : string) :
  update_defect env i u msg →
  ∃ res, BookingController.update_gate env i u = Some res
         ∧ update_rejection i msg res.
Proof.
  intros Hdefect. unfold BookingController.update_gate.
  destruct (Js.uuidRegex_test i) eqn:Hid; cbn [negb].
  - pose proof (update_errors_complete i u msg Hdefect Hid) as Hin.
    rewrite (nonempty_of_elem _ _ Hin). eexists. split; [reflexivity|].
    split; [rejected_tac|]. right. split; [reflexivity|exact Hin].
  - eexists. split; [reflexivity|]. split; [rejected_tac|]. left.
    split; [exact Hid|reflexivity].
Qed.

(** C7, as the code has it: a creation request or an update request that
    is malformed in one of the listed ways (an identifier that is empty or
    not a UUID, a number as price that is not positive, an invalid or past
    single date of a request without a non-empty dates array, an invalid or
    past entry of the dates array, more than 30 dates, a repeated date
    string) is answered with status 400 by a response that is computed from
    the request alone, before the service is called; the store plays no
    part in it and is left as it was.  The response lists the message that
    names the offending field, with two exceptions: a creation request
    without any date is only told that a date must be provided, and an
    update of a malformed booking id is only told that the id is
    invalid. *)
Theorem malformed_requests_rejected :
  (∀ body msg, create_defect env body msg →
     ∃ res, create_rejection body msg res
            ∧ ∀ w, BookingController.createBooking env body w = (res, w))
  ∧ (∀ i u msg, update_defect env i u msg →
       ∃ res, update_rejection i msg res
              ∧ ∀ w, BookingController.updateBooking env i u w = (res, w)).
Proof.
  split.
  - intros body msg Hdefect.
    destruct (create_rejected body msg Hdefect) as (res & Hgate & Hres).
    exists res. split; [exact Hres|]. intros w.
    unfold BookingController.createBooking. now rewrite Hgate.
  - intros i u msg Hdefect.
    destruct (update_rejected i u msg Hdefect) as (res & Hgate & Hres).
    exists res. split; [exact Hres|]. intros w.
    unfold BookingController.updateBooking. now rewrite Hgate.
Qed.

End ValidationClaim.

(** * The two availability computations *)

Lemma stay_counted_iff (date_le : string → string → bool) (r ci co : string)
    (b : Booking) :
  room_id b = r ∧ RoomsService.in_status b ∧ RoomsService.overlaps date_le ci co b = true
  ↔ spec_stay_counted date_le r ci co b.
Proof.
  unfold spec_stay_counted, RoomsService.in_status, RoomsService.overlaps.
  rewrite !elem_of_cons, elem_of_nil.
  destruct (check_in b) as [first|], (check_out b) as [last|];
    rewrite ?andb_true_iff; split; intros (Hr & Hst & Hov);
    (split; [exact Hr|]); (split; [tauto|]); try exact Hov; try discriminate Hov;
    try contradiction.
Qed.

Lemma booked_query_spec (date_le : string → string → bool) (r ci co : string)
    (w : World) :
  RoomsService.booked_query date_le r ci co w
  = length (filter (spec_stay_counted date_le r ci co) (bookings w)).
Proof.
  unfold RoomsService.booked_query. f_equal.
  apply list_filter_iff. intros b. apply stay_counted_iff.
Qed.

Lemma both_checks_run (env : Env) (date_le : string → string → bool) (w : World)
    (r ci co d : string) (room : Room) (t : Z) :
  rooms w !! r = Some room → total_rooms room = Some t → t ≠ 0%Z →
  BookingService.checkRoomAvailability env r d None w
  = (Success {| isAvailable := (Z.of_nat (active_count w r d) <? t)%Z;
                totalRooms := Some t;
                currentBookings := active_count w r d;
                availableRooms := (t - Z.of_nat (active_count w r d))%Z |}, w)
  ∧ RoomsService.checkRoomAvailability env date_le r ci co w
    = (Success {| ra_totalRooms := Some t;
                  ra_bookedRooms := RoomsService.booked_query date_le r ci co w;
                  ra_availableRooms :=
                    Z.max 0 (t - Z.of_nat (RoomsService.booked_query date_le r ci co w));
                  ra_isAvailable :=
                    (0 <? t - Z.of_nat (RoomsService.booked_query date_le r ci co w))%Z |},
       w).
Proof.
  intros Hroom Htotal Hset. split.
  - rewrite (check_found env w r d None room Hroom), count_query_all, Htotal. reflexivity.
  - unfold RoomsService.checkRoomAvailability, bind, BookingService.read, Db.room_single.
    rewrite Hroom, Htotal. destruct t; [congruence|reflexivity|reflexivity].
Qed.

(** C8: the two availability computations count different bookings.  For
    every store, every room with a configured inventory, every date and
    every range, the booking engine's check reports as current bookings the
    number of bookings of the room on that date whose status is active, and
    the rooms service reports as booked rooms the number of bookings of the
    room whose status is confirmed or checked_in and whose stay overlaps the
    range.  Consequently they are not equivalent: on a store whose only row
    is a booking of a single-unit room, with a stay on the very night asked
    about, the engine reports one booking and no room left while the rooms
    service reports none booked and one room left when the status of that
    row is active, and the other way round when it is confirmed. *)
Theorem availability_checks_disagree :
  (∀ env date_le w r d ci co room t,
     rooms w !! r = Some room → total_rooms room = Some t → t ≠ 0%Z →
     ∃ a1 a2,
       BookingService.checkRoomAvailability env r d None w = (Success a1, w)
       ∧ RoomsService.checkRoomAvailability env date_le r ci co w = (Success a2, w)
       ∧ currentBookings a1 = length (filter (spec_counted r d None) (bookings w))
       ∧ ra_bookedRooms a2
         = length (filter (spec_stay_counted date_le r ci co) (bookings w)))
  ∧ (∀ env date_le,
       date_le "2030-01-01" "2030-01-01" = true →
       ∃ a1 a2 c1 c2,
         BookingService.checkRoomAvailability env "R1" "2030-01-01" None (stay_world "active")
         = (Success a1, stay_world "active")
         ∧ RoomsService.checkRoomAvailability env date_le "R1" "2030-01-01" "2030-01-01"
             (stay_world "active") = (Success a2, stay_world "active")
         ∧ currentBookings a1 = 1 ∧ ra_bookedRooms a2 = 0
         ∧ availableRooms a1 = 0%Z ∧ ra_availableRooms a2 = 1%Z
         ∧ isAvailable a1 = false ∧ ra_isAvailable a2 = true
         ∧ BookingService.checkRoomAvailability env "R1" "2030-01-01" None
             (stay_world "confirmed") = (Success c1, stay_world "confirmed")
         ∧ RoomsService.checkRoomAvailability env date_le "R1" "2030-01-01" "2030-01-01"
             (stay_world "confirmed") = (Success c2, stay_world "confirmed")
         ∧ currentBookings c1 = 0 ∧ ra_bookedRooms c2 = 1
         ∧ availableRooms c1 = 1%Z ∧ ra_availableRooms c2 = 0%Z
         ∧ isAvailable c1 = true ∧ ra_isAvailable c2 = false).
Proof.
  split.
  - intros env date_le w r d ci co room t Hroom Htotal Hset.
    destruct (both_checks_run env date_le w r ci co d room t Hroom Htotal Hset)
      as [Hengine Hrooms].
    eexists _, _. split; [exact Hengine|]. split; [exact Hrooms|].
    cbn [currentBookings ra_bookedRooms]. split.
    + rewrite <- count_query_all. apply count_query_spec. discriminate.
    + apply booked_query_spec.
  - intros env date_le Hrefl.
    assert (Hroom : ∀ st, rooms (stay_world st) !! "R1" = Some (mkRoom (Some 1%Z)))
      by (intros st; vm_compute; reflexivity).
    assert (Hone : (1 ≠ 0)%Z) by lia.
    destruct (both_checks_run env date_le (stay_world "active") "R1" "2030-01-01"
                "2030-01-01" "2030-01-01" _ 1%Z (Hroom "active") eq_refl Hone)
      as [Hengine Hrooms].
    destruct (both_checks_run env date_le (stay_world "confirmed") "R1" "2030-01-01"
                "2030-01-01" "2030-01-01" _ 1%Z (Hroom "confirmed") eq_refl Hone)
      as [Hengine' Hrooms'].
    assert (Hbooked : ∀ st, RoomsService.booked_query date_le "R1" "2030-01-01"
                              "2030-01-01" (stay_world st)
                            = if decide (st = "confirmed" ∨ st = "checked_in")
                              then 1 else 0).
    { intros st. rewrite booked_query_spec. cbn [stay_world bookings].
      rewrite filter_cons, filter_nil.
      assert (Hrow : spec_stay_counted date_le "R1" "2030-01-01" "2030-01-01" (stay st)
                     ↔ st = "confirmed" ∨ st = "checked_in").
      { unfold spec_stay_counted. cbn [stay room_id status check_in check_out].
        rewrite Hrefl. tauto. }
      destruct (decide (spec_stay_counted _ _ _ _ _)) as [Hc|Hc];
        destruct (decide (st = "confirmed" ∨ st = "checked_in")) as [Hst|Hst];
        try reflexivity; tauto. }
    rewrite Hbooked in Hrooms, Hrooms'.
    eexists _, _, _, _.
    split; [exact Hengine|]. split; [exact Hrooms|].
    do 6 (split; [reflexivity|]).
    split; [exact Hengine'|]. split; [exact Hrooms'|].
    repeat split.
Qed.

(** * The engine on a room without configured inventory *)

(** C3, evaluated: on a room whose [total_rooms] is null the engine's check
    succeeds and reports the room as not available with zero rooms left (and
    likewise when [total_rooms] is zero); a booking attempt is then refused
    as fully booked.  The rooms service, asked about the same room, fails
    with its own message instead. *)
Theorem unset_inventory_reported_as_full :
  BookingService.checkRoomAvailability sample_env "R0" "2030-01-01" None unconfigured_world
  = (Success {| isAvailable := false; totalRooms := None;
                currentBookings := 0; availableRooms := 0 |}, unconfigured_world)
  ∧ BookingService.checkRoomAvailability sample_env "RZ" "2030-01-01" None unconfigured_world
    = (Success {| isAvailable := false; totalRooms := Some 0%Z;
                  currentBookings := 0; availableRooms := 0 |}, unconfigured_world)
  ∧ BookingService.createBooking sample_env
      (mkBookingData "U1" "H1" "R0" "2030-01-01" (Js.Num 1000) None) unconfigured_world
    = (Failure "Room is fully booked for 2030-01-01. Available rooms: null, Current bookings: 0",
       unconfigured_world)
  ∧ RoomsService.checkRoomAvailability sample_env String.leb "R0" "2030-01-01" "2030-01-01"
      unconfigured_world
    = (Failure "Room total count not set - cannot check availability", unconfigured_world).
Proof. repeat split; vm_compute; reflexivity. Qed.

(** * Concrete runs *)

Lemma sample_rooms_positive :
  map_Forall (λ _ room, ∃ t, total_rooms room = Some t ∧ (0 < t)%Z) sample_rooms.
Proof.
  unfold sample_rooms. repeat apply map_Forall_insert_2; try apply map_Forall_empty;
    eexists; (split; [reflexivity|lia]).
Qed.

(** C1 as stated fails: from an empty store over rooms with positive
    inventory, creating, cancelling, creating again and then setting the
    cancelled booking back to active leaves two active bookings on a room
    with a single unit. *)
Lemma reactivation_exceeds_capacity :
  ¬ (∀ env ops w,
       bookings w = [] →
       map_Forall (λ _ room, ∃ t, total_rooms room = Some t ∧ (0 < t)%Z) (rooms w) →
       within_capacity (run_ops env ops w)).
Proof.
  intros Hclaim.
  specialize (Hclaim sample_env reactivation sample_world eq_refl sample_rooms_positive
                "R1" "2030-01-01").
  assert (Hcount : active_count (run_ops sample_env reactivation sample_world)
                     "R1" "2030-01-01" = 2) by (vm_compute; reflexivity).
  assert (Hcap : capacity (run_ops sample_env reactivation sample_world) "R1" = 1%Z)
    by (vm_compute; reflexivity).
  rewrite Hcount, Hcap in Hclaim. lia.
Qed.

(** The two other restrictions of the invariant are needed as well: called
    directly, the service accepts a batch that repeats a date, and an update
    whose date is the empty string is applied without a check. *)
Lemma repeated_night_exceeds_capacity :
  active_count (run_ops sample_env repeated_night sample_world) "R1" "2030-01-01" = 2
  ∧ capacity sample_world "R1" = 1%Z.
Proof. split; vm_compute; reflexivity. Qed.

Lemma empty_date_move_exceeds_capacity :
  active_count (run_ops sample_env empty_date_move sample_world) "R1" "" = 2
  ∧ capacity sample_world "R1" = 1%Z.
Proof. split; vm_compute; reflexivity. Qed.

Lemma capacity_invariant_witness :
  within_capacity sample_world
  ∧ Forall capacity_checked checked_sequence
  ∧ within_capacity (run_ops sample_env checked_sequence sample_world).
Proof.
  assert (Hstart : within_capacity sample_world)
    by (apply empty_store_within_capacity; [reflexivity|apply sample_rooms_positive]).
  assert (Hops : Forall capacity_checked checked_sequence).
  { unfold checked_sequence.
    repeat (apply Forall_cons; split); try apply Forall_nil;
      cbn [capacity_checked mb_dates]; try exact I.
    - apply (bool_decide_unpack _). vm_compute. exact I.
    - split; [split; discriminate|]. intros _. left. discriminate.
    - split; [split; discriminate|]. discriminate. }
  split; [exact Hstart|]. split; [exact Hops|].
  exact (capacity_invariant sample_env checked_sequence sample_world Hstart Hops).
Defined.

Lemma cancelBooking_missing_witness :
  Db.by_id missing_id sample_world = []
  ∧ BookingService.cancelBooking sample_env missing_id sample_world
    = (Failure "Failed to cancel booking: JSON object requested, multiple (or no) rows returned",
       sample_world)
  ∧ ∃ res, BookingController.cancelBooking sample_env missing_id sample_world
           = (res, sample_world)
           ∧ res_success res = false ∧ res_status res = 500.
Proof.
  destruct (cancelBooking_missing sample_env sample_world missing_id eq_refl)
    as [Hsvc Hctl].
  split; [reflexivity|]. split; [exact Hsvc|].
  destruct (Hctl eq_refl) as (res & Hrun & Hfail & _ & Hstatus).
  exists res. split; [exact Hrun|]. split; [exact Hfail|exact Hstatus].
Defined.

Lemma cancelBooking_idempotent_witness :
  Db.by_id (id booking_a) busy_world = [booking_a]
  ∧ ∃ b' w',
      BookingService.cancelBooking sample_env (id booking_a) busy_world = (Success b', w')
      ∧ status b' = "cancel"
      ∧ BookingService.cancelBooking sample_env (id booking_a) w' = (Success b', w').
Proof.
  assert (Hfound : Db.by_id (id booking_a) busy_world = [booking_a])
    by (vm_compute; reflexivity).
  split; [exact Hfound|].
  destruct (cancelBooking_idempotent sample_env busy_world (id booking_a) booking_a Hfound)
    as (b' & w' & Hfirst & Hfields & _ & Hsecond).
  exists b', w'. split; [exact Hfirst|]. split; [now rewrite Hfields|exact Hsecond].
Defined.

Lemma checkRoomAvailability_result_witness :
  rooms busy_world !! "R1" = Some (mkRoom (Some 1%Z))
  ∧ ∃ a, BookingService.checkRoomAvailability sample_env "R1" "2030-01-01"
           (Some (id booking_a)) busy_world = (Success a, busy_world)
         ∧ currentBookings a = 0 ∧ availableRooms a = 1%Z ∧ isAvailable a = true.
Proof.
  assert (Hroom : rooms busy_world !! "R1" = Some (mkRoom (Some 1%Z)))
    by (vm_compute; reflexivity).
  split; [exact Hroom|].
  destruct (checkRoomAvailability_result sample_env busy_world "R1" "2030-01-01"
              (Some (id booking_a)) (mkRoom (Some 1%Z)) 1%Z Hroom eq_refl)
    as (a & Hrun & _ & Hcount & Hleft & _ & Havail).
  { intros e He. inversion He. discriminate. }
  assert (Hzero : currentBookings a = 0) by (rewrite Hcount; vm_compute; reflexivity).
  exists a. split; [exact Hrun|]. split; [exact Hzero|].
  split; [rewrite Hleft, Hzero; reflexivity|].
  apply Havail. rewrite Hzero. reflexivity.
Defined.

Lemma createMultipleBookings_all_or_nothing_witness :
  mb_dates conflicting_batch ≠ []
  ∧ rooms busy_world !! mb_room_id conflicting_batch = Some (mkRoom (Some 1%Z))
  ∧ BookingService.createMultipleBookings sample_env conflicting_batch busy_world
    = (Failure "Room is fully booked for these dates: 2030-01-02 (Available: 1, Current: 1)",
       busy_world).
Proof.
  assert (Hdates : mb_dates conflicting_batch ≠ []) by discriminate.
  assert (Hroom : rooms busy_world !! mb_room_id conflicting_batch
                  = Some (mkRoom (Some 1%Z))) by (vm_compute; reflexivity).
  split; [exact Hdates|]. split; [exact Hroom|].
  pose proof (createMultipleBookings_all_or_nothing sample_env busy_world
                conflicting_batch (mkRoom (Some 1%Z)) Hdates Hroom) as Hclaim.
  cbv zeta in Hclaim. destruct Hclaim as [Hfail _].
  rewrite Hfail; [vm_compute; reflexivity|vm_compute; discriminate].
Defined.

Lemma inserted_rows_are_normalised_witness :
  ∃ b w',
    BookingService.createBooking sample_env sample_request sample_world = (Success b, w')
    ∧ bd_note sample_request = Some ""
    ∧ bookings w' = [b] ∧ status b = "active" ∧ id b = "booking-0" ∧ note b = None.
Proof.
  destruct (BookingService.createBooking sample_env sample_request sample_world)
    as [[b|e] w'] eqn:Hrun; [|vm_compute in Hrun; discriminate Hrun].
  destruct (inserted_rows_are_normalised sample_env sample_world) as [Hsingle _].
  destruct (Hsingle sample_request b w' Hrun) as (Hrows & Hstatus & Hid & _ & Hnote).
  exists b, w'. split; [reflexivity|]. split; [reflexivity|].
  split; [exact Hrows|]. split; [exact Hstatus|]. split; [exact Hid|].
  apply Hnote. right. reflexivity.
Defined.

Lemma updateBooking_recheck_witness :
  Db.by_id (id booking_b) busy_world = [booking_b]
  ∧ BookingService.updateBooking sample_env (id booking_b) move_to_first_day busy_world
    = (Failure "Room is fully booked for 2030-01-01. Available rooms: 1, Current bookings: 1",
       busy_world)
  ∧ ∃ b' w', BookingService.updateBooking sample_env (id booking_b) reprice busy_world
             = (Success b', w')
             ∧ price b' = Js.Num 1200 ∧ date b' = "2030-01-02" ∧ status b' = "active".
Proof.
  assert (Hfound : Db.by_id (id booking_b) busy_world = [booking_b])
    by (vm_compute; reflexivity).
  split; [exact Hfound|]. split.
  - pose proof (updateBooking_recheck sample_env busy_world (id booking_b) booking_b
                  move_to_first_day Hfound) as Hclaim.
    cbv zeta in Hclaim. destruct Hclaim as [Hchecked _].
    { intros s Hs. discriminate Hs. }
    { split; discriminate. }
    assert (Hnamed : u_room_id move_to_first_day ≠ None ∨ u_date move_to_first_day ≠ None)
      by (right; discriminate).
    pose proof (Hchecked Hnamed) as Hres.
    change (BookingService.checkRoomAvailability sample_env _ _ _ busy_world)
      with (BookingService.checkRoomAvailability sample_env "R1" "2030-01-01"
              (Some (id booking_b)) busy_world) in Hres.
    assert (Hcheck : BookingService.checkRoomAvailability sample_env "R1" "2030-01-01"
                       (Some (id booking_b)) busy_world
                     = (Success {| isAvailable := false; totalRooms := Some 1%Z;
                                   currentBookings := 1; availableRooms := 0 |}, busy_world))
      by (vm_compute; reflexivity).
    rewrite Hcheck in Hres. cbn [isAvailable] in Hres.
    rewrite Hres. vm_compute. reflexivity.
  - pose proof (updateBooking_recheck sample_env busy_world (id booking_b) booking_b
                  reprice Hfound) as Hclaim.
    cbv zeta in Hclaim. destruct Hclaim as [_ Hdirect].
    { intros s Hs. discriminate Hs. }
    { split; discriminate. }
    eexists _, _. split; [apply Hdirect; split; reflexivity|].
    split; [reflexivity|]. split; reflexivity.
Defined.

Lemma malformed_requests_rejected_witness :
  create_defect sample_env stale_request "date cannot be in the past"
  ∧ (∃ res, create_rejection stale_request "date cannot be in the past" res
            ∧ BookingController.createBooking sample_env stale_request busy_world
              = (res, busy_world))
  ∧ update_defect sample_env (id booking_a) free_of_charge "price must be greater than 0"
  ∧ (∃ res, update_rejection (id booking_a) "price must be greater than 0" res
            ∧ BookingController.updateBooking sample_env (id booking_a) free_of_charge busy_world
              = (res, busy_world)).
Proof.
  destruct (malformed_requests_rejected sample_env) as [Hcreate Hupdate].
  assert (Hstale : create_defect sample_env stale_request "date cannot be in the past").
  { apply (date_past _ _ "2020-01-01" 1577836800000%Z);
      [left; reflexivity|reflexivity|vm_compute; reflexivity|vm_compute; reflexivity]. }
  assert (Hfree : update_defect sample_env (id booking_a) free_of_charge
                    "price must be greater than 0").
  { apply (new_price_not_positive _ _ _ 0%Q); [reflexivity|apply Qle_refl]. }
  split; [exact Hstale|]. split.
  - destruct (Hcreate _ _ Hstale) as (res & Hres & Hrun). exists res. split; [exact Hres|apply Hrun].
  - split; [exact Hfree|].
    destruct (Hupdate _ _ _ Hfree) as (res & Hres & Hrun). exists res. split; [exact Hres|apply Hrun].
Defined.

(** C7 as stated fails: a creation request whose user id is no UUID and
    which carries no date is turned away with the message that a date is
    missing and an empty list of errors, so the reply does not name the
    user id; and an update of a malformed booking id that sets the price to
    zero is turned away without a word about the price. *)
Lemma defect_not_always_named :
  ¬ (∀ env body msg w,
       create_defect env body msg →
       ∃ res, BookingController.createBooking env body w = (res, w)
              ∧ rejected res ∧ msg ∈ res_errors res)
  ∧ ¬ (∀ env i u msg w,
         update_defect env i u msg →
         ∃ res, BookingController.updateBooking env i u w = (res, w)
                ∧ rejected res ∧ msg ∈ res_errors res).
Proof.
  split.
  - intros Hclaim.
    assert (Hdefect : create_defect sample_env dateless_request "user_id must be valid UUID").
    { apply (user_id_not_uuid _ _ "not-a-uuid"); [reflexivity|discriminate|reflexivity]. }
    destruct (Hclaim sample_env dateless_request _ sample_world Hdefect)
      as (res & Hrun & _ & Hnamed).
    vm_compute in Hrun. inversion Hrun; subst res. cbn in Hnamed.
    now apply elem_of_nil in Hnamed.
  - intros Hclaim.
    assert (Hdefect : update_defect sample_env "42" free_of_charge
                        "price must be greater than 0").
    { apply (new_price_not_positive _ _ _ 0%Q); [reflexivity|apply Qle_refl]. }
    destruct (Hclaim sample_env "42" free_of_charge _ sample_world Hdefect)
      as (res & Hrun & _ & Hnamed).
    vm_compute in Hrun. inversion Hrun; subst res. cbn in Hnamed.
    now apply elem_of_nil in Hnamed.
Qed.

Lemma availability_checks_disagree_witness :
  rooms (stay_world "active") !! "R1" = Some (mkRoom (Some 1%Z))
  ∧ String.leb "2030-01-01" "2030-01-01" = true
  ∧ (∃ a1 a2,
       BookingService.checkRoomAvailability sample_env "R1" "2030-01-01" None
         (stay_world "active") = (Success a1, stay_world "active")
       ∧ RoomsService.checkRoomAvailability sample_env String.leb "R1" "2030-01-01"
           "2030-01-02" (stay_world "active") = (Success a2, stay_world "active")
       ∧ currentBookings a1 = 1 ∧ ra_bookedRooms a2 = 0)
  ∧ ∃ c1 c2,
      BookingService.checkRoomAvailability sample_env "R1" "2030-01-01" None
        (stay_world "confirmed") = (Success c1, stay_world "confirmed")
      ∧ RoomsService.checkRoomAvailability sample_env String.leb "R1" "2030-01-01"
          "2030-01-01" (stay_world "confirmed") = (Success c2, stay_world "confirmed")
      ∧ currentBookings c1 = 0 ∧ ra_bookedRooms c2 = 1.
Proof.
  destruct availability_checks_disagree as [Hcounts Hstates].
  assert (Hroom : rooms (stay_world "active") !! "R1" = Some (mkRoom (Some 1%Z)))
    by (vm_compute; reflexivity).
  assert (Hrefl : String.leb "2030-01-01" "2030-01-01" = true) by reflexivity.
  assert (Hone : (1 ≠ 0)%Z) by lia.
  split; [exact Hroom|]. split; [exact Hrefl|]. split.
  - destruct (Hcounts sample_env String.leb (stay_world "active") "R1" "2030-01-01"
                "2030-01-01" "2030-01-02" _ 1%Z Hroom eq_refl Hone)
      as (a1 & a2 & Hengine & Hrooms & Hcurrent & Hbooked).
    exists a1, a2. split; [exact Hengine|]. split; [exact Hrooms|].
    split; [rewrite Hcurrent|rewrite Hbooked]; vm_compute; reflexivity.
  - destruct (Hstates sample_env String.leb Hrefl)
      as (_ & _ & c1 & c2 & _ & _ & _ & _ & _ & _ & _ & _ & Hengine & Hrooms
          & Hcurrent & Hbooked & _).
    exists c1, c2. split; [exact Hengine|]. split; [exact Hrooms|].
    split; [exact Hcurrent|exact Hbooked].
Defined.

(** * Hard delete *)

Section DeleteFacts.

Variable env : Env.

Lemma by_id_delete (i : string) (w : World) : Db.by_id i (DbRest.delete i w) = [].
Proof.
  unfold Db.by_id, DbRest.delete. cbn [bookings].
  induction (bookings w) as [|b l IH]; [reflexivity|].
  rewrite filter_cons. destruct (decide (Db.other_than i b)) as [Hb|Hb]; [|exact IH].
  rewrite filter_cons, decide_False by (unfold Db.other_than, Db.has_id in *; tauto).
  exact IH.
Qed.

Lemma delete_no_match (i : string) (w : World) :
  Db.by_id i w = [] → DbRest.delete i w = w.
Proof.
  destruct w as [bs rs k c]. unfold Db.by_id, DbRest.delete.
  cbn [bookings rooms uuid_calls clock_reads]. intros Hnone. f_equal.
  induction bs as [|b l IH]; [reflexivity|].
  rewrite filter_cons in Hnone. destruct (decide (Db.has_id i b)) as [Hb|Hb]; [discriminate|].
  rewrite filter_cons, decide_True by (unfold Db.other_than, Db.has_id in *; tauto).
  now rewrite IH.
Qed.

Lemma deleteBooking_run (i : string) (w : World) :
  BookingServiceRest.deleteBooking env i w
  = match Db.single env (Db.by_id i w) with
    | Success data => (Success data, DbRest.delete i w)
    | Failure e => (Failure ("Failed to delete booking: " +:+ e), DbRest.delete i w)
    end.
Proof.
  unfold BookingServiceRest.deleteBooking, bind, BookingService.read, BookingService.write.
  destruct (Db.single env _); reflexivity.
Qed.

Lemma split_by_id (i : string) (l : list Booking) :
  length l = length (filter (Db.other_than i) l) + length (filter (Db.has_id i) l).
Proof.
  induction l as [|b l IH]; [reflexivity|]. rewrite !filter_cons.
  destruct (decide (Db.has_id i b)) as [Hb|Hb].
  - rewrite decide_False by (unfold Db.other_than, Db.has_id in *; tauto).
    cbn [length]. lia.
  - rewrite decide_True by (unfold Db.other_than, Db.has_id in *; tauto).
    cbn [length]. lia.
Qed.

(** X1: deleting a booking whose id resolves to exactly one row returns that
    row and removes it and nothing else: the other rows stay, in order, and
    the table is one row shorter.  Afterwards the id no longer resolves:
    fetching it fails, and deleting it again fails without touching the
    store. *)
Theorem deleteBooking_removes_row (w : World) (i : string) (b : Booking) :
  Db.by_id i w = [b] →
  ∃ w',
    BookingServiceRest.deleteBooking env i w = (Success b, w')
    ∧ bookings w' = filter (λ x, id x ≠ i) (bookings w)
    ∧ length (bookings w') + 1 = length (bookings w)
    ∧ rooms w' = rooms w
    ∧ BookingService.getBookingById env i w'
      = (Failure ("Booking not found: " +:+ single_error env), w')
    ∧ BookingServiceRest.deleteBooking env i w'
      = (Failure ("Failed to delete booking: " +:+ single_error env), w').
Proof.
  intros Hb. exists (DbRest.delete i w).
  split; [rewrite deleteBooking_run, Hb; reflexivity|].
  split; [reflexivity|]. split.
  { pose proof (split_by_id i (bookings w)) as Hlen.
    unfold Db.by_id in Hb. rewrite Hb in Hlen. cbn [DbRest.delete bookings length] in *. lia. }
  split; [reflexivity|]. split.
  - apply getBookingById_missing, by_id_delete.
  - rewrite deleteBooking_run, by_id_delete. cbn [Db.single].
    now rewrite (delete_no_match _ _ (by_id_delete i w)).
Qed.

End DeleteFacts.

(** * A booking id that resolves to no row *)

Lemma not_found_marker_delete (m : string) :
  Js.includes "not found" ("Failed to delete booking: " +:+ m)
  = Js.includes "not found" m.
Proof. reflexivity. Qed.

Lemma not_found_marker_update (m : string) :
  Js.includes "not found" ("Failed to update booking: " +:+ m)
  = Js.includes "not found" m.
Proof. reflexivity. Qed.

Lemma fully_booked_marker_update (m : string) :
  Js.includes "fully booked" ("Failed to update booking: " +:+ m)
  = Js.includes "fully booked" m.
Proof. reflexivity. Qed.

Section MissingBooking.

Variable env : Env.

(** X2: how each endpoint answers for a well-formed booking id that no row
    carries.  The store is untouched in every case.  Fetching answers 404.
    An update that names a room or a date answers 404 as well, because the
    service looks the booking up first.  Deleting, and updating only price,
    note or status, go straight to the store: they answer with the store's
    own text behind a prefix, which is a 404 only if that text contains
    "not found" (an update answers 409 if it contains "fully booked"
    instead) and a 500 otherwise. *)
Theorem missing_booking_answers (w : World) (i : string) (u : UpdateData) :
  Js.uuidRegex_test i = true →
  Db.by_id i w = [] →
  BookingController.update_gate env i u = None →
  let generic := if Js.includes "not found" (single_error env) then 404 else 500 in
  (∃ res, BookingControllerRest.getBookingById env i w = (res, w)
          ∧ res_status res = 404 ∧ res_success res = false)
  ∧ (∃ res, BookingControllerRest.deleteBooking env i w = (res, w)
            ∧ res_status res = generic ∧ res_success res = false)
  ∧ (Js.truthy_opt (u_room_id u) || Js.truthy_opt (u_date u) = true →
     ∃ res, BookingController.updateBooking env i u w = (res, w)
            ∧ res_status res = 404 ∧ res_message res = "Booking not found")
  ∧ (Js.truthy_opt (u_room_id u) || Js.truthy_opt (u_date u) = false →
     ∃ res, BookingController.updateBooking env i u w = (res, w)
            ∧ res_success res = false
            ∧ res_status res
              = if Js.includes "not found" (single_error env) then 404
                else if Js.includes "fully booked" (single_error env) then 409
                else 500).
Proof.
  intros Hid Hnone Hgate generic.
  assert (Hstatus : BookingService.status_rejected u = false).
  { unfold BookingController.update_gate in Hgate. rewrite Hid in Hgate. cbn [negb] in Hgate.
    destruct (bool_decide _) eqn:Herr in Hgate; [discriminate|].
    apply bool_decide_eq_false in Herr.
    unfold BookingService.status_rejected. destruct (u_status u) as [s|] eqn:Hs; [|reflexivity].
    destruct (bool_decide (s ∈ ["active"; "cancel"])) eqn:Hin; [apply andb_false_r|].
    exfalso. apply Herr. unfold BookingController.update_errors. rewrite Hs, Hin.
    cbn [negb]. cbn zeta.
    assert (Hpos : ∀ l : list string, 0 < length l → ∀ c m, 0 < length (BookingController.push_if c m l)).
    { intros l Hl c m. unfold BookingController.push_if. destruct c; [|exact Hl].
      rewrite length_app. lia. }
    assert (Hadd : ∀ (l : list string) m, 0 < length (BookingController.push_if true m l)).
    { intros l m. unfold BookingController.push_if. rewrite length_app. cbn. lia. }
    destruct (u_date u); cbn zeta; [do 3 apply Hpos|apply Hpos]; apply Hadd. }
  split; [|split; [|split]].
  - unfold BookingControllerRest.getBookingById. rewrite Hid. cbn [negb].
    rewrite (getBookingById_missing env w i Hnone). eexists. repeat split.
  - unfold BookingControllerRest.deleteBooking. rewrite Hid. cbn [negb].
    rewrite deleteBooking_run, Hnone, (delete_no_match _ _ Hnone). cbn [Db.single].
    eexists. split; [reflexivity|].
    cbn [BookingController.reply res_status res_success BookingController.failure_status].
    now rewrite not_found_marker_delete.
  - intros Hnamed. unfold BookingController.updateBooking. rewrite Hgate.
    rewrite updateBooking_run. unfold update_refusal. rewrite Hstatus, Hnamed, Hnone.
    eexists. repeat split.
  - intros Hplain. unfold BookingController.updateBooking. rewrite Hgate.
    rewrite updateBooking_run. unfold update_refusal. rewrite Hstatus, Hplain, Hnone.
    cbn [map Db.single]. rewrite (update_no_match _ _ _ Hnone).
    eexists. split; [reflexivity|].
    cbn [BookingController.reply res_status res_success BookingController.failure_status].
    rewrite not_found_marker_update, fully_booked_marker_update. split; reflexivity.
Qed.

End MissingBooking.

(** * What one operation changes *)

Section EffectFacts.

Variable env : Env.

Lemma createBooking_outcome (w : World) (data : BookingData) :
  (∃ e, BookingService.createBooking env data w = (Failure e, w))
  ∨ (spec_available w (bd_room_id data) (bd_date data)
     ∧ is_Some (rooms w !! bd_room_id data)
     ∧ let b := fresh_row env (uuid_calls w) (clock_reads w) (bd_user_id data)
                  (bd_hotel_id data) (bd_room_id data) (bd_date data)
                  (bd_price data) (bd_note data) in
       BookingService.createBooking env data w
       = (Success b,
          mkWorld (bookings w ++ [b]) (rooms w) (S (uuid_calls w)) (S (clock_reads w)))).
Proof.
  rewrite createBooking_run.
  destruct (rooms w !! bd_room_id data) as [room|] eqn:Hroom.
  - rewrite (check_found env w _ _ None room Hroom). cbn [isAvailable].
    rewrite count_query_all.
    destruct (Z.ltb_spec (Z.of_nat (active_count w (bd_room_id data) (bd_date data)))
                (Js.to_number (total_rooms room))) as [Hlt|Hge].
    + right. split; [|split; [eauto|reflexivity]].
      unfold spec_available, capacity. now rewrite Hroom.
    + left. eauto.
  - rewrite (check_missing env w _ _ None Hroom). left. eauto.
Qed.

(** X3: a successful [createBooking] can be read back: when the id the
    generator hands out is not yet in the table, fetching the returned
    booking by its id yields exactly the record that was returned, and that
    record has status active and the submitted user, hotel, room, date and
    price. *)
Theorem created_booking_can_be_fetched (w w' : World) (data : BookingData) (b : Booking) :
  Db.by_id (uuidv4 env (uuid_calls w)) w = [] →
  BookingService.createBooking env data w = (Success b, w') →
  BookingService.getBookingById env (id b) w' = (Success b, w')
  ∧ status b = "active"
  ∧ user_id b = bd_user_id data ∧ hotel_id b = bd_hotel_id data
  ∧ room_id b = bd_room_id data ∧ date b = bd_date data ∧ price b = bd_price data.
Proof.
  intros Hfresh Hrun.
  destruct (createBooking_outcome w data) as [[e He]|(_ & _ & Hok)];
    [rewrite He in Hrun; discriminate|].
  cbv zeta in Hok. rewrite Hok in Hrun. inversion Hrun; subst b w'. clear Hrun.
  split; [|repeat split].
  apply getBookingById_single. unfold Db.by_id in *. cbn [bookings id fresh_row].
  rewrite filter_app, Hfresh, filter_cons, filter_nil.
  rewrite decide_True by reflexivity. reflexivity.
Qed.

(** X4: [createBooking] either fails and leaves the world exactly as it was,
    or succeeds and raises the number of active bookings by one on the
    requested room and date and on no other room or date; the room directory
    is never touched. *)
Theorem createBooking_effect (w : World) (data : BookingData) :
  (∃ e, BookingService.createBooking env data w = (Failure e, w))
  ∨ (∃ b w',
       BookingService.createBooking env data w = (Success b, w')
       ∧ rooms w' = rooms w
       ∧ length (bookings w') = S (length (bookings w))
       ∧ ∀ r d, active_count w' r d
                = active_count w r d
                  + (if decide (r = bd_room_id data ∧ d = bd_date data) then 1 else 0)).
Proof.
  destruct (createBooking_outcome w data) as [Hfail|(_ & _ & Hok)]; [now left|right].
  cbv zeta in Hok. eexists _, _. split; [exact Hok|].
  cbn [rooms bookings]. split; [reflexivity|]. split.
  { rewrite length_app. cbn. lia. }
  intros r d. unfold active_count. cbn [bookings].
  rewrite filter_app, length_app, filter_cons, filter_nil. f_equal.
  destruct (decide (r = bd_room_id data ∧ d = bd_date data)) as [[-> ->]|Hne].
  - rewrite decide_True; [reflexivity|]. repeat split.
  - rewrite decide_False; [reflexivity|].
    intros (Hr & Hd & _). cbn in Hr, Hd. apply Hne. now split.
Qed.

Lemma count_split_by_id (r d i : string) (w : World) :
  active_count w r d
  = length (filter (Db.other_than i) (filter (Db.active_on r d) (bookings w)))
    + length (filter (Db.active_on r d) (Db.by_id i w)).
Proof.
  unfold active_count, Db.by_id.
  induction (bookings w) as [|b l IH]; [reflexivity|]. rewrite !filter_cons.
  destruct (decide (Db.active_on r d b)) as [Ha|Ha];
    destruct (decide (Db.has_id i b)) as [Hi|Hi]; rewrite ?filter_cons.
  - rewrite decide_False by (unfold Db.other_than, Db.has_id in *; tauto).
    rewrite decide_True by assumption. cbn [length]. lia.
  - rewrite decide_True by (unfold Db.other_than, Db.has_id in *; tauto).
    cbn [length]. lia.
  - rewrite decide_False by assumption. exact IH.
  - exact IH.
Qed.

(** X5: cancelling frees capacity.  In a store within capacity, cancelling
    an active booking lowers the number of active bookings on its room and
    date by exactly one, changes the count of no other room or date, and
    leaves that room available on that date to the next availability
    check. *)
Theorem cancelBooking_frees_capacity (w : World) (i : string) (b : Booking) (room : Room) :
  Db.by_id i w = [b] →
  status b = "active" →
  rooms w !! room_id b = Some room →
  within_capacity w →
  ∃ b' w',
    BookingService.cancelBooking env i w = (Success b', w')
    ∧ active_count w' (room_id b) (date b) + 1 = active_count w (room_id b) (date b)
    ∧ (∀ r d, ¬ (r = room_id b ∧ d = date b) → active_count w' r d = active_count w r d)
    ∧ ∃ a, BookingService.checkRoomAvailability env (room_id b) (date b) None w'
           = (Success a, w')
           ∧ isAvailable a = true.
Proof.
  intros Hb Hactive Hroom Hinv.
  eexists _, _. split; [apply (cancelBooking_single env w i b Hb)|].
  assert (Hcount : ∀ r d,
    active_count (Db.update BookingService.set_cancel i w) r d
    + (if decide (r = room_id b ∧ d = date b) then 1 else 0)
    = active_count w r d).
  { intros r d. rewrite active_count_update, (count_split_by_id r d i w), Hb.
    cbn [map]. rewrite !filter_cons, !filter_nil.
    rewrite (decide_False (P := Db.active_on r d (BookingService.set_cancel b)))
      by (intros (_ & _ & Hst); discriminate Hst).
    destruct (decide (r = room_id b ∧ d = date b)) as [[-> ->]|Hne].
    - rewrite decide_True by (repeat split; assumption). cbn [length]. lia.
    - rewrite decide_False; [cbn [length]; lia|].
      intros (Hr & Hd & _). apply Hne. now split. }
  split.
  { specialize (Hcount (room_id b) (date b)).
    rewrite decide_True in Hcount by (split; reflexivity). exact Hcount. }
  split.
  { intros r d Hne. specialize (Hcount r d). rewrite decide_False in Hcount by exact Hne. lia. }
  eexists. split.
  { apply (check_found env _ _ _ None room). exact Hroom. }
  cbn [isAvailable]. rewrite count_query_all. apply Z.ltb_lt.
  specialize (Hcount (room_id b) (date b)).
  rewrite decide_True in Hcount by (split; reflexivity).
  specialize (Hinv (room_id b) (date b)). unfold capacity in Hinv. rewrite Hroom in Hinv. lia.
Qed.

(** X6: a booking does not block itself.  In a store within capacity, an
    active booking can always be updated onto the room and date it already
    occupies, even when that room is full on that date: the check leaves
    the booking's own row out of the count. *)
Theorem updateBooking_own_slot (w : World) (i : string) (b : Booking) (room : Room)
    (u : UpdateData) :
  Db.by_id i w = [b] →
  i ≠ "" →
  status b = "active" →
  rooms w !! room_id b = Some room →
  within_capacity w →
  (∀ s, u_status u = Some s → s = "active" ∨ s = "cancel") →
  well_formed_target u →
  u_room_id u ≠ None ∨ u_date u ≠ None →
  default (room_id b) (u_room_id u) = room_id b →
  default (date b) (u_date u) = date b →
  ∃ b' w',
    BookingService.updateBooking env i u w = (Success b', w')
    ∧ id b' = id b ∧ room_id b' = room_id b ∧ date b' = date b
    ∧ price b' = default (price b) (u_price u)
    ∧ status b' = default (status b) (u_status u).
Proof.
  intros Hb Hi Hactive Hroom Hinv Hvalid [Hr Hd] Hnamed Hsame_room Hsame_date.
  assert (Hstatus : BookingService.status_rejected u = false).
  { unfold BookingService.status_rejected. destruct (u_status u) as [s|]; [|reflexivity].
    destruct (Hvalid s eq_refl) as [-> | ->]; reflexivity. }
  exists (BookingService.apply_update u b), (Db.update (BookingService.apply_update u) i w).
  split; [|cbn [id room_id date price status BookingService.apply_update];
           rewrite Hsame_room, Hsame_date; repeat split].
  rewrite updateBooking_run. unfold update_refusal.
  rewrite Hstatus, Hb, (truthy_opt_supplied _ Hr), (truthy_opt_supplied _ Hd).
  rewrite (or_else_default _ _ Hr), (or_else_default _ _ Hd), Hsame_room, Hsame_date.
  assert (Hgate : bool_decide (u_room_id u ≠ None) || bool_decide (u_date u ≠ None) = true).
  { destruct Hnamed as [H|H]; rewrite (bool_decide_eq_true_2 _ H);
      [reflexivity|apply orb_true_r]. }
  rewrite Hgate, (check_found env w _ _ (Some i) room Hroom). cbn [isAvailable].
  assert (Hfree : (Z.of_nat (BookingService.count_query (room_id b) (date b) (Some i) w)
                   < Js.to_number (total_rooms room))%Z).
  { unfold BookingService.count_query. rewrite (truthy_true i Hi).
    pose proof (count_split_by_id (room_id b) (date b) i w) as Hsplit.
    rewrite Hb, filter_cons, filter_nil, decide_True in Hsplit by (repeat split; assumption).
    specialize (Hinv (room_id b) (date b)). unfold capacity in Hinv. rewrite Hroom in Hinv.
    cbn [length] in Hsplit. lia. }
  apply Z.ltb_lt in Hfree. rewrite Hfree. reflexivity.
Qed.

End EffectFacts.

(** * Properties kept by every request *)

Section RequestFacts.

Variable env : Env.

Lemma createMultipleBookings_outcome (w : World) (data : MultiBookingData) :
  (∃ e, BookingService.createMultipleBookings env data w = (Failure e, w))
  ∨ (∃ res,
       BookingService.createMultipleBookings env data w
       = (Success res, Db.insert (mr_data res) (advance w (length (mb_dates data))))
       ∧ mr_data res = fresh_rows env (uuid_calls w) (clock_reads w) (mb_user_id data)
                         (mb_hotel_id data) (mb_room_id data) (mb_price data)
                         (mb_note data) (mb_dates data)).
Proof.
  destruct (BookingService.createMultipleBookings env data w) as [[res|e] w'] eqn:Hrun.
  - right. destruct (createMultipleBookings_success env w w' data res Hrun) as [Hrows ->].
    exists res. split; [reflexivity|exact Hrows].
  - left. exists e. f_equal.
    destruct (mb_dates data) as [|d rest] eqn:Hdates.
    { unfold BookingService.createMultipleBookings in Hrun. rewrite Hdates in Hrun.
      now inversion Hrun. }
    destruct (rooms w !! mb_room_id data) as [room|] eqn:Hroom.
    + rewrite (createMultipleBookings_run env w data room) in Hrun
        by (congruence || assumption).
      destruct (concat _); [discriminate|]. now inversion Hrun.
    + unfold BookingService.createMultipleBookings in Hrun. rewrite Hdates in Hrun.
      rewrite bool_decide_eq_false_2 in Hrun by (cbn; lia).
      unfold bind at 1 in Hrun.
      rewrite (check_dates_missing env w _ d rest [] Hroom) in Hrun. now inversion Hrun.
Qed.

Lemma updateBooking_world (w : World) (i : string) (u : UpdateData) :
  snd (BookingService.updateBooking env i u w) = w
  ∨ (BookingService.status_rejected u = false
     ∧ snd (BookingService.updateBooking env i u w)
       = Db.update (BookingService.apply_update u) i w).
Proof.
  rewrite updateBooking_run.
  destruct (update_refusal env i u w) as [e|] eqn:Hgate; [now left|right].
  split.
  - unfold update_refusal in Hgate. destruct (BookingService.status_rejected u);
      [discriminate|reflexivity].
  - destruct (Db.single env _); reflexivity.
Qed.

Lemma deleteBooking_world (w : World) (i : string) :
  snd (BookingServiceRest.deleteBooking env i w) = DbRest.delete i w.
Proof. rewrite deleteBooking_run. destruct (Db.single env _); reflexivity. Qed.

Lemma fresh_rows_status k c user hotel room p n dates b :
  b ∈ fresh_rows env k c user hotel room p n dates → status b = "active".
Proof.
  revert k c. induction dates as [|d rest IH]; intros k c Hb; cbn in Hb.
  - now apply elem_of_nil in Hb.
  - apply elem_of_cons in Hb as [->|Hb]; [reflexivity|eauto].
Qed.

Lemma update_keeps_statuses (f : Booking → Booking) (i : string) (w : World) :
  (∀ b, status b ∈ ["active"; "cancel"; ""] → status (f b) ∈ ["active"; "cancel"; ""]) →
  engine_statuses w → engine_statuses (Db.update f i w).
Proof.
  intros Hf Hw b Hb. unfold Db.update in Hb. cbn [bookings] in Hb.
  apply list_elem_of_fmap in Hb as (x & -> & Hx).
  destruct (decide (Db.has_id i x)); auto.
Qed.

Lemma run_request_keeps_statuses (q : Request) (w : World) :
  engine_statuses w → engine_statuses (run_request env q w).
Proof.
  intros Hw. destruct q as [[data|data|i u|i]|i]; cbn [run_request run_op].
  - destruct (createBooking_outcome env w data) as [[e ->]|(_ & _ & Hok)]; [exact Hw|].
    cbv zeta in Hok. rewrite Hok. cbn [snd]. intros b Hb. cbn [bookings] in Hb.
    apply elem_of_app in Hb as [Hb|Hb]; [auto|].
    apply list_elem_of_singleton in Hb as ->. cbn. apply list_elem_of_here.
  - destruct (createMultipleBookings_outcome w data) as [[e ->]|(res & -> & Hrows)];
      [exact Hw|].
    cbn [snd]. intros b Hb. cbn [bookings Db.insert advance] in Hb.
    apply elem_of_app in Hb as [Hb|Hb]; [auto|].
    rewrite Hrows in Hb. rewrite (fresh_rows_status _ _ _ _ _ _ _ _ _ Hb).
    apply list_elem_of_here.
  - destruct (updateBooking_world w i u) as [->|[Hstatus ->]]; [exact Hw|].
    apply update_keeps_statuses; [|exact Hw]. intros b Hb.
    cbn [status BookingService.apply_update].
    unfold BookingService.status_rejected in Hstatus.
    destruct (u_status u) as [s|]; [|exact Hb]. cbn [default].
    destruct s as [|c s]; [do 2 apply list_elem_of_further; apply list_elem_of_here|].
    cbn [Js.truthy andb] in Hstatus.
    apply negb_false_iff, bool_decide_eq_true in Hstatus.
    rewrite !elem_of_cons in *. tauto.
  - rewrite cancelBooking_world. apply update_keeps_statuses; [|exact Hw].
    intros b _. cbn. apply list_elem_of_further, list_elem_of_here.
  - rewrite deleteBooking_world. intros b Hb. cbn [DbRest.delete bookings] in Hb.
    apply list_elem_of_filter in Hb as [_ Hb]. auto.
Qed.

Lemma run_requests_keep_statuses (qs : list Request) (w : World) :
  engine_statuses w → engine_statuses (run_requests env qs w).
Proof.
  revert w. induction qs as [|q qs IH]; intros w Hw; [exact Hw|].
  cbn [run_requests fold_left]. apply IH. now apply run_request_keeps_statuses.
Qed.

Lemma run_request_rooms (q : Request) (w : World) :
  rooms (run_request env q w) = rooms w.
Proof.
  destruct q as [[data|data|i u|i]|i]; cbn [run_request run_op].
  - destruct (createBooking_outcome env w data) as [[e ->]|(_ & _ & Hok)]; [reflexivity|].
    cbv zeta in Hok. now rewrite Hok.
  - destruct (createMultipleBookings_outcome w data) as [[e ->]|(res & -> & _)]; reflexivity.
  - destruct (updateBooking_world w i u) as [->|[_ ->]]; reflexivity.
  - now rewrite cancelBooking_world.
  - now rewrite deleteBooking_world.
Qed.

Lemma run_requests_rooms (qs : list Request) (w : World) :
  rooms (run_requests env qs w) = rooms w.
Proof.
  revert w. induction qs as [|q qs IH]; intros w; [reflexivity|].
  cbn [run_requests fold_left]. change (fold_left _ qs ?x) with (run_requests env qs x).
  now rewrite IH, run_request_rooms.
Qed.

End RequestFacts.

(** * The rooms service's queries *)

Lemma filter_none {A} (P : A → Prop) `{∀ x, Decision (P x)} (l : list A) :
  (∀ x, x ∈ l → ¬ P x) → filter P l = [].
Proof.
  induction l as [|x l IH]; intros Hnone; [reflexivity|].
  rewrite filter_cons, decide_False by (apply Hnone, list_elem_of_here).
  apply IH. intros y Hy. apply Hnone. now apply list_elem_of_further.
Qed.

Lemma engine_status_not_counted (b : Booking) :
  status b ∈ ["active"; "cancel"; ""] →
  ¬ RoomsService.in_status b ∧ ¬ RoomsServiceRest.blocking_status b.
Proof.
  unfold RoomsService.in_status, RoomsServiceRest.blocking_status.
  rewrite !elem_of_cons, !elem_of_nil.
  intros [H|[H|[H|[]]]]; rewrite H;
    (split; [intros [?|[?|[]]]|intros [?|[?|[?|[]]]]]; discriminate).
Qed.

Section RoomsFacts.

Variable env : Env.
Variable date_le : string → string → bool.

Lemma rooms_check_run (w : World) (r ci co : string) (room : Room) (t : Z) :
  rooms w !! r = Some room → total_rooms room = Some t → t ≠ 0%Z →
  RoomsService.checkRoomAvailability env date_le r ci co w
  = (let booked := RoomsService.booked_query date_le r ci co w in
     Success {| ra_totalRooms := Some t;
                ra_bookedRooms := booked;
                ra_availableRooms := Z.max 0 (t - Z.of_nat booked);
                ra_isAvailable := (0 <? t - Z.of_nat booked)%Z |}, w).
Proof.
  intros Hroom Ht Hnz.
  unfold RoomsService.checkRoomAvailability, bind, BookingService.read, Db.room_single.
  rewrite Hroom, Ht. destruct t; [congruence|reflexivity|reflexivity].
Qed.

(** X7: for a room with a configured inventory the date-range availability
    query of the rooms service succeeds without writing, and its answer is
    consistent even when the room is overbooked: [availableRooms] is never
    negative and never more than the inventory allows, and [isAvailable] is
    true exactly when [availableRooms] is positive, that is when fewer rooms
    are booked than the room type has. *)
Theorem rooms_availability_consistent (w : World) (r ci co : string) (room : Room) (t : Z) :
  rooms w !! r = Some room → total_rooms room = Some t → t ≠ 0%Z →
  ∃ a, RoomsService.checkRoomAvailability env date_le r ci co w = (Success a, w)
       ∧ ra_totalRooms a = Some t
       ∧ (0 ≤ ra_availableRooms a)%Z
       ∧ (ra_availableRooms a ≤ Z.max 0 t)%Z
       ∧ (ra_isAvailable a = true ↔ (0 < ra_availableRooms a)%Z)
       ∧ (ra_isAvailable a = true ↔ (Z.of_nat (ra_bookedRooms a) < t)%Z)
       ∧ (ra_isAvailable a = true → ra_availableRooms a = (t - Z.of_nat (ra_bookedRooms a))%Z).
Proof.
  intros Hroom Ht Hnz. eexists. split; [apply (rooms_check_run _ _ _ _ _ _ Hroom Ht Hnz)|].
  cbn [ra_totalRooms ra_availableRooms ra_isAvailable ra_bookedRooms].
  rewrite Z.ltb_lt. repeat split; lia.
Qed.

Lemma engine_store_not_booked (w : World) (r ci co : string) :
  engine_statuses w → RoomsService.booked_query date_le r ci co w = 0.
Proof.
  intros Hw. unfold RoomsService.booked_query.
  rewrite (filter_none _ (bookings w)); [reflexivity|].
  intros b Hb (_ & Hin & _).
  destruct (engine_status_not_counted b (Hw b Hb)) as [Hnot _]. exact (Hnot Hin).
Qed.

(** X8: the rooms service does not see the booking engine's bookings.
    Starting from a store whose bookings carry the engine's status values
    (an empty table is one), after any sequence of create, batch create,
    update, cancel and delete requests the date-range availability query
    reports, for every room with a positive inventory and every range,
    zero booked rooms and the whole inventory as available. *)
Theorem rooms_service_blind_to_engine (w : World) (qs : list Request)
    (r ci co : string) (room : Room) (t : Z) :
  engine_statuses w →
  rooms w !! r = Some room → total_rooms room = Some t → (0 < t)%Z →
  let w' := run_requests env qs w in
  RoomsService.checkRoomAvailability env date_le r ci co w'
  = (Success {| ra_totalRooms := Some t; ra_bookedRooms := 0;
                ra_availableRooms := t; ra_isAvailable := true |}, w').
Proof.
  intros Hw Hroom Ht Hpos w'.
  assert (Hroom' : rooms w' !! r = Some room)
    by (unfold w'; now rewrite run_requests_rooms).
  rewrite (rooms_check_run _ _ _ _ _ _ Hroom' Ht) by lia. cbv zeta.
  rewrite (engine_store_not_booked w' r ci co)
    by (apply run_requests_keep_statuses; exact Hw).
  cbn [Z.of_nat]. rewrite Z.sub_0_r, Z.max_r by lia.
  assert (Hlt : (0 <? t)%Z = true) by now apply Z.ltb_lt.
  now rewrite Hlt.
Qed.

(** X9: the guard of room deletion does not see them either.  On a store
    built by the booking engine, [checkRoomHasBookings] reports no bookings
    for every room, whatever number of active bookings the room has. *)
Theorem engine_bookings_do_not_block_deletion (w : World) (qs : list Request) (r : string) :
  engine_statuses w →
  let w' := run_requests env qs w in
  RoomsServiceRest.checkRoomHasBookings r w'
  = (Success {| hasBookings := false; bookingsCount := 0 |}, w').
Proof.
  intros Hw w'. unfold RoomsServiceRest.checkRoomHasBookings, bind, BookingService.read.
  rewrite (filter_none _ (bookings w')); [reflexivity|].
  intros b Hb [_ Hin].
  assert (Hw' : engine_statuses w') by (apply run_requests_keep_statuses; exact Hw).
  destruct (engine_status_not_counted b (Hw' b Hb)) as [_ Hnot]. exact (Hnot Hin).
Qed.

(** X10: a room whose inventory is unset or zero gets three different
    answers.  The current-availability query succeeds and calls the room
    unavailable, without reading the clock; the date-range query of the
    same service fails; and the booking engine's check succeeds and reports
    the room as not available, with as many rooms left as minus the number
    of its active bookings. *)
Theorem unset_inventory_three_answers (w : World) (r d : string) (room : Room) :
  rooms w !! r = Some room →
  total_rooms room = None ∨ total_rooms room = Some 0%Z →
  (∃ c, RoomsServiceRest.getCurrentRoomAvailability env date_le r w = (Success c, w)
        ∧ ca_status c = "unavailable" ∧ ca_totalRooms c = total_rooms room
        ∧ ca_isAvailable c = None)
  ∧ RoomsService.checkRoomAvailability env date_le r d d w
    = (Failure "Room total count not set - cannot check availability", w)
  ∧ (∃ a, BookingService.checkRoomAvailability env r d None w = (Success a, w)
          ∧ isAvailable a = false
          ∧ availableRooms a = (- Z.of_nat (active_count w r d))%Z).
Proof.
  intros Hroom Hunset. split; [|split].
  - unfold RoomsServiceRest.getCurrentRoomAvailability, bind, BookingService.read,
      Db.room_single.
    rewrite Hroom. destruct Hunset as [-> | ->]; eexists; repeat split.
  - unfold RoomsService.checkRoomAvailability, bind, BookingService.read, Db.room_single.
    rewrite Hroom. destruct Hunset as [-> | ->]; reflexivity.
  - eexists. split; [apply (check_found env w r d None room Hroom)|].
    cbn [isAvailable availableRooms]. rewrite count_query_all.
    assert (Hzero : Js.to_number (total_rooms room) = 0%Z)
      by (destruct Hunset as [-> | ->]; reflexivity).
    rewrite Hzero. split; [apply Z.ltb_ge; lia|lia].
Qed.

Lemma current_run (w : World) (r : string) (room : Room) (t : Z) :
  rooms w !! r = Some room → total_rooms room = Some t → t ≠ 0%Z →
  RoomsServiceRest.getCurrentRoomAvailability env date_le r w
  = (let w1 := mkWorld (bookings w) (rooms w) (uuid_calls w) (S (clock_reads w)) in
     let today := RoomsServiceRest.before_T (toISOString env (clock_reads w)) in
     let occupied := RoomsServiceRest.occupied_query date_le r today w1 in
     (Success {| ca_totalRooms := Some t;
                 ca_occupiedRooms := Some occupied;
                 ca_availableRooms := Some (Z.max 0 (t - Z.of_nat occupied));
                 ca_isAvailable := Some (0 <? t - Z.of_nat occupied)%Z;
                 ca_status := if (0 <? t - Z.of_nat occupied)%Z
                              then "available" else "fully_booked";
                 ca_asOfDate := Some today;
                 ca_message := None |}, w1)).
Proof.
  intros Hroom Ht Hnz.
  unfold RoomsServiceRest.getCurrentRoomAvailability, bind, BookingService.read,
    Db.room_single, BookingService.now_iso.
  rewrite Hroom, Ht. destruct t; [congruence|reflexivity|reflexivity].
Qed.

(** X11: for a room with a configured inventory the current-availability
    query succeeds, reads the clock once and answers as of the calendar day
    of that reading; the status is "available" exactly when fewer rooms are
    occupied than the room type has, and "fully_booked" otherwise, and the
    number of available rooms it reports is never negative. *)
Theorem current_availability_consistent (w : World) (r : string) (room : Room) (t : Z) :
  rooms w !! r = Some room → total_rooms room = Some t → t ≠ 0%Z →
  ∃ c occupied,
    RoomsServiceRest.getCurrentRoomAvailability env date_le r w
    = (Success c, mkWorld (bookings w) (rooms w) (uuid_calls w) (S (clock_reads w)))
    ∧ ca_asOfDate c = Some (RoomsServiceRest.before_T (toISOString env (clock_reads w)))
    ∧ ca_occupiedRooms c = Some occupied
    ∧ (ca_status c = "available" ↔ (Z.of_nat occupied < t)%Z)
    ∧ (ca_status c = "fully_booked" ↔ (t ≤ Z.of_nat occupied)%Z)
    ∧ (ca_isAvailable c = Some true ↔ ca_status c = "available")
    ∧ ∃ left, ca_availableRooms c = Some left ∧ (0 ≤ left)%Z
              ∧ (ca_status c = "available" → left = (t - Z.of_nat occupied)%Z).
Proof.
  intros Hroom Ht Hnz. rewrite (current_run w r room t Hroom Ht Hnz). cbv zeta.
  eexists _, _. split; [reflexivity|].
  cbn [ca_asOfDate ca_occupiedRooms ca_status ca_isAvailable ca_availableRooms].
  split; [reflexivity|]. split; [reflexivity|].
  destruct (Z.ltb_spec 0 (t - Z.of_nat (RoomsServiceRest.occupied_query date_le r
              (RoomsServiceRest.before_T (toISOString env (clock_reads w)))
              (mkWorld (bookings w) (rooms w) (uuid_calls w) (S (clock_reads w))))))
    as [Hlt|Hge].
  - split; [split; [lia|reflexivity]|]. split; [split; [discriminate|lia]|].
    split; [split; reflexivity|]. eexists. split; [reflexivity|]. split; lia.
  - split; [split; [discriminate|lia]|]. split; [split; [lia|reflexivity]|].
    split; [split; discriminate|]. eexists. split; [reflexivity|].
    split; [lia|discriminate].
Qed.

End RoomsFacts.

(** * Identifiers, failures and capacity under every request *)

Section IdFacts.

Variable env : Env.

Lemma fresh_rows_ids k c user hotel room p n dates :
  map id (fresh_rows env k c user hotel room p n dates)
  = map (uuidv4 env) (seq k (length dates)).
Proof.
  revert k c. induction dates as [|d rest IH]; intros k c; [reflexivity|].
  cbn [fresh_rows map length seq]. now rewrite IH.
Qed.

Lemma update_ids (f : Booking → Booking) (i : string) (w : World) :
  (∀ b, id (f b) = id b) →
  map id (bookings (Db.update f i w)) = map id (bookings w).
Proof.
  intros Hf. unfold Db.update. cbn [bookings]. rewrite map_map. apply map_ext.
  intros b. destruct (decide (Db.has_id i b)); [apply Hf|reflexivity].
Qed.

Lemma ids_generated_update (f : Booking → Booking) (i : string) (w : World) :
  (∀ b, id (f b) = id b) →
  ids_generated env w → ids_generated env (Db.update f i w).
Proof.
  intros Hf [Hnd Hgen]. split; [now rewrite update_ids|].
  intros b Hb. unfold Db.update in Hb. cbn [bookings] in Hb.
  apply list_elem_of_fmap in Hb as (x & -> & Hx). cbn [uuid_calls Db.update].
  destruct (decide (Db.has_id i x)); [rewrite Hf|]; auto.
Qed.

Lemma ids_generated_insert (w : World) (user hotel room : string) (p : Js.value)
    (n : option string) (dates : list string) :
  Inj (=) (=) (uuidv4 env) →
  ids_generated env w →
  ids_generated env
    (Db.insert (fresh_rows env (uuid_calls w) (clock_reads w) user hotel room p n dates)
       (advance w (length dates))).
Proof.
  intros Hinj [Hnd Hgen]. split.
  - cbn [Db.insert advance bookings]. rewrite map_app, fresh_rows_ids.
    apply NoDup_app. split; [exact Hnd|]. split.
    + intros x Hx Hx'. apply list_elem_of_fmap in Hx as (b & -> & Hb).
      destruct (Hgen b Hb) as (k & Hk & Hid).
      apply list_elem_of_fmap in Hx' as (j & Hj & Hin).
      apply elem_of_seq in Hin. rewrite Hid in Hj. apply Hinj in Hj. lia.
    + apply (NoDup_fmap_2 _). apply NoDup_seq.
  - intros b Hb. cbn [Db.insert advance bookings uuid_calls] in *.
    apply elem_of_app in Hb as [Hb|Hb].
    + destruct (Hgen b Hb) as (k & Hk & Hid). exists k. split; [lia|exact Hid].
    + apply list_elem_of_lookup in Hb as [j Hj].
      destruct (fresh_rows_lookup env _ _ _ _ _ _ _ _ _ _ Hj) as (d & Hd & ->).
      apply lookup_lt_Some in Hd. exists (uuid_calls w + j). split; [lia|reflexivity].
Qed.

Lemma run_request_keeps_ids (q : Request) (w : World) :
  Inj (=) (=) (uuidv4 env) →
  ids_generated env w → ids_generated env (run_request env q w).
Proof.
  intros Hinj Hw. destruct q as [[data|data|i u|i]|i]; cbn [run_request run_op].
  - destruct (createBooking_outcome env w data) as [[e ->]|(_ & _ & Hok)]; [exact Hw|].
    cbv zeta in Hok. rewrite Hok. cbn [snd].
    pose proof (ids_generated_insert w (bd_user_id data) (bd_hotel_id data)
                  (bd_room_id data) (bd_price data) (bd_note data) [bd_date data]
                  Hinj Hw) as Hins.
    cbn [fresh_rows length] in Hins. unfold Db.insert, advance in Hins.
    cbn [bookings rooms uuid_calls clock_reads] in Hins.
    now rewrite !Nat.add_1_r in Hins.
  - destruct (createMultipleBookings_outcome env w data) as [[e ->]|(res & -> & Hrows)];
      [exact Hw|].
    cbn [snd]. rewrite Hrows. now apply ids_generated_insert.
  - destruct (updateBooking_world env w i u) as [->|[_ ->]]; [exact Hw|].
    now apply ids_generated_update.
  - rewrite cancelBooking_world. now apply ids_generated_update.
  - rewrite deleteBooking_world. destruct Hw as [Hnd Hgen]. split.
    + cbn [DbRest.delete bookings].
      apply (sublist_NoDup _ (map id (bookings w))); [exact Hnd|].
      apply (fmap_sublist id), sublist_filter.
    + intros b Hb. cbn [DbRest.delete bookings uuid_calls] in *.
      apply list_elem_of_filter in Hb as [_ Hb]. auto.
Qed.

Lemma by_id_at_most_one (i : string) (w : World) :
  NoDup (map id (bookings w)) → Db.by_id i w = [] ∨ ∃ b, Db.by_id i w = [b].
Proof.
  unfold Db.by_id. induction (bookings w) as [|b l IH]; intros Hnd; [now left|].
  cbn [map] in Hnd. apply NoDup_cons in Hnd as [Hb Hl]. rewrite filter_cons.
  destruct (decide (Db.has_id i b)) as [Hi|Hi]; [|auto].
  right. exists b. rewrite (filter_none _ l); [reflexivity|].
  intros x Hx Hxi. apply Hb. unfold Db.has_id in *. rewrite Hi, <- Hxi.
  apply list_elem_of_fmap. eauto.
Qed.

(** X12: booking ids stay unique.  If the UUID generator never repeats a
    value and every id in the table was handed out by it, then after any
    sequence of create, batch create, update, cancel and delete requests the
    ids in the table are still pairwise distinct and generator-made, so
    every id resolves to at most one booking. *)
Theorem ids_stay_unique (qs : list Request) (w : World) :
  Inj (=) (=) (uuidv4 env) →
  ids_generated env w →
  let w' := run_requests env qs w in
  ids_generated env w' ∧ ∀ i, length (Db.by_id i w') ≤ 1.
Proof.
  intros Hinj Hw w'.
  assert (Hw' : ids_generated env w').
  { unfold w'. clear w'. revert w Hw. induction qs as [|q qs IH]; intros w Hw; [exact Hw|].
    cbn [run_requests fold_left]. apply IH. now apply run_request_keeps_ids. }
  split; [exact Hw'|]. intros i. destruct Hw' as [Hnd _].
  destruct (by_id_at_most_one i w' Hnd) as [-> | [b ->]]; cbn; lia.
Qed.

(** X13: a request that fails leaves no trace.  When no two bookings share
    an id, every create, batch create, update, cancel or delete request that
    the service answers with a failure leaves the world exactly as it was. *)
Theorem failed_request_changes_nothing (q : Request) (w : World) :
  NoDup (map id (bookings w)) →
  request_failed env q w = true →
  run_request env q w = w.
Proof.
  intros Hnd Hfailed.
  destruct q as [[data|data|i u|i]|i]; cbn [run_request run_op request_failed] in *.
  - destruct (createBooking_outcome env w data) as [[e He]|(_ & _ & Hok)];
      [now rewrite He|].
    cbv zeta in Hok. rewrite Hok in Hfailed. discriminate Hfailed.
  - destruct (createMultipleBookings_outcome env w data) as [[e He]|(res & Hok & _)];
      [now rewrite He|].
    rewrite Hok in Hfailed. discriminate Hfailed.
  - rewrite updateBooking_run in *.
    destruct (update_refusal env i u w) as [e|]; [reflexivity|].
    destruct (by_id_at_most_one i w Hnd) as [Hnone | [b Hb]].
    + rewrite Hnone. cbn [map Db.single snd]. apply update_no_match. exact Hnone.
    + rewrite Hb in Hfailed. discriminate Hfailed.
  - destruct (by_id_at_most_one i w Hnd) as [Hnone | [b Hb]].
    + rewrite cancelBooking_world. apply update_no_match. exact Hnone.
    + rewrite (cancelBooking_single env w i b Hb) in Hfailed. discriminate Hfailed.
  - rewrite deleteBooking_run in *.
    destruct (by_id_at_most_one i w Hnd) as [Hnone | [b Hb]].
    + rewrite Hnone. cbn [Db.single snd]. apply delete_no_match. exact Hnone.
    + rewrite Hb in Hfailed. discriminate Hfailed.
Qed.

Lemma count_after_delete (r d i : string) (l : list Booking) :
  length (filter (Db.active_on r d) (filter (Db.other_than i) l))
  ≤ length (filter (Db.active_on r d) l).
Proof.
  induction l as [|b l IH]; [reflexivity|]. rewrite !filter_cons.
  destruct (decide (Db.other_than i b)); rewrite ?filter_cons;
    destruct (decide (Db.active_on r d b)); cbn [length]; lia.
Qed.

Lemma delete_keeps_capacity (i : string) (w : World) :
  within_capacity w → within_capacity (DbRest.delete i w).
Proof.
  intros Hinv. apply (within_capacity_same_rooms w); [reflexivity|].
  intros r d. specialize (Hinv r d). unfold active_count in *.
  cbn [DbRest.delete bookings].
  pose proof (count_after_delete r d i (bookings w)). lia.
Qed.

(** X14: hard deletes keep the inventory invariant.  Starting within
    capacity, after any sequence of capacity-checked engine requests and
    deletes of any booking id, every room is still within its inventory on
    every date. *)
Theorem capacity_invariant_with_deletes (qs : list Request) (w : World) :
  within_capacity w →
  Forall request_checked qs →
  within_capacity (run_requests env qs w).
Proof.
  intros Hinv Hqs. revert w Hinv.
  induction Hqs as [|q qs Hq _ IH]; intros w Hinv; [exact Hinv|].
  cbn [run_requests fold_left]. apply IH.
  destruct q as [op|i]; cbn [run_request request_checked] in *.
  - now apply run_op_keeps_capacity.
  - rewrite deleteBooking_world. now apply delete_keeps_capacity.
Qed.

End IdFacts.

(** * What the controller's validation lets through *)

Section GateFacts.

Variable env : Env.

Lemma push_if_nil (c : bool) (m : string) (errors : list string) :
  BookingController.push_if c m errors = [] ↔ c = false ∧ errors = [].
Proof.
  unfold BookingController.push_if. destruct c.
  - split; [intros H; apply app_eq_nil in H as [_ H]; discriminate H|intros [H _]; discriminate H].
  - tauto.
Qed.

Lemma valid_date_iff (s : string) :
  BookingController.invalid_date env s = false ∧ BookingController.before_today env s = false
  ↔ date_acceptable env s.
Proof.
  unfold BookingController.invalid_date, BookingController.before_today, date_acceptable.
  destruct (getTime env s) as [t|].
  - rewrite Z.ltb_ge. split.
    + intros [_ Hle]. eauto.
    + intros (t' & Ht' & Hle). inversion Ht'; subst t'. now split.
  - split; [intros [H _]; discriminate H|intros (t & H & _); discriminate H].
Qed.

Lemma validate_dates_nil (k : nat) (ds : list string) (errors : list string) :
  BookingController.validate_dates env k ds errors = []
  ↔ errors = [] ∧ ∀ s, s ∈ ds → date_acceptable env s.
Proof.
  revert k errors. induction ds as [|s ds IH]; intros k errors.
  - cbn. split; [intros H; split; [exact H|]|tauto].
    intros s Hs. now apply elem_of_nil in Hs.
  - cbn [BookingController.validate_dates]. rewrite IH.
    pose proof (valid_date_iff s) as Hs.
    destruct (BookingController.invalid_date env s) eqn:Hinv;
      [|destruct (BookingController.before_today env s) eqn:Hpast].
    + split.
      * intros [H _]. apply app_eq_nil in H as [_ H]. discriminate H.
      * intros [_ Hall]. destruct (proj2 Hs (Hall s (list_elem_of_here _ _))) as [H _].
        discriminate H.
    + split.
      * intros [H _]. apply app_eq_nil in H as [_ H]. discriminate H.
      * intros [_ Hall]. destruct (proj2 Hs (Hall s (list_elem_of_here _ _))) as [_ H].
        discriminate H.
    + split.
      * intros [He Hall]. split; [exact He|]. intros x Hx.
        apply elem_of_cons in Hx as [->|Hx]; [apply Hs; now split|auto].
      * intros [He Hall]. split; [exact He|]. intros x Hx. apply Hall.
        now apply list_elem_of_further.
Qed.

Lemma set_fold_exact (ds seen : list string) :
  NoDup ds → (∀ y, y ∈ ds → y ∉ seen) →
  length (fold_left Js.set_add ds seen) = length seen + length ds.
Proof.
  revert seen. induction ds as [|x ds IH]; intros seen Hnd Hfresh; cbn [fold_left length];
    [lia|].
  apply NoDup_cons in Hnd as [Hx Hnd]. rewrite set_add_spec.
  rewrite decide_False by (apply Hfresh, list_elem_of_here).
  rewrite IH; [rewrite length_app; cbn; lia|exact Hnd|].
  intros y Hy Hin. apply elem_of_app in Hin as [Hin|Hin].
  - apply (Hfresh y); [now apply list_elem_of_further|exact Hin].
  - apply list_elem_of_singleton in Hin as ->. contradiction.
Qed.

Lemma new_Set_length (ds : list string) :
  length (Js.new_Set ds) = length ds ↔ NoDup ds.
Proof.
  split.
  - intros Hlen. now apply (set_fold_full ds []).
  - intros Hnd. unfold Js.new_Set. rewrite set_fold_exact; [reflexivity|exact Hnd|].
    intros y _. apply not_elem_of_nil.
Qed.

Lemma uuid_not_empty (s : string) : Js.uuidRegex_test s = true → s ≠ "".
Proof. intros H ->. discriminate H. Qed.

Lemma identifier_ok (v : option string) :
  negb (Js.truthy_opt v) = false ∧ BookingController.present_not_uuid v = false
  ↔ ∃ s, v = Some s ∧ Js.uuidRegex_test s = true.
Proof.
  unfold BookingController.present_not_uuid. destruct v as [s|]; cbn [Js.truthy_opt].
  - split.
    + intros [Ht Hu]. apply negb_false_iff in Ht. rewrite Ht in Hu. cbn in Hu.
      apply negb_false_iff in Hu. eauto.
    + intros (s' & Hs' & Hu). inversion Hs'; subst s'.
      rewrite (truthy_true s (uuid_not_empty s Hu)), Hu. now split.
  - split; [intros [H _]; discriminate H|intros (s & H & _); discriminate H].
Qed.

Lemma positive_iff (q : Q) : Qle_bool q 0 = false ↔ (0 < q)%Q.
Proof.
  split.
  - intros Hq. apply Qnot_le_lt. intros Hle. apply Qle_bool_iff in Hle. congruence.
  - intros Hq. destruct (Qle_bool q 0) eqn:Hle; [|reflexivity].
    apply Qle_bool_iff in Hle. now apply Qlt_not_le in Hq.
Qed.

Lemma converted_positive_iff (o : option Q) :
  match o with Some q => Qle_bool q 0 | None => false end = false
  ↔ ∀ q, o = Some q → (0 < q)%Q.
Proof.
  destruct o as [q|].
  - rewrite positive_iff. split; [intros H q' Hq'; inversion Hq'; now subst|auto].
  - split; [discriminate|reflexivity].
Qed.

Lemma le_zero_false (v : Js.value) :
  Js.le_zero (toNumber env) v = false ↔ price_not_refused env v.
Proof.
  unfold Js.le_zero. destruct v as [|b|q|s|s];
    cbn [Js.value_to_number price_not_refused].
  - split; [discriminate|contradiction].
  - destruct b; split; try reflexivity; discriminate.
  - apply positive_iff.
  - apply converted_positive_iff.
  - apply converted_positive_iff.
Qed.

Lemma price_ok (v : option Js.value) :
  match v with
  | Some p => Js.falsy p || Js.le_zero (toNumber env) p
  | None => true
  end = false
  ↔ ∃ p, v = Some p ∧ p ≠ Js.Str "" ∧ price_not_refused env p.
Proof.
  destruct v as [p|].
  - rewrite orb_false_iff, le_zero_false.
    assert (Hfalsy : price_not_refused env p → Js.falsy p = false ↔ p ≠ Js.Str "").
    { intros Hp. destruct p as [|b|q|s|s]; cbn [Js.falsy price_not_refused] in *.
      - contradiction.
      - subst b. split; [discriminate|reflexivity].
      - split; [discriminate|]. intros _.
        destruct (Qeq_bool q 0) eqn:Hq; [|reflexivity].
        apply Qeq_bool_eq in Hq. rewrite Hq in Hp. now apply Qlt_irrefl in Hp.
      - rewrite negb_false_iff. destruct s; cbn [Js.truthy].
        + split; [discriminate|congruence].
        + split; [discriminate|reflexivity].
      - split; [discriminate|reflexivity]. }
    split.
    + intros [Hf Hp]. exists p. split; [reflexivity|]. split; [now apply Hfalsy|exact Hp].
    + intros (p' & Hp' & Hne & Hp). inversion Hp'; subst p'. split; [now apply Hfalsy|exact Hp].
  - split; [discriminate|intros (p & H & _); discriminate H].
Qed.

Lemma create_fields_ok (body : CreateBody) :
  BookingController.push_if (BookingController.present_not_uuid (cb_room_id body))
    "room_id must be valid UUID"
    (BookingController.push_if (BookingController.present_not_uuid (cb_hotel_id body))
       "hotel_id must be valid UUID"
       (BookingController.push_if (BookingController.present_not_uuid (cb_user_id body))
          "user_id must be valid UUID"
          (BookingController.push_if
             match cb_price body with
             | Some p => Js.falsy p || Js.le_zero (toNumber env) p
             | None => true
             end "price must be greater than 0"
             (BookingController.push_if (negb (Js.truthy_opt (cb_room_id body)))
                "room_id is required"
                (BookingController.push_if (negb (Js.truthy_opt (cb_hotel_id body)))
                   "hotel_id is required"
                   (BookingController.push_if (negb (Js.truthy_opt (cb_user_id body)))
                      "user_id is required" [])))))) = []
  ↔ identifiers_and_price_ok env body.
Proof.
  unfold identifiers_and_price_ok. rewrite !push_if_nil.
  rewrite <- (identifier_ok (cb_user_id body)), <- (identifier_ok (cb_hotel_id body)),
    <- (identifier_ok (cb_room_id body)), <- (price_ok (cb_price body)).
  tauto.
Qed.

Lemma gate_none (body : CreateBody) :
  BookingController.create_gate env body = None
  ↔ (BookingController.isSingleDate body = true
     ∨ BookingController.isMultipleDates body = true)
    ∧ BookingController.create_errors env body = [].
Proof.
  unfold BookingController.create_gate.
  destruct (BookingController.isSingleDate body), (BookingController.isMultipleDates body);
    cbn [negb andb];
    try (destruct (BookingController.create_errors env body) as [|e errors];
         [rewrite bool_decide_eq_false_2 by (cbn; lia)
         |rewrite bool_decide_eq_true_2 by (cbn; lia)]);
    split; try discriminate; try tauto; try (intros [_ H]; discriminate H);
    intros [[H|H] _]; discriminate H.
Qed.

Lemma create_gate_none_iff (body : CreateBody) :
  BookingController.create_gate env body = None ↔ well_formed_create env body.
Proof.
  rewrite gate_none.
  unfold well_formed_create, BookingController.create_errors,
    BookingController.isSingleDate, BookingController.isMultipleDates.
  cbv zeta. rewrite <- (create_fields_ok body).
  set (fields := BookingController.push_if _ "room_id must be valid UUID" _).
  destruct (cb_dates body) as [[|d ds]|]; destruct (cb_date body) as [[|c s]|];
    cbn [Js.truthy_opt Js.truthy negb andb default from_option Datatypes.id];
    rewrite ?push_if_nil, ?validate_dates_nil, ?push_if_nil, ?negb_false_iff,
      ?bool_decide_eq_true, ?bool_decide_eq_false, ?new_Set_length;
    try rewrite valid_date_iff.
  all: split.
  all: try (intros [[H|H] _]; discriminate H).
  all: try (intros [_ (s' & H & _)]; discriminate H).
  all: try (intros [_ (s' & H & Hne & _)]; inversion H; congruence).
  all: try (intros [_ (Hpast & Hinvalid & Hf)]; split; [exact Hf|];
            eexists; split; [reflexivity|]; split; [discriminate|];
            apply valid_date_iff; now split).
  all: try (intros [Hf (s' & H & _ & Hok)]; inversion H; subst s';
            apply valid_date_iff in Hok as [Hi Hp];
            split; [now left|]; repeat split; assumption).
  all: try (intros [_ (Hnd & (Hlen & Hf) & Hall)]; split; [exact Hf|];
            repeat split; [lia|exact Hnd|exact Hall]).
  all: try (intros [Hf (Hlen & Hnd & Hall)]; split; [now right|];
            repeat split; [exact Hnd|lia|exact Hf|exact Hall]).
Qed.

Lemma create_gate_refusal (body : CreateBody) (res : Response) :
  BookingController.create_gate env body = Some res →
  res_status res = 400 ∧ res_success res = false ∧ res_data res = [].
Proof.
  unfold BookingController.create_gate.
  destruct (negb _ && negb _); [intros H; inversion H; now subst|].
  destruct (bool_decide _); [intros H; inversion H; now subst|discriminate].
Qed.

(** X15: the creation validation is exact.  A creation request is passed on
    to the service exactly when it carries three identifiers of UUID shape,
    a price that is present, is not the empty string and is not a value
    that JavaScript compares as at most zero, and either a list of 1 to 30
    date strings, no two of them the same string, that all parse and are
    not in the past, or no such list and a single non-empty date that
    parses and is not in the past.  Every other request is answered with
    status 400 and leaves the store untouched.  (A positive number is an
    accepted price, and so are [true] and every non-empty string, array or
    object that converts to no number, like the string [free].) *)
Theorem create_gate_exact (body : CreateBody) (w : World) :
  (BookingController.create_gate env body = None ↔ well_formed_create env body)
  ∧ (¬ well_formed_create env body →
     ∃ res, BookingController.createBooking env body w = (res, w)
            ∧ res_status res = 400 ∧ res_success res = false ∧ res_data res = []).
Proof.
  split; [apply create_gate_none_iff|].
  intros Hbad. unfold BookingController.createBooking.
  destruct (BookingController.create_gate env body) as [res|] eqn:Hgate.
  - exists res. split; [reflexivity|]. exact (create_gate_refusal body res Hgate).
  - now apply create_gate_none_iff in Hgate.
Qed.

End GateFacts.

(** * Requests that go through the controller *)

Lemma fully_booked_marker_single (m : string) :
  Js.includes "fully booked" ("Room is fully booked for " +:+ m) = true.
Proof. reflexivity. Qed.

Lemma fully_booked_marker_batch (m : string) :
  Js.includes "fully booked" ("Room is fully booked for these dates: " +:+ m) = true.
Proof. reflexivity. Qed.

Lemma fully_booked_marker_room (m : string) :
  Js.includes "fully booked" ("Room not found: " +:+ m) = Js.includes "fully booked" m.
Proof. reflexivity. Qed.

Lemma not_found_marker_room (m : string) :
  Js.includes "not found" ("Room not found: " +:+ m) = true.
Proof. reflexivity. Qed.

Section ControllerFacts.

Variable env : Env.

Lemma controller_create_world (body : CreateBody) (w : World) :
  snd (BookingController.createBooking env body w) = w
  ∨ (BookingController.create_gate env body = None
     ∧ BookingController.isSingleDate body = true
     ∧ snd (BookingController.createBooking env body w)
       = snd (BookingService.createBooking env
                (mkBookingData (default "" (cb_user_id body)) (default "" (cb_hotel_id body))
                   (default "" (cb_room_id body)) (default "" (cb_date body))
                   (default Js.Null (cb_price body)) (cb_note body)) w))
  ∨ (BookingController.create_gate env body = None
     ∧ BookingController.isSingleDate body = false
     ∧ snd (BookingController.createBooking env body w)
       = snd (BookingService.createMultipleBookings env
                (mkMultiBookingData (default "" (cb_user_id body))
                   (default "" (cb_hotel_id body)) (default "" (cb_room_id body))
                   (default [] (cb_dates body)) (default Js.Null (cb_price body))
                   (cb_note body)) w)).
Proof.
  unfold BookingController.createBooking.
  destruct (BookingController.create_gate env body) as [res|]; [now left|right].
  destruct (BookingController.isSingleDate body).
  - left. split; [reflexivity|]. split; [reflexivity|].
    destruct (BookingService.createBooking env _ w) as [[b|e] w']; reflexivity.
  - right. split; [reflexivity|]. split; [reflexivity|].
    destruct (BookingService.createMultipleBookings env _ w) as [[b|e] w']; reflexivity.
Qed.

Lemma gate_dates_distinct (body : CreateBody) (d : string) (ds : list string) :
  BookingController.create_gate env body = None →
  cb_dates body = Some (d :: ds) →
  NoDup (d :: ds).
Proof.
  intros Hgate Hdates. apply (gate_none env) in Hgate as [_ Herrors].
  unfold BookingController.create_errors, BookingController.isMultipleDates in Herrors.
  cbv zeta in Herrors. rewrite Hdates in Herrors.
  cbn [default from_option Datatypes.id] in Herrors.
  apply push_if_nil in Herrors as [Hunique _].
  apply negb_false_iff, bool_decide_eq_true in Hunique. now apply new_Set_length.
Qed.

Lemma requested_dates_single (body : CreateBody) :
  BookingController.isSingleDate body = true →
  requested_dates body = [default "" (cb_date body)].
Proof.
  unfold BookingController.isSingleDate, BookingController.isMultipleDates, requested_dates.
  destruct (cb_dates body) as [[|d ds]|], (cb_date body) as [s|];
    cbn; rewrite ?andb_false_r; try discriminate; reflexivity.
Qed.

Lemma requested_dates_multiple (body : CreateBody) :
  BookingController.isMultipleDates body = true →
  requested_dates body = default [] (cb_dates body).
Proof.
  unfold BookingController.isMultipleDates, requested_dates.
  destruct (cb_dates body) as [[|d ds]|]; try discriminate; reflexivity.
Qed.

Lemma gate_multiple (body : CreateBody) :
  BookingController.create_gate env body = None →
  BookingController.isSingleDate body = false →
  BookingController.isMultipleDates body = true.
Proof.
  intros Hgate Hsingle. apply (gate_none env) in Hgate as [[H|H] _]; congruence.
Qed.

(** The dates in the table after a creation request are those that were
    there and those the request asked for. *)
Lemma controller_create_dates (body : CreateBody) (w : World) (s : string) :
  s ∈ map date (bookings (snd (BookingController.createBooking env body w))) →
  s ∈ map date (bookings w) ++ requested_dates body.
Proof.
  destruct (controller_create_world body w) as [->|[(_ & Hsingle & ->)|(Hgate & Hsingle & ->)]].
  - intros Hs. apply elem_of_app. now left.
  - rewrite (requested_dates_single body Hsingle).
    destruct (createBooking_outcome env w
                (mkBookingData (default "" (cb_user_id body)) (default "" (cb_hotel_id body))
                   (default "" (cb_room_id body)) (default "" (cb_date body))
                   (default Js.Null (cb_price body)) (cb_note body)))
      as [[e ->]|(_ & _ & Hok)].
    + intros Hs. apply elem_of_app. now left.
    + cbv zeta in Hok. rewrite Hok. cbn [snd bookings bd_date]. now rewrite map_app.
  - rewrite (requested_dates_multiple body (gate_multiple body Hgate Hsingle)).
    destruct (createMultipleBookings_outcome env w
                (mkMultiBookingData (default "" (cb_user_id body))
                   (default "" (cb_hotel_id body)) (default "" (cb_room_id body))
                   (default [] (cb_dates body)) (default Js.Null (cb_price body))
                   (cb_note body)))
      as [[e ->]|(res & -> & Hrows)].
    + intros Hs. apply elem_of_app. now left.
    + cbn [snd Db.insert advance bookings mb_dates]. rewrite map_app, Hrows.
      now rewrite fresh_rows_dates.
Qed.

Lemma filter_agree {A : Type} (P Q : A → Prop) `{!∀ x, Decision (P x)}
    `{!∀ x, Decision (Q x)} (l : list A) :
  (∀ x, x ∈ l → P x ↔ Q x) → filter P l = filter Q l.
Proof.
  induction l as [|x l IH]; intros Hl; [reflexivity|].
  rewrite !filter_cons, IH by (intros y Hy; apply Hl; now apply list_elem_of_further).
  pose proof (Hl x (list_elem_of_here _ _)) as Hx.
  destruct (decide (P x)), (decide (Q x)); try reflexivity; tauto.
Qed.

(** Where every day has one spelling, counting per date string is counting
    per night. *)
Lemma capacity_by_day (w : World) :
  within_capacity w →
  one_spelling_per_day env (map date (bookings w)) →
  within_capacity_by_day env w.
Proof.
  intros Hinv Hone r t. unfold active_count_on_day.
  destruct (filter (active_on_day env r t) (bookings w)) as [|b0 rest] eqn:Hrows.
  - specialize (Hinv r ""). cbn [length]. lia.
  - assert (Hb0 : b0 ∈ filter (active_on_day env r t) (bookings w))
      by (rewrite Hrows; apply list_elem_of_here).
    apply list_elem_of_filter in Hb0 as [(_ & Ht0 & _) Hin0].
    rewrite <- Hrows.
    rewrite (filter_agree (active_on_day env r t) (Db.active_on r (date b0)) (bookings w)).
    + apply Hinv.
    + intros b Hb. unfold active_on_day, Db.active_on. split.
      * intros (Hr & Ht & Hst). repeat split; try assumption.
        apply (Hone (date b) (date b0) t); try assumption;
          apply list_elem_of_fmap; eauto.
      * intros (Hr & Hd & Hst). repeat split; try assumption. now rewrite Hd.
Qed.

(** X16: creation requests that go through the controller keep the
    inventory invariant, per date string and per night.  Starting within
    capacity, and with every day spelled in one way only among the dates in
    the table and in the request, the store after the request is within
    capacity for every room and date string and for every room and night:
    the validation only lets through batches whose date strings are
    pairwise distinct. *)
Theorem controller_creation_keeps_capacity (body : CreateBody) (w : World) :
  within_capacity w →
  one_spelling_per_day env (map date (bookings w) ++ requested_dates body) →
  let w' := snd (BookingController.createBooking env body w) in
  within_capacity w' ∧ within_capacity_by_day env w'.
Proof.
  intros Hinv Hone w'.
  assert (Hinv' : within_capacity w').
  { unfold w'.
    destruct (controller_create_world body w) as [->|[(_ & _ & ->)|(Hgate & _ & ->)]].
    - exact Hinv.
    - now apply createBooking_keeps_capacity.
    - apply createMultipleBookings_keeps_capacity; [|exact Hinv].
      cbn [mb_dates].
      destruct (cb_dates body) as [[|d ds]|] eqn:Hdates;
        cbn [default from_option Datatypes.id];
        [constructor|exact (gate_dates_distinct body d ds Hgate Hdates)|constructor]. }
  split; [exact Hinv'|].
  apply capacity_by_day; [exact Hinv'|].
  intros s1 s2 t Hs1 Hs2. apply Hone; now apply controller_create_dates.
Qed.

Lemma update_gate_none (i : string) (u : UpdateData) :
  BookingController.update_gate env i u = None →
  Js.uuidRegex_test i = true ∧ BookingController.update_errors env u = [].
Proof.
  unfold BookingController.update_gate.
  destruct (Js.uuidRegex_test i); cbn [negb]; [|discriminate].
  destruct (BookingController.update_errors env u) as [|e errors]; [now split|].
  rewrite bool_decide_eq_true_2 by (cbn; lia). discriminate.
Qed.

(** X17: an update that goes through the controller keeps the inventory
    invariant unless it sets the status to active without naming a room or
    a date: the validation admits neither an empty room id nor, when the
    empty string does not parse as a date, an empty date. *)
Theorem controller_update_keeps_capacity (i : string) (u : UpdateData) (w : World) :
  getTime env "" = None →
  (u_status u = Some "active" → u_room_id u ≠ None ∨ u_date u ≠ None) →
  within_capacity w →
  within_capacity (snd (BookingController.updateBooking env i u w)).
Proof.
  intros Hempty Hactive Hinv. unfold BookingController.updateBooking.
  destruct (BookingController.update_gate env i u) as [res|] eqn:Hgate; [exact Hinv|].
  apply update_gate_none in Hgate as [_ Herrors].
  assert (Hworld : within_capacity (snd (BookingService.updateBooking env i u w))).
  2:{ destruct (BookingService.updateBooking env i u w) as [[b|e] w']; exact Hworld. }
  apply updateBooking_keeps_capacity; [|exact Hinv].
  split; [|exact Hactive]. unfold BookingController.update_errors in Herrors.
  cbv zeta in Herrors. split.
  - intros Hr. rewrite Hr in Herrors.
    assert (Hshape : Js.uuidRegex_test "" = false) by reflexivity.
    destruct (u_date u); cbv zeta in Herrors; rewrite !push_if_nil, Hshape in Herrors;
      cbn [negb] in Herrors; intuition congruence.
  - intros Hd. rewrite Hd in Herrors. cbv zeta in Herrors.
    rewrite !push_if_nil in Herrors. destruct Herrors as (_ & Hinvalid & _).
    unfold BookingController.invalid_date in Hinvalid. rewrite Hempty in Hinvalid.
    discriminate Hinvalid.
Qed.

Lemma spec_available_iff (w : World) (r d : string) (room : Room) :
  rooms w !! r = Some room →
  spec_available w r d
  ↔ (Z.of_nat (active_count w r d) <? Js.to_number (total_rooms room))%Z = true.
Proof.
  intros Hroom. unfold spec_available, capacity. rewrite Hroom. now rewrite Z.ltb_lt.
Qed.

(** X18: how the controller answers a creation request that passed
    validation; the answer is decided by the room and by the number of
    active bookings on the requested dates, and by nothing else.  When the
    room does not exist, nothing is written and the status is 500 (409 if
    the store's error text happened to contain "fully booked"), never 404.
    When the room exists and has a free unit on every requested date, the
    status is 201 and one active row for that room is appended per
    requested date, in the order of the request.  When the room exists and
    is full on one of the requested dates, the status is 409 and nothing is
    written. *)
Theorem controller_create_answers (body : CreateBody) (w : World) :
  BookingController.create_gate env body = None →
  let room := default "" (cb_room_id body) in
  let dates := requested_dates body in
  let conflicts := filter (λ d, ¬ spec_available w room d) dates in
  ∃ res w',
    BookingController.createBooking env body w = (res, w')
    ∧ match rooms w !! room with
      | None =>
          res_success res = false ∧ res_data res = [] ∧ w' = w
          ∧ res_status res
            = (if Js.includes "fully booked" (single_error env) then 409 else 500)
      | Some _ =>
          (conflicts = [] →
           res_status res = 201 ∧ res_success res = true
           ∧ bookings w' = bookings w ++ res_data res
           ∧ rooms w' = rooms w
           ∧ map date (res_data res) = dates
           ∧ Forall (λ b, status b = "active" ∧ room_id b = room) (res_data res))
          ∧ (conflicts ≠ [] →
             res_status res = 409 ∧ res_success res = false
             ∧ res_data res = [] ∧ w' = w)
      end.
Proof.
  intros Hgate room dates conflicts.
  unfold BookingController.createBooking. rewrite Hgate. fold room.
  destruct (BookingController.isSingleDate body) eqn:Hsingle.
  - assert (Hdates : dates = [default "" (cb_date body)])
      by now apply requested_dates_single.
    rewrite createBooking_run. cbn [bd_room_id bd_date bd_user_id bd_hotel_id bd_price bd_note].
    destruct (rooms w !! room) as [r|] eqn:Hroom.
    + rewrite (check_found env w _ _ None r Hroom). cbn [isAvailable].
      rewrite count_query_all.
      pose proof (spec_available_iff w room (default "" (cb_date body)) r Hroom) as Hfree.
      assert (Hconflicts : conflicts = [] ↔ spec_available w room (default "" (cb_date body))).
      { unfold conflicts. rewrite Hdates, filter_cons, filter_nil.
        destruct (decide (¬ spec_available w room (default "" (cb_date body)))) as [Hno|Hyes].
        - split; [discriminate|contradiction].
        - split; [intros _; now apply dec_stable|reflexivity]. }
      destruct (_ <? _)%Z.
      * eexists _, _. split; [reflexivity|]. split.
        -- intros _.
           cbn [BookingController.reply res_status res_success res_data bookings rooms
                  map date fresh_row].
           rewrite Hdates. repeat split. constructor; [split; reflexivity|constructor].
        -- intros Hfull. exfalso. apply Hfull, Hconflicts, Hfree. reflexivity.
      * eexists _, _. split; [reflexivity|]. split.
        -- intros Hnone. apply Hconflicts, Hfree in Hnone. discriminate Hnone.
        -- intros _.
           cbn [BookingController.reply res_status res_success res_data
                  BookingController.failure_status].
           unfold BookingService.fully_booked_message.
           rewrite fully_booked_marker_single. repeat split.
    + rewrite (check_missing env w _ _ None Hroom).
      eexists _, _. split; [reflexivity|].
      cbn [BookingController.reply res_status res_success res_data
             BookingController.failure_status].
      rewrite fully_booked_marker_room. repeat split.
  - assert (Hdates : dates = default [] (cb_dates body))
      by (apply requested_dates_multiple; now apply gate_multiple).
    assert (Hne : default [] (cb_dates body) ≠ []).
    { pose proof (gate_multiple body Hgate Hsingle) as H.
      unfold BookingController.isMultipleDates in H.
      destruct (cb_dates body) as [[|d ds]|]; try discriminate H. discriminate. }
    destruct (rooms w !! room) as [r|] eqn:Hroom.
    + rewrite (createMultipleBookings_run env w _ r) by assumption.
      cbn [mb_dates mb_room_id mb_user_id mb_hotel_id mb_price mb_note].
      pose proof (unavailable_entries_spec env w room r (default [] (cb_dates body)) Hroom)
        as Hspec.
      rewrite <- Hdates in Hspec. fold conflicts in Hspec. rewrite Hdates in Hspec.
      destruct (concat _) as [|x xs].
      * eexists _, _. split; [reflexivity|]. split.
        -- intros _.
           cbn [BookingController.reply res_status res_success res_data bookings rooms
                  mr_data Db.insert advance].
           rewrite fresh_rows_dates, Hdates. repeat split. apply fresh_rows_active.
        -- intros Hfull. destruct conflicts; [congruence|discriminate Hspec].
      * eexists _, _. split; [reflexivity|]. split.
        -- intros Hnone. rewrite Hnone in Hspec. discriminate Hspec.
        -- intros _.
           cbn [BookingController.reply res_status res_success res_data
                  BookingController.failure_status].
           rewrite fully_booked_marker_batch. repeat split.
    + destruct (default [] (cb_dates body)) as [|d ds] eqn:Hds; [congruence|].
      unfold BookingService.createMultipleBookings. cbn [mb_dates mb_room_id].
      rewrite bool_decide_eq_false_2 by (cbn; lia). unfold bind at 1.
      rewrite (check_dates_missing env w _ d ds [] Hroom).
      eexists _, _. split; [reflexivity|].
      cbn [BookingController.reply res_status res_success res_data
             BookingController.failure_status].
      rewrite fully_booked_marker_room. repeat split.
Qed.

(** X19: the availability endpoint.  For a room id of UUID shape and a date
    that parses (a past date is as good as any), an unknown room is answered
    with status 404 whatever the store's error text is, because the
    service's own message contains "not found"; a known room is answered
    with status 200 and the result of the availability check; the store is
    never written. *)
Theorem controller_availability_answers (roomId d : string) (t : Z) (w : World) :
  Js.uuidRegex_test roomId = true →
  d ≠ "" →
  getTime env d = Some t →
  ∃ res,
    BookingControllerRest.checkRoomAvailability env roomId (Some d) w = (res, w)
    ∧ match rooms w !! roomId with
      | None => av_status res = 404 ∧ av_success res = false ∧ av_data res = None
      | Some room =>
          av_status res = 200 ∧ av_success res = true
          ∧ ∃ a, av_data res = Some a
                 ∧ totalRooms a = total_rooms room
                 ∧ currentBookings a = active_count w roomId d
                 ∧ (isAvailable a = true
                    ↔ (Z.of_nat (active_count w roomId d)
                       < Js.to_number (total_rooms room))%Z)
      end.
Proof.
  intros Hid Hd Ht. unfold BookingControllerRest.checkRoomAvailability.
  rewrite Hid. cbn [negb Js.truthy_opt]. rewrite (truthy_true d Hd). cbn [negb default].
  cbn [from_option Datatypes.id]. unfold BookingController.invalid_date. rewrite Ht.
  destruct (rooms w !! roomId) as [room|] eqn:Hroom.
  - rewrite (check_found env w _ _ None room Hroom). eexists. split; [reflexivity|].
    cbn [av_status av_success av_data]. repeat split. eexists. split; [reflexivity|].
    cbn [totalRooms currentBookings isAvailable]. rewrite count_query_all, Z.ltb_lt.
    repeat split; tauto.
  - rewrite (check_missing env w _ _ None Hroom). eexists. split; [reflexivity|].
    cbn [av_status av_success av_data BookingController.failure_status].
    rewrite not_found_marker_room. repeat split.
Qed.

End ControllerFacts.

(** * Paginated listings *)

Lemma ceil_div_bounds (count limit : Z) :
  (0 < limit)%Z →
  ((BookingServiceRest.ceil_div count limit - 1) * limit < count
   ≤ BookingServiceRest.ceil_div count limit * limit)%Z.
Proof.
  intros Hlimit. unfold BookingServiceRest.ceil_div.
  pose proof (Z.div_mod (- count) limit ltac:(lia)) as Hdiv.
  pose proof (Z.mod_pos_bound (- count) limit Hlimit) as Hmod.
  nia.
Qed.

Lemma next_page_iff (page limit : Z) (count : nat) :
  (0 < limit)%Z →
  (page <? BookingServiceRest.ceil_div (Z.of_nat count) limit)%Z = true
  ↔ (page * limit < Z.of_nat count)%Z.
Proof.
  intros Hlimit. rewrite Z.ltb_lt.
  pose proof (ceil_div_bounds (Z.of_nat count) limit Hlimit) as [Hlow Hhigh].
  split; intros H; nia.
Qed.

Lemma range_page {A} (page limit : Z) (l : list A) :
  (1 ≤ page)%Z → (1 ≤ limit)%Z →
  take (Z.to_nat ((page - 1) * limit + limit - 1 - (page - 1) * limit + 1))
       (drop (Z.to_nat ((page - 1) * limit)) l)
  = take (Z.to_nat limit) (drop (Z.to_nat (page - 1) * Z.to_nat limit) l).
Proof.
  intros Hpage Hlimit. rewrite (Z2Nat.inj_mul (page - 1) limit) by lia.
  do 2 f_equal. lia.
Qed.

Lemma chunks_take {A} (size n : nat) (l : list A) :
  concat (map (λ k, take size (drop (k * size) l)) (seq 0 n)) = take (n * size) l.
Proof.
  induction n as [|n IH]; [reflexivity|].
  rewrite seq_S, map_app, concat_app, IH. cbn [map concat plus].
  rewrite app_nil_r, take_take_drop. f_equal. lia.
Qed.

Section ListingFacts.

Variable newest_first : list Booking → list Booking.
Variable by_date : list Booking → list Booking.
Variable date_le : string → string → bool.

Lemma range_rows {A} (from to : nat) (l : list A) (x : A) :
  x ∈ take to (drop from l) → x ∈ l.
Proof. intros Hx. apply (subseteq_drop from l), (subseteq_take to _), Hx. Qed.

Lemma eq_if_given_rows (column : Booking → string) (v : option string)
    (rows : list Booking) (b : Booking) :
  b ∈ DbRest.eq_if_given column v rows →
  b ∈ rows ∧ ∀ s, v = Some s → s ≠ "" → column b = s.
Proof.
  unfold DbRest.eq_if_given. destruct v as [[|c s]|]; cbn [Js.truthy].
  - intros Hb. split; [exact Hb|]. intros s Hs Hne. congruence.
  - intros Hb. apply list_elem_of_filter in Hb as [Hcol Hb]. split; [exact Hb|].
    intros s' Hs' _. congruence.
  - intros Hb. split; [exact Hb|]. discriminate.
Qed.

Lemma getAllBookings_run (page limit : Z) (filters : Filters) (w : World) :
  BookingServiceRest.getAllBookings newest_first page limit filters w
  = (Success
       {| pg_data :=
            DbRest.range ((page - 1) * limit) ((page - 1) * limit + limit - 1)
              (newest_first (BookingServiceRest.apply_filters filters (bookings w)));
          pg_pagination :=
            BookingServiceRest.pagination_info page limit
              (length (BookingServiceRest.apply_filters filters (bookings w))) |}, w).
Proof. reflexivity. Qed.

(** X20: one page of [getAllBookings], for a page number and a page size of
    at least 1 and a store ordering that only rearranges rows.  The query
    succeeds without writing; [totalItems] is the number of bookings that
    match the filters; the page holds [limit] rows, or what is left after
    the earlier pages if that is less (none beyond the last page);
    [hasNextPage] is true exactly when rows remain after this page,
    [hasPrevPage] exactly when this is not the first page; [totalPages]
    is the least number of pages that holds all the rows; and every row on
    the page is a booking of the store that agrees with each non-empty
    filter. *)
Theorem getAllBookings_page (page limit : Z) (filters : Filters) (w : World) :
  (∀ l, newest_first l ≡ₚ l) →
  (1 ≤ page)%Z → (1 ≤ limit)%Z →
  ∃ pg,
    BookingServiceRest.getAllBookings newest_first page limit filters w = (Success pg, w)
    ∧ totalItems (pg_pagination pg)
      = length (BookingServiceRest.apply_filters filters (bookings w))
    ∧ length (pg_data pg)
      = Z.to_nat limit `min`
        (totalItems (pg_pagination pg) - Z.to_nat (page - 1) * Z.to_nat limit)
    ∧ (hasNextPage (pg_pagination pg) = true
       ↔ (page * limit < Z.of_nat (totalItems (pg_pagination pg)))%Z)
    ∧ (hasPrevPage (pg_pagination pg) = true ↔ (1 < page)%Z)
    ∧ ((totalPages (pg_pagination pg) - 1) * limit
       < Z.of_nat (totalItems (pg_pagination pg))
       ≤ totalPages (pg_pagination pg) * limit)%Z
    ∧ ∀ b, b ∈ pg_data pg →
           b ∈ bookings w
           ∧ (∀ s, f_user_id filters = Some s → s ≠ "" → user_id b = s)
           ∧ (∀ s, f_date filters = Some s → s ≠ "" → date b = s)
           ∧ (∀ s, f_status filters = Some s → s ≠ "" → status b = s)
           ∧ (∀ s, f_hotel_id filters = Some s → s ≠ "" → hotel_id b = s).
Proof.
  intros Hperm Hpage Hlimit. eexists. split; [apply getAllBookings_run|].
  cbn [pg_data pg_pagination totalItems hasNextPage hasPrevPage totalPages
         BookingServiceRest.pagination_info].
  split; [reflexivity|]. split.
  { unfold DbRest.range. rewrite range_page by assumption.
    rewrite length_take, length_drop, (Permutation_length (Hperm _)). reflexivity. }
  split; [apply next_page_iff; lia|]. split; [apply Z.ltb_lt|].
  split; [apply ceil_div_bounds; lia|].
  intros b Hb. unfold DbRest.range in Hb. apply range_rows in Hb.
  rewrite (Hperm _) in Hb. unfold BookingServiceRest.apply_filters in Hb.
  apply eq_if_given_rows in Hb as [Hb Hhotel].
  apply eq_if_given_rows in Hb as [Hb Hstatus].
  apply eq_if_given_rows in Hb as [Hb Hdate].
  apply eq_if_given_rows in Hb as [Hb Huser].
  repeat split; assumption.
Qed.

(** X21: the pages of [getAllBookings] cover the result.  For a page size
    of at least 1 and a store ordering that only rearranges rows, reading
    pages 1 to [totalPages] one after the other on an unchanged store yields
    every matching booking exactly once, in the store's order. *)
Theorem getAllBookings_pages_cover (limit : Z) (filters : Filters) (w : World) :
  (∀ l, newest_first l ≡ₚ l) →
  (1 ≤ limit)%Z →
  let matching := BookingServiceRest.apply_filters filters (bookings w) in
  let pages := BookingServiceRest.ceil_div (Z.of_nat (length matching)) limit in
  concat (map (λ page, page_rows
                         (BookingServiceRest.getAllBookings newest_first (Z.of_nat page)
                            limit filters w))
              (seq 1 (Z.to_nat pages)))
  = newest_first matching.
Proof.
  intros Hperm Hlimit matching pages.
  pose proof (ceil_div_bounds (Z.of_nat (length matching)) limit ltac:(lia)) as [_ Hhigh].
  fold pages in Hhigh.
  assert (Hpages : (0 ≤ pages)%Z) by nia.
  rewrite <- seq_shift, map_map.
  rewrite (map_ext_in _ (λ k, take (Z.to_nat limit)
                                (drop (k * Z.to_nat limit) (newest_first matching)))).
  - rewrite chunks_take. apply take_ge.
    rewrite (Permutation_length (Hperm _)). nia.
  - intros k _. unfold page_rows. rewrite getAllBookings_run. cbn [fst pg_data].
    unfold DbRest.range. rewrite range_page by lia. fold matching.
    do 3 f_equal. lia.
Qed.

(** X22: the listing of one user's bookings.  For a non-empty user id, a
    page number and page size of at least 1 and a store ordering that only
    rearranges rows, every row handed back is a booking of the store that
    belongs to that user, and [totalItems] is the number of that user's
    bookings.  For the empty user id the filter is dropped, and
    [totalItems] is the number of all bookings. *)
Theorem getBookingsByUserId_rows (userId : string) (page limit : Z) (w : World) :
  (∀ l, newest_first l ≡ₚ l) →
  (1 ≤ page)%Z → (1 ≤ limit)%Z →
  ∃ pg,
    BookingServiceRest.getBookingsByUserId newest_first userId page limit w
    = (Success pg, w)
    ∧ (userId ≠ "" →
       totalItems (pg_pagination pg)
       = length (filter (λ b, user_id b = userId) (bookings w))
       ∧ ∀ b, b ∈ pg_data pg → b ∈ bookings w ∧ user_id b = userId)
    ∧ (userId = "" → totalItems (pg_pagination pg) = length (bookings w)).
Proof.
  intros Hperm Hpage Hlimit. unfold BookingServiceRest.getBookingsByUserId.
  eexists. split; [apply getAllBookings_run|].
  cbn [pg_data pg_pagination totalItems BookingServiceRest.pagination_info].
  unfold BookingServiceRest.apply_filters.
  cbn [f_user_id f_date f_status f_hotel_id DbRest.eq_if_given]. split.
  - intros Hne. rewrite (truthy_true userId Hne). split; [reflexivity|].
    intros b Hb. unfold DbRest.range in Hb. apply range_rows in Hb.
    rewrite (Hperm _) in Hb. apply list_elem_of_filter in Hb as [Hu Hb]. now split.
  - intros ->. reflexivity.
Qed.

Lemma getBookingsByDateRange_run (startDate endDate : string) (page limit : Z) (w : World) :
  BookingServiceRest.getBookingsByDateRange by_date date_le startDate endDate page limit w
  = (Success
       {| pg_data :=
            DbRest.range ((page - 1) * limit) ((page - 1) * limit + limit - 1)
              (by_date (filter (BookingServiceRest.in_date_range date_le startDate endDate)
                          (bookings w)));
          pg_pagination :=
            BookingServiceRest.pagination_info page limit
              (length (filter (BookingServiceRest.in_date_range date_le startDate endDate)
                         (bookings w))) |}, w).
Proof. reflexivity. Qed.

(** X23: the listing by date range.  For a page number and page size of at
    least 1 and a store ordering that only rearranges rows, every row
    handed back is a booking of the store whose date lies between the two
    bounds in the store's order of dates; [totalItems] is the number of
    such bookings; the page holds at most [limit] rows; and [hasNextPage]
    is true exactly when rows remain after this page. *)
Theorem getBookingsByDateRange_rows (startDate endDate : string) (page limit : Z)
    (w : World) :
  (∀ l, by_date l ≡ₚ l) →
  (1 ≤ page)%Z → (1 ≤ limit)%Z →
  ∃ pg,
    BookingServiceRest.getBookingsByDateRange by_date date_le startDate endDate page limit w
    = (Success pg, w)
    ∧ totalItems (pg_pagination pg)
      = length (filter (λ b, date_le startDate (date b) = true
                             ∧ date_le (date b) endDate = true) (bookings w))
    ∧ (∀ b, b ∈ pg_data pg →
            b ∈ bookings w ∧ date_le startDate (date b) = true
            ∧ date_le (date b) endDate = true)
    ∧ length (pg_data pg) ≤ Z.to_nat limit
    ∧ (hasNextPage (pg_pagination pg) = true
       ↔ (page * limit < Z.of_nat (totalItems (pg_pagination pg)))%Z).
Proof.
  intros Hperm Hpage Hlimit. eexists. split; [apply getBookingsByDateRange_run|].
  cbn [pg_data pg_pagination totalItems hasNextPage BookingServiceRest.pagination_info].
  split; [reflexivity|]. split.
  { intros b Hb. unfold DbRest.range in Hb. apply range_rows in Hb.
    rewrite (Hperm _) in Hb. apply list_elem_of_filter in Hb as [[Hs He] Hb]. now repeat split. }
  split.
  { unfold DbRest.range. rewrite length_take. lia. }
  apply next_page_iff. lia.
Qed.

End ListingFacts.

(** * Batches and update validation *)

Section BatchEffect.

Variable env : Env.

Lemma fresh_rows_count (k c : nat) (user hotel room : string) (p : Js.value)
    (n : option string) (dates : list string) (r d : string) :
  length (filter (Db.active_on r d) (fresh_rows env k c user hotel room p n dates))
  = if decide (r = room) then length (filter (λ x, x = d) dates) else 0.
Proof.
  revert k c. induction dates as [|x dates IH]; intros k c.
  - cbn. now destruct (decide (r = room)).
  - cbn [fresh_rows]. rewrite !filter_cons.
    destruct (decide (Db.active_on r d (fresh_row env k c user hotel room x p n)))
      as [(Hr & Hd & _)|Hno]; cbn [length]; rewrite IH; cbn in Hr, Hd || idtac.
    + cbn in Hr, Hd. subst r x. rewrite !decide_True by reflexivity. reflexivity.
    + destruct (decide (r = room)) as [->|Hr]; [|reflexivity].
      rewrite decide_False; [reflexivity|].
      intros ->. apply Hno. repeat split.
Qed.

(** X24: [createMultipleBookings] either fails and leaves the world exactly
    as it was, or succeeds and adds one row per requested date: on the
    requested room the number of active bookings of a date grows by the
    number of times the request names that date, and no other room is
    affected. *)
Theorem createMultipleBookings_effect (w : World) (data : MultiBookingData) :
  (∃ e, BookingService.createMultipleBookings env data w = (Failure e, w))
  ∨ (∃ res w',
       BookingService.createMultipleBookings env data w = (Success res, w')
       ∧ rooms w' = rooms w
       ∧ length (bookings w') = length (bookings w) + length (mb_dates data)
       ∧ ∀ r d, active_count w' r d
                = active_count w r d
                  + (if decide (r = mb_room_id data)
                     then length (filter (λ x, x = d) (mb_dates data)) else 0)).
Proof.
  destruct (createMultipleBookings_outcome env w data) as [Hfail|(res & Hok & Hrows)];
    [now left|right].
  eexists _, _. split; [exact Hok|]. split; [reflexivity|]. split.
  { cbn [Db.insert advance bookings]. now rewrite length_app, Hrows, fresh_rows_length. }
  intros r d. now rewrite active_count_insert, active_count_advance, Hrows, fresh_rows_count.
Qed.

Lemma update_errors_nil (u : UpdateData) :
  BookingController.update_errors env u = []
  ↔ (∀ p, u_price u = Some p → price_not_refused env p)
    ∧ (∀ s, u_status u = Some s → s = "active" ∨ s = "cancel")
    ∧ (∀ r, u_room_id u = Some r → Js.uuidRegex_test r = true)
    ∧ (∀ d, u_date u = Some d → date_acceptable env d).
Proof.
  unfold BookingController.update_errors. cbv zeta.
  assert (Hprice : match u_price u with
                   | Some p => Js.le_zero (toNumber env) p
                   | None => false
                   end = false
                   ↔ ∀ p, u_price u = Some p → price_not_refused env p).
  { destruct (u_price u) as [p|].
    - rewrite le_zero_false. split; [intros H p' Hp'; inversion Hp'; now subst|auto].
    - split; [discriminate|reflexivity]. }
  assert (Hstatus : match u_status u with
                    | Some s => negb (bool_decide (s ∈ ["active"; "cancel"]))
                    | None => false
                    end = false
                    ↔ ∀ s, u_status u = Some s → s = "active" ∨ s = "cancel").
  { destruct (u_status u) as [s|].
    - rewrite negb_false_iff, bool_decide_eq_true, !elem_of_cons, elem_of_nil. split.
      + intros H s' Hs'. inversion Hs'; subst s'. tauto.
      + intros H. destruct (H s eq_refl); tauto.
    - split; [discriminate|reflexivity]. }
  assert (Hroom : match u_room_id u with
                  | Some r => negb (Js.uuidRegex_test r)
                  | None => false
                  end = false
                  ↔ ∀ r, u_room_id u = Some r → Js.uuidRegex_test r = true).
  { destruct (u_room_id u) as [r|].
    - rewrite negb_false_iff. split; [intros H r' Hr'; inversion Hr'; now subst|auto].
    - split; [discriminate|reflexivity]. }
  destruct (u_date u) as [d|]; cbv zeta; rewrite !push_if_nil, Hprice, Hstatus, Hroom.
  - pose proof (valid_date_iff env d) as Hd. split.
    + intros (Hpast & Hinvalid & Hr & Hs & Hp & _). repeat split; try assumption.
      intros d' Hd'. inversion Hd'; subst d'. apply Hd. now split.
    + intros (Hp & Hs & Hr & Hdate). destruct (proj2 Hd (Hdate d eq_refl)) as [Hi Hpast].
      repeat split; assumption.
  - split.
    + intros (Hr & Hs & Hp & _). repeat split; try assumption. discriminate.
    + intros (Hp & Hs & Hr & _). repeat split; assumption.
Qed.

(** X25: the update validation is exact.  The controller passes an update
    on to the service exactly when the booking id has UUID shape, at least
    one field is given, and every field that is given passes its test: the
    status is active or cancel, the room id has UUID shape, the date parses
    and is not in the past, and the price is not a value that JavaScript
    compares as at most zero.  A positive number is such a price, and so
    are [true] and every string, array or object that converts to no
    number, like the string [free]; [null], [false], numbers up to zero
    and strings that convert to such a number are refused. *)
Theorem update_gate_exact (i : string) (u : UpdateData) :
  BookingController.update_gate env i u = None
  ↔ Js.uuidRegex_test i = true
    ∧ (∀ p, u_price u = Some p → price_not_refused env p)
    ∧ (∀ s, u_status u = Some s → s = "active" ∨ s = "cancel")
    ∧ (∀ r, u_room_id u = Some r → Js.uuidRegex_test r = true)
    ∧ (∀ d, u_date u = Some d → date_acceptable env d)
    ∧ ¬ (u_price u = None ∧ u_note u = None ∧ u_status u = None
         ∧ u_room_id u = None ∧ u_date u = None).
Proof.
  pose proof (update_errors_nil u) as Herrors.
  unfold BookingController.update_gate.
  destruct (Js.uuidRegex_test i); cbn [negb];
    [|split; [discriminate|intros [H _]; discriminate H]].
  destruct (BookingController.update_errors env u) as [|e errors].
  - rewrite bool_decide_eq_false_2 by (cbn; lia).
    assert (Hfields : BookingController.no_fields u = false
                      ↔ ¬ (u_price u = None ∧ u_note u = None ∧ u_status u = None
                           ∧ u_room_id u = None ∧ u_date u = None)).
    { unfold BookingController.no_fields.
      destruct (u_price u), (u_note u), (u_status u), (u_room_id u), (u_date u);
        split; try reflexivity; try discriminate; try (intros _ (?&?&?&?&?); discriminate);
        intros H; exfalso; apply H; repeat split. }
    destruct (BookingController.no_fields u).
    + split; [discriminate|]. intros (_ & _ & _ & _ & _ & H). now apply Hfields in H.
    + split; [intros _|reflexivity]. split; [reflexivity|].
      destruct (proj1 Herrors eq_refl) as (Hp & Hs & Hr & Hd).
      repeat split; try assumption. now apply Hfields.
  - rewrite bool_decide_eq_true_2 by (cbn; lia). split; [discriminate|].
    intros (_ & Hp & Hs & Hr & Hd & _).
    assert (Hnil : e :: errors = []) by (apply Herrors; repeat split; assumption).
    discriminate Hnil.
Qed.

End BatchEffect.

(** * What the validation does not catch *)

Section ValidationGaps.

Variable env : Env.

Lemma unavailable_none (w : World) (r : string) (room : Room) (dates : list string) :
  rooms w !! r = Some room →
  Forall (spec_available w r) dates →
  concat (map (unavailable_entry env w r) dates) = [].
Proof.
  intros Hroom Hfree.
  pose proof (unavailable_entries_spec env w r room dates Hroom) as Hspec.
  rewrite (filter_none _ dates) in Hspec.
  - now apply fmap_nil_inv in Hspec.
  - intros d Hd Hfull. apply Hfull. rewrite Forall_forall in Hfree. now apply Hfree.
Qed.

(** X26: a price that is no number reaches the table.  A creation request
    that is well formed except that its price is a non-empty string which
    converts to no number (the string [free], say) passes the validation,
    because [price <= 0] is false for it; when the room has a free unit the
    request is answered with status 201 and the booking is stored with that
    string as its price. *)
Theorem non_numeric_price_is_stored (u h r d s : string) (n : option string) (t : Z)
    (room : Room) (w : World) :
  Js.uuidRegex_test u = true → Js.uuidRegex_test h = true → Js.uuidRegex_test r = true →
  d ≠ "" → getTime env d = Some t → (today env ≤ t)%Z →
  s ≠ "" → toNumber env s = None →
  rooms w !! r = Some room → spec_available w r d →
  let body := mkCreateBody (Some u) (Some h) (Some r) (Some d) None (Some (Js.Str s)) n in
  ∃ b w',
    BookingController.createBooking env body w
    = (BookingController.reply 201 true "Booking created successfully" [] [b], w')
    ∧ price b = Js.Str s ∧ status b = "active"
    ∧ bookings w' = bookings w ++ [b].
Proof.
  intros Hu Hh Hr Hd Ht Htoday Hs Hnan Hroom Hfree body.
  assert (Hgate : BookingController.create_gate env body = None).
  { apply create_gate_none_iff. split.
    - repeat split; try (eexists; split; [reflexivity|assumption]).
      exists (Js.Str s). split; [reflexivity|]. split; [congruence|].
      intros q Hq. cbn [cb_price body] in *. congruence.
    - cbn [cb_dates body]. exists d. repeat split; [exact Hd|]. exists t. now split. }
  unfold BookingController.createBooking. rewrite Hgate.
  assert (Hsingle : BookingController.isSingleDate body = true).
  { unfold BookingController.isSingleDate, BookingController.isMultipleDates.
    cbn [cb_date cb_dates body Js.truthy_opt]. now rewrite (truthy_true d Hd). }
  rewrite Hsingle, createBooking_run.
  cbn [bd_room_id bd_date bd_user_id bd_hotel_id bd_price bd_note body cb_user_id
         cb_hotel_id cb_room_id cb_date cb_price cb_note default from_option Datatypes.id].
  rewrite (check_found env w r d None room Hroom). cbn [isAvailable].
  rewrite count_query_all. apply (spec_available_iff w r d room Hroom) in Hfree.
  rewrite Hfree. eexists _, _. split; [reflexivity|]. repeat split.
Qed.

(** X27: the same for an update.  An update of an existing booking that
    sets only the price, to a string which converts to no number, passes
    the validation and is applied: the answer has status 200 and the
    booking now carries that string as its price. *)
Theorem non_numeric_price_update (i s : string) (b : Booking) (w : World) :
  Js.uuidRegex_test i = true →
  Db.by_id i w = [b] →
  toNumber env s = None →
  let u := mkUpdateData (Some (Js.Str s)) None None None None in
  ∃ b' w',
    BookingController.updateBooking env i u w
    = (BookingController.reply 200 true "Booking updated successfully" [] [b'], w')
    ∧ price b' = Js.Str s
    ∧ Db.by_id i w' = [b']
    ∧ room_id b' = room_id b ∧ date b' = date b ∧ status b' = status b.
Proof.
  intros Hid Hb Hnan u. unfold BookingController.updateBooking.
  assert (Hgate : BookingController.update_gate env i u = None).
  { unfold BookingController.update_gate, BookingController.update_errors, Js.le_zero.
    rewrite Hid. cbn. now rewrite Hnan. }
  rewrite Hgate, updateBooking_run.
  assert (Hfree : update_refusal env i u w = None) by reflexivity.
  rewrite Hfree, Hb. cbn [map Db.single].
  eexists _, _. split; [reflexivity|].
  rewrite (by_id_update _ (apply_update_keeps_id u)), Hb. repeat split.
Qed.

(** X28: two spellings of one night are two dates to the validation.  If
    two different strings parse to the same day, a batch that names both
    passes the duplicate check; on a room with a single unit and no booking
    yet it is answered with status 201, and afterwards the room has two
    active bookings on that one night, although no date string is booked
    more than once. *)
Theorem two_spellings_book_one_night_twice (u h r d1 d2 : string) (q : Q)
    (n : option string) (t : Z) (room : Room) (w : World) :
  Js.uuidRegex_test u = true → Js.uuidRegex_test h = true → Js.uuidRegex_test r = true →
  d1 ≠ d2 → getTime env d1 = Some t → getTime env d2 = Some t → (today env ≤ t)%Z →
  (0 < q)%Q →
  rooms w !! r = Some room → total_rooms room = Some 1%Z →
  (∀ b, b ∈ bookings w → room_id b ≠ r) →
  let body := mkCreateBody (Some u) (Some h) (Some r) None (Some [d1; d2])
                (Some (Js.Num q)) n in
  ∃ res w',
    BookingController.createBooking env body w = (res, w')
    ∧ res_status res = 201 ∧ map date (res_data res) = [d1; d2]
    ∧ capacity w' r = 1%Z
    ∧ active_count_on_day env w' r t = 2
    ∧ (∀ d, active_count w' r d ≤ 1)
    ∧ ¬ within_capacity_by_day env w'.
Proof.
  intros Hu Hh Hr Hne Ht1 Ht2 Htoday Hq Hroom Htotal Hnew body.
  assert (Hgate : BookingController.create_gate env body = None).
  { apply create_gate_none_iff. split.
    - repeat split; try (eexists; split; [reflexivity|assumption]).
      exists (Js.Num q). split; [reflexivity|]. split; [discriminate|exact Hq].
    - cbn [cb_dates body]. split; [cbn; lia|]. split.
      + apply NoDup_cons. split; [|apply NoDup_singleton].
        intros Hin. apply list_elem_of_singleton in Hin. contradiction.
      + intros s Hs. exists t. rewrite !elem_of_cons, elem_of_nil in Hs.
        destruct Hs as [->|[->|[]]]; now split. }
  assert (Hempty : ∀ d, active_count w r d = 0).
  { intros d. unfold active_count. rewrite (filter_none _ (bookings w)); [reflexivity|].
    intros b Hb (Hroom' & _). now apply (Hnew b Hb). }
  assert (Hfree : Forall (spec_available w r) [d1; d2]).
  { repeat constructor; unfold spec_available, capacity;
      rewrite Hempty, Hroom, Htotal; cbn; lia. }
  unfold BookingController.createBooking. rewrite Hgate.
  assert (Hsingle : BookingController.isSingleDate body = false) by reflexivity.
  rewrite Hsingle.
  cbn [body cb_user_id cb_hotel_id cb_room_id cb_dates cb_price cb_note default
         from_option Datatypes.id].
  rewrite (createMultipleBookings_run env w _ room) by (cbn; first [discriminate|exact Hroom]).
  cbn [mb_dates mb_room_id mb_user_id mb_hotel_id mb_price mb_note].
  rewrite (unavailable_none w r room [d1; d2] Hroom Hfree).
  eexists _, _. split; [reflexivity|].
  cbn [BookingController.reply res_status res_data mr_data].
  split; [reflexivity|]. split; [apply fresh_rows_dates|].
  assert (Hcap : capacity (Db.insert
                   (fresh_rows env (uuid_calls w) (clock_reads w) u h r (Js.Num q) n [d1; d2])
                   (advance w 2)) r = 1%Z).
  { unfold capacity. cbn [Db.insert advance rooms]. now rewrite Hroom, Htotal. }
  assert (Hday : active_count_on_day env (Db.insert
                   (fresh_rows env (uuid_calls w) (clock_reads w) u h r (Js.Num q) n [d1; d2])
                   (advance w 2)) r t = 2).
  { unfold active_count_on_day. cbn [Db.insert advance bookings fresh_rows].
    rewrite filter_app, length_app, (filter_none _ (bookings w)).
    - rewrite !filter_cons, filter_nil.
      rewrite !decide_True by (unfold active_on_day; cbn; auto). reflexivity.
    - intros b Hb (Hroom' & _). now apply (Hnew b Hb). }
  split; [exact Hcap|]. split; [exact Hday|]. split.
  - intros d. rewrite (active_count_insert r d), (active_count_advance r d), Hempty.
    cbn [fresh_rows]. rewrite !filter_cons, filter_nil.
    destruct (decide (Db.active_on r d _)) as [(_ & Hd1 & _)|_];
      destruct (decide (Db.active_on r d _)) as [(_ & Hd2 & _)|_]; cbn [length]; try lia.
    cbn in Hd1, Hd2. congruence.
  - intros Hinv. pose proof (Hinv r t) as Hnight. cbn [length] in Hnight.
    rewrite Hday, Hcap in Hnight. lia.
Qed.

End ValidationGaps.

(** * The properties on the sample data *)

Lemma first_booking_run :
  BookingService.createBooking sample_env sample_request sample_world
  = (Success first_booking, first_booking_world).
Proof. vm_compute. reflexivity. Qed.

Lemma first_booking_world_within_capacity : within_capacity first_booking_world.
Proof.
  change first_booking_world
    with (snd (Success first_booking, first_booking_world)).
  rewrite <- first_booking_run. apply createBooking_keeps_capacity.
  apply empty_store_within_capacity; [reflexivity|apply sample_rooms_positive].
Qed.

Lemma busy_world_engine_statuses : engine_statuses busy_world.
Proof.
  intros b Hb. unfold busy_world in Hb. cbn [bookings] in Hb.
  rewrite !elem_of_cons, elem_of_nil in Hb.
  destruct Hb as [->|[->|[->|[]]]]; apply (bool_decide_unpack _); vm_compute; exact I.
Qed.

Lemma mixed_requests_checked : Forall request_checked mixed_requests.
Proof.
  unfold mixed_requests, checked_sequence. cbn [map app].
  repeat (apply Forall_cons; split); try apply Forall_nil;
    cbn [request_checked capacity_checked mb_dates]; try exact I.
  - apply (bool_decide_unpack _). vm_compute. exact I.
  - split; [split; discriminate|]. intros _. left. discriminate.
  - split; [split; discriminate|]. discriminate.
Qed.

Lemma sample_uuidv4_inj : Inj (=) (=) (uuidv4 sample_env).
Proof.
  intros j k Hjk. cbn [uuidv4 sample_env] in Hjk.
  apply (inj (String.app "booking-")) in Hjk. now apply (inj pretty) in Hjk.
Qed.

Lemma sample_newest_first_perm (l : list Booking) : sample_newest_first l ≡ₚ l.
Proof. apply merge_sort_Permutation. Qed.

Lemma sample_by_date_perm (l : list Booking) : sample_by_date l ≡ₚ l.
Proof. apply merge_sort_Permutation. Qed.

Lemma sample_capacity_nonneg (bs : list Booking) (k c : nat) (r : string) :
  (0 ≤ capacity (mkWorld bs sample_rooms k c) r)%Z.
Proof.
  unfold capacity. cbn [rooms].
  destruct (sample_rooms !! r) as [room|] eqn:Hroom; [|lia].
  destruct (sample_rooms_positive r room Hroom) as (t & -> & Ht). cbn. lia.
Qed.

Lemma busy_world_within_capacity : within_capacity busy_world.
Proof.
  intros r d. unfold active_count, busy_world. cbn [bookings].
  pose proof (sample_capacity_nonneg [booking_a; booking_b; booking_c] 0 0 r) as Hcap.
  rewrite !filter_cons, filter_nil.
  destruct (decide (Db.active_on r d booking_a)) as [(Hr & Hd & _)|_];
    destruct (decide (Db.active_on r d booking_b)) as [(Hr' & Hd' & _)|_];
    destruct (decide (Db.active_on r d booking_c)) as [(_ & _ & Hst)|_];
    try discriminate Hst; cbn [length]; try exact Hcap.
  - cbn in Hd, Hd'. congruence.
  - cbn in Hr. subst r. vm_compute. discriminate.
  - cbn in Hr'. subst r. vm_compute. discriminate.
Qed.

Lemma uuid_world_within_capacity : within_capacity uuid_world.
Proof.
  apply empty_store_within_capacity; [reflexivity|].
  unfold uuid_world. cbn [rooms]. apply map_Forall_insert_2; [|apply map_Forall_empty].
  eexists. split; [reflexivity|lia].
Qed.

Lemma two_sample_days :
  one_spelling_per_day sample_env ["2030-01-01"; "2030-01-02"].
Proof.
  intros s1 s2 t Hs1 Hs2. rewrite !elem_of_cons, elem_of_nil in Hs1, Hs2.
  destruct Hs1 as [->|[->|[]]], Hs2 as [->|[->|[]]]; try reflexivity;
    vm_compute; congruence.
Qed.

Lemma deleteBooking_removes_row_witness :
  Db.by_id (id booking_a) busy_world = [booking_a]
  ∧ ∃ w',
      BookingServiceRest.deleteBooking sample_env (id booking_a) busy_world
      = (Success booking_a, w')
      ∧ bookings w' = [booking_b; booking_c].
Proof.
  assert (Hfound : Db.by_id (id booking_a) busy_world = [booking_a])
    by (vm_compute; reflexivity).
  split; [exact Hfound|].
  destruct (deleteBooking_removes_row sample_env busy_world (id booking_a) booking_a Hfound)
    as (w' & Hrun & Hrows & _).
  exists w'. split; [exact Hrun|]. rewrite Hrows. vm_compute. reflexivity.
Defined.

Lemma missing_booking_answers_witness :
  Js.uuidRegex_test missing_id = true
  ∧ Db.by_id missing_id busy_world = []
  ∧ BookingController.update_gate sample_env missing_id reprice = None
  ∧ ∃ res, BookingControllerRest.getBookingById sample_env missing_id busy_world
           = (res, busy_world)
           ∧ res_status res = 404 ∧ res_success res = false.
Proof.
  assert (Hshape : Js.uuidRegex_test missing_id = true) by (vm_compute; reflexivity).
  assert (Hnone : Db.by_id missing_id busy_world = []) by (vm_compute; reflexivity).
  assert (Hgate : BookingController.update_gate sample_env missing_id reprice = None)
    by (vm_compute; reflexivity).
  split; [exact Hshape|]. split; [exact Hnone|]. split; [exact Hgate|].
  exact (proj1 (missing_booking_answers sample_env busy_world missing_id reprice
                  Hshape Hnone Hgate)).
Defined.

Lemma created_booking_can_be_fetched_witness :
  Db.by_id (uuidv4 sample_env (uuid_calls sample_world)) sample_world = []
  ∧ BookingService.createBooking sample_env sample_request sample_world
    = (Success first_booking, first_booking_world)
  ∧ BookingService.getBookingById sample_env (id first_booking) first_booking_world
    = (Success first_booking, first_booking_world).
Proof.
  assert (Hfresh : Db.by_id (uuidv4 sample_env (uuid_calls sample_world)) sample_world = [])
    by reflexivity.
  assert (Hrun : BookingService.createBooking sample_env sample_request sample_world
                 = (Success first_booking, first_booking_world))
    by (vm_compute; reflexivity).
  split; [exact Hfresh|]. split; [exact Hrun|].
  exact (proj1 (created_booking_can_be_fetched sample_env sample_world first_booking_world
                  sample_request first_booking Hfresh Hrun)).
Defined.

Lemma cancelBooking_frees_capacity_witness :
  Db.by_id "booking-0" first_booking_world = [first_booking]
  ∧ status first_booking = "active"
  ∧ rooms first_booking_world !! room_id first_booking = Some (mkRoom (Some 1%Z))
  ∧ within_capacity first_booking_world
  ∧ ∃ b' w',
      BookingService.cancelBooking sample_env "booking-0" first_booking_world
      = (Success b', w')
      ∧ active_count w' "R1" "2030-01-01" + 1
        = active_count first_booking_world "R1" "2030-01-01".
Proof.
  assert (Hfound : Db.by_id "booking-0" first_booking_world = [first_booking])
    by (vm_compute; reflexivity).
  assert (Hactive : status first_booking = "active") by reflexivity.
  assert (Hroom : rooms first_booking_world !! room_id first_booking
                  = Some (mkRoom (Some 1%Z))) by (vm_compute; reflexivity).
  pose proof first_booking_world_within_capacity as Hinv.
  split; [exact Hfound|]. split; [exact Hactive|]. split; [exact Hroom|].
  split; [exact Hinv|].
  destruct (cancelBooking_frees_capacity sample_env first_booking_world "booking-0"
              first_booking (mkRoom (Some 1%Z)) Hfound Hactive Hroom Hinv)
    as (b' & w' & Hrun & Hcount & _).
  exists b', w'. split; [exact Hrun|exact Hcount].
Defined.

Lemma updateBooking_own_slot_witness :
  Db.by_id "booking-0" first_booking_world = [first_booking]
  ∧ "booking-0" ≠ ""
  ∧ status first_booking = "active"
  ∧ rooms first_booking_world !! room_id first_booking = Some (mkRoom (Some 1%Z))
  ∧ within_capacity first_booking_world
  ∧ (∀ s, u_status move_to_first_day = Some s → s = "active" ∨ s = "cancel")
  ∧ well_formed_target move_to_first_day
  ∧ (u_room_id move_to_first_day ≠ None ∨ u_date move_to_first_day ≠ None)
  ∧ default (room_id first_booking) (u_room_id move_to_first_day) = room_id first_booking
  ∧ default (date first_booking) (u_date move_to_first_day) = date first_booking
  ∧ ∃ b' w',
      BookingService.updateBooking sample_env "booking-0" move_to_first_day
        first_booking_world = (Success b', w')
      ∧ id b' = "booking-0" ∧ date b' = "2030-01-01".
Proof.
  assert (Hfound : Db.by_id "booking-0" first_booking_world = [first_booking])
    by (vm_compute; reflexivity).
  assert (Hid : "booking-0" ≠ "") by discriminate.
  assert (Hactive : status first_booking = "active") by reflexivity.
  assert (Hroom : rooms first_booking_world !! room_id first_booking
                  = Some (mkRoom (Some 1%Z))) by (vm_compute; reflexivity).
  pose proof first_booking_world_within_capacity as Hinv.
  assert (Hstatus : ∀ s, u_status move_to_first_day = Some s → s = "active" ∨ s = "cancel")
    by discriminate.
  assert (Htarget : well_formed_target move_to_first_day) by (split; discriminate).
  assert (Hmoves : u_room_id move_to_first_day ≠ None ∨ u_date move_to_first_day ≠ None)
    by (right; discriminate).
  assert (Hsame_room : default (room_id first_booking) (u_room_id move_to_first_day)
                       = room_id first_booking) by reflexivity.
  assert (Hsame_date : default (date first_booking) (u_date move_to_first_day)
                       = date first_booking) by reflexivity.
  repeat (split; [assumption|]).
  destruct (updateBooking_own_slot sample_env first_booking_world "booking-0" first_booking
              (mkRoom (Some 1%Z)) move_to_first_day Hfound Hid Hactive Hroom Hinv Hstatus
              Htarget Hmoves Hsame_room Hsame_date)
    as (b' & w' & Hrun & Hid' & _ & Hdate & _).
  exists b', w'. split; [exact Hrun|]. split; [exact Hid'|exact Hdate].
Defined.

Lemma rooms_availability_consistent_witness :
  rooms busy_world !! "R1" = Some (mkRoom (Some 1%Z))
  ∧ total_rooms (mkRoom (Some 1%Z)) = Some 1%Z
  ∧ 1%Z ≠ 0%Z
  ∧ ∃ a, RoomsService.checkRoomAvailability sample_env String.leb "R1" "2030-01-01"
           "2030-01-02" busy_world = (Success a, busy_world)
         ∧ ra_totalRooms a = Some 1%Z
         ∧ (0 ≤ ra_availableRooms a)%Z.
Proof.
  assert (Hroom : rooms busy_world !! "R1" = Some (mkRoom (Some 1%Z)))
    by (vm_compute; reflexivity).
  assert (Htotal : total_rooms (mkRoom (Some 1%Z)) = Some 1%Z) by reflexivity.
  assert (Hset : 1%Z ≠ 0%Z) by lia.
  split; [exact Hroom|]. split; [exact Htotal|]. split; [exact Hset|].
  destruct (rooms_availability_consistent sample_env String.leb busy_world "R1" "2030-01-01"
              "2030-01-02" (mkRoom (Some 1%Z)) 1%Z Hroom Htotal Hset)
    as (a & Hrun & Ha & Hleft & _).
  exists a. split; [exact Hrun|]. split; [exact Ha|exact Hleft].
Defined.

Lemma rooms_service_blind_to_engine_witness :
  engine_statuses busy_world
  ∧ rooms busy_world !! "R1" = Some (mkRoom (Some 1%Z))
  ∧ total_rooms (mkRoom (Some 1%Z)) = Some 1%Z
  ∧ (0 < 1)%Z
  ∧ RoomsService.checkRoomAvailability sample_env String.leb "R1" "2030-01-01" "2030-01-02"
      (run_requests sample_env mixed_requests busy_world)
    = (Success {| ra_totalRooms := Some 1%Z; ra_bookedRooms := 0;
                  ra_availableRooms := 1; ra_isAvailable := true |},
       run_requests sample_env mixed_requests busy_world).
Proof.
  pose proof busy_world_engine_statuses as Hstatuses.
  assert (Hroom : rooms busy_world !! "R1" = Some (mkRoom (Some 1%Z)))
    by (vm_compute; reflexivity).
  assert (Htotal : total_rooms (mkRoom (Some 1%Z)) = Some 1%Z) by reflexivity.
  assert (Hpos : (0 < 1)%Z) by lia.
  split; [exact Hstatuses|]. split; [exact Hroom|]. split; [exact Htotal|].
  split; [exact Hpos|].
  exact (rooms_service_blind_to_engine sample_env String.leb busy_world mixed_requests "R1"
           "2030-01-01" "2030-01-02" (mkRoom (Some 1%Z)) 1%Z Hstatuses Hroom Htotal Hpos).
Defined.

Lemma engine_bookings_do_not_block_deletion_witness :
  engine_statuses busy_world
  ∧ RoomsServiceRest.checkRoomHasBookings "R1"
      (run_requests sample_env mixed_requests busy_world)
    = (Success {| hasBookings := false; bookingsCount := 0 |},
       run_requests sample_env mixed_requests busy_world).
Proof.
  pose proof busy_world_engine_statuses as Hstatuses.
  split; [exact Hstatuses|].
  exact (engine_bookings_do_not_block_deletion sample_env busy_world mixed_requests "R1"
           Hstatuses).
Defined.

Lemma unset_inventory_three_answers_witness :
  rooms unconfigured_world !! "R0" = Some (mkRoom None)
  ∧ (total_rooms (mkRoom None) = None ∨ total_rooms (mkRoom None) = Some 0%Z)
  ∧ RoomsService.checkRoomAvailability sample_env String.leb "R0" "2030-01-01" "2030-01-01"
      unconfigured_world
    = (Failure "Room total count not set - cannot check availability", unconfigured_world)
  ∧ ∃ a, BookingService.checkRoomAvailability sample_env "R0" "2030-01-01" None
           unconfigured_world = (Success a, unconfigured_world)
         ∧ isAvailable a = false.
Proof.
  assert (Hroom : rooms unconfigured_world !! "R0" = Some (mkRoom None))
    by (vm_compute; reflexivity).
  assert (Hunset : total_rooms (mkRoom None) = None ∨ total_rooms (mkRoom None) = Some 0%Z)
    by (left; reflexivity).
  split; [exact Hroom|]. split; [exact Hunset|].
  destruct (unset_inventory_three_answers sample_env String.leb unconfigured_world "R0"
              "2030-01-01" (mkRoom None) Hroom Hunset)
    as (_ & Hrange & a & Hrun & Hfull & _).
  split; [exact Hrange|]. exists a. split; [exact Hrun|exact Hfull].
Defined.

Lemma current_availability_consistent_witness :
  rooms busy_world !! "R1" = Some (mkRoom (Some 1%Z))
  ∧ total_rooms (mkRoom (Some 1%Z)) = Some 1%Z
  ∧ 1%Z ≠ 0%Z
  ∧ ∃ c occupied,
      RoomsServiceRest.getCurrentRoomAvailability sample_env String.leb "R1" busy_world
      = (Success c, mkWorld (bookings busy_world) (rooms busy_world) 0 1)
      ∧ ca_asOfDate c = Some "2026-11-02"
      ∧ ca_occupiedRooms c = Some occupied.
Proof.
  assert (Hroom : rooms busy_world !! "R1" = Some (mkRoom (Some 1%Z)))
    by (vm_compute; reflexivity).
  assert (Htotal : total_rooms (mkRoom (Some 1%Z)) = Some 1%Z) by reflexivity.
  assert (Hset : 1%Z ≠ 0%Z) by lia.
  split; [exact Hroom|]. split; [exact Htotal|]. split; [exact Hset|].
  destruct (current_availability_consistent sample_env String.leb busy_world "R1"
              (mkRoom (Some 1%Z)) 1%Z Hroom Htotal Hset)
    as (c & occupied & Hrun & Hdate & Hocc & _).
  exists c, occupied. split; [exact Hrun|]. split; [|exact Hocc].
  rewrite Hdate. vm_compute. reflexivity.
Defined.

Lemma ids_stay_unique_witness :
  Inj (=) (=) (uuidv4 sample_env)
  ∧ ids_generated sample_env sample_world
  ∧ ∀ i, length (Db.by_id i (run_requests sample_env mixed_requests sample_world)) ≤ 1.
Proof.
  pose proof sample_uuidv4_inj as Hinj.
  assert (Hstart : ids_generated sample_env sample_world).
  { split; [apply NoDup_nil_2|]. intros b Hb. cbn in Hb. now apply elem_of_nil in Hb. }
  split; [exact Hinj|]. split; [exact Hstart|].
  exact (proj2 (ids_stay_unique sample_env mixed_requests sample_world Hinj Hstart)).
Defined.

Lemma failed_request_changes_nothing_witness :
  NoDup (map id (bookings busy_world))
  ∧ request_failed sample_env (Engine (CreateBooking sample_request)) busy_world = true
  ∧ run_request sample_env (Engine (CreateBooking sample_request)) busy_world = busy_world.
Proof.
  assert (Hids : NoDup (map id (bookings busy_world)))
    by (apply (bool_decide_unpack _); vm_compute; exact I).
  assert (Hfailed : request_failed sample_env (Engine (CreateBooking sample_request))
                      busy_world = true) by (vm_compute; reflexivity).
  split; [exact Hids|]. split; [exact Hfailed|].
  exact (failed_request_changes_nothing sample_env (Engine (CreateBooking sample_request))
           busy_world Hids Hfailed).
Defined.

Lemma capacity_invariant_with_deletes_witness :
  within_capacity sample_world
  ∧ Forall request_checked mixed_requests
  ∧ within_capacity (run_requests sample_env mixed_requests sample_world).
Proof.
  assert (Hstart : within_capacity sample_world)
    by (apply empty_store_within_capacity; [reflexivity|apply sample_rooms_positive]).
  pose proof mixed_requests_checked as Hqs.
  split; [exact Hstart|]. split; [exact Hqs|].
  exact (capacity_invariant_with_deletes sample_env mixed_requests sample_world Hstart Hqs).
Defined.

Lemma controller_availability_answers_witness :
  Js.uuidRegex_test uuid_room = true
  ∧ "2030-01-01" ≠ ""
  ∧ getTime sample_env "2030-01-01" = Some 1893456000000%Z
  ∧ ∃ res,
      BookingControllerRest.checkRoomAvailability sample_env uuid_room (Some "2030-01-01")
        uuid_world = (res, uuid_world)
      ∧ av_status res = 200 ∧ av_success res = true.
Proof.
  assert (Hshape : Js.uuidRegex_test uuid_room = true) by (vm_compute; reflexivity).
  assert (Hdate : "2030-01-01" ≠ "") by discriminate.
  assert (Htime : getTime sample_env "2030-01-01" = Some 1893456000000%Z) by reflexivity.
  assert (Hroom : rooms uuid_world !! uuid_room = Some (mkRoom (Some 1%Z)))
    by (vm_compute; reflexivity).
  split; [exact Hshape|]. split; [exact Hdate|]. split; [exact Htime|].
  destruct (controller_availability_answers sample_env uuid_room "2030-01-01"
              1893456000000%Z uuid_world Hshape Hdate Htime) as (res & Hrun & Hres).
  rewrite Hroom in Hres. destruct Hres as (Hstatus & Hsuccess & _).
  exists res. split; [exact Hrun|]. split; [exact Hstatus|exact Hsuccess].
Defined.

Lemma getAllBookings_page_witness :
  (∀ l, sample_newest_first l ≡ₚ l)
  ∧ (1 ≤ 2)%Z ∧ (1 ≤ 2)%Z
  ∧ ∃ pg,
      BookingServiceRest.getAllBookings sample_newest_first 2 2 no_filters busy_world
      = (Success pg, busy_world)
      ∧ totalItems (pg_pagination pg) = 3
      ∧ length (pg_data pg) = 1.
Proof.
  assert (Hpage : (1 ≤ 2)%Z) by lia.
  split; [exact sample_newest_first_perm|]. split; [exact Hpage|]. split; [exact Hpage|].
  destruct (getAllBookings_page sample_newest_first 2 2 no_filters busy_world
              sample_newest_first_perm Hpage Hpage) as (pg & Hrun & Htotal & Hlength & _).
  exists pg. split; [exact Hrun|].
  assert (Hthree : totalItems (pg_pagination pg) = 3) by (rewrite Htotal; reflexivity).
  split; [exact Hthree|]. rewrite Hlength, Hthree. reflexivity.
Defined.

Lemma getAllBookings_pages_cover_witness :
  (∀ l, sample_newest_first l ≡ₚ l)
  ∧ (1 ≤ 2)%Z
  ∧ concat (map (λ page, page_rows
                           (BookingServiceRest.getAllBookings sample_newest_first
                              (Z.of_nat page) 2 no_filters busy_world))
                (seq 1 (Z.to_nat (BookingServiceRest.ceil_div
                                    (Z.of_nat (length (bookings busy_world))) 2))))
    = sample_newest_first (bookings busy_world).
Proof.
  assert (Hlimit : (1 ≤ 2)%Z) by lia.
  split; [exact sample_newest_first_perm|]. split; [exact Hlimit|].
  exact (getAllBookings_pages_cover sample_newest_first 2 no_filters busy_world
           sample_newest_first_perm Hlimit).
Defined.

Lemma getBookingsByUserId_rows_witness :
  (∀ l, sample_newest_first l ≡ₚ l)
  ∧ (1 ≤ 1)%Z ∧ (1 ≤ 2)%Z
  ∧ ∃ pg,
      BookingServiceRest.getBookingsByUserId sample_newest_first "U1" 1 2 busy_world
      = (Success pg, busy_world)
      ∧ totalItems (pg_pagination pg) = 3.
Proof.
  assert (Hpage : (1 ≤ 1)%Z) by lia.
  assert (Hlimit : (1 ≤ 2)%Z) by lia.
  split; [exact sample_newest_first_perm|]. split; [exact Hpage|]. split; [exact Hlimit|].
  destruct (getBookingsByUserId_rows sample_newest_first "U1" 1 2 busy_world
              sample_newest_first_perm Hpage Hlimit) as (pg & Hrun & Hgiven & _).
  exists pg. split; [exact Hrun|].
  assert (Huser : "U1" ≠ "") by discriminate.
  destruct (Hgiven Huser) as [-> _]. vm_compute. reflexivity.
Defined.

Lemma getBookingsByDateRange_rows_witness :
  (∀ l, sample_by_date l ≡ₚ l)
  ∧ (1 ≤ 1)%Z ∧ (1 ≤ 2)%Z
  ∧ ∃ pg,
      BookingServiceRest.getBookingsByDateRange sample_by_date String.leb "2030-01-01"
        "2030-01-01" 1 2 busy_world = (Success pg, busy_world)
      ∧ totalItems (pg_pagination pg) = 2
      ∧ length (pg_data pg) ≤ 2.
Proof.
  assert (Hpage : (1 ≤ 1)%Z) by lia.
  assert (Hlimit : (1 ≤ 2)%Z) by lia.
  split; [exact sample_by_date_perm|]. split; [exact Hpage|]. split; [exact Hlimit|].
  destruct (getBookingsByDateRange_rows sample_by_date String.leb "2030-01-01" "2030-01-01"
              1 2 busy_world sample_by_date_perm Hpage Hlimit)
    as (pg & Hrun & Htotal & _ & Hlength & _).
  exists pg. split; [exact Hrun|]. split; [|exact Hlength].
  rewrite Htotal. vm_compute. reflexivity.
Defined.

Lemma create_gate_exact_witness :
  ¬ well_formed_create sample_env stale_request
  ∧ BookingController.create_gate sample_env valid_batch_body = None
  ∧ well_formed_create sample_env valid_batch_body
  ∧ ∃ res, BookingController.createBooking sample_env stale_request busy_world
           = (res, busy_world)
           ∧ res_status res = 400 ∧ res_errors res = ["date cannot be in the past"].
Proof.
  assert (Hgate : BookingController.create_gate sample_env valid_batch_body = None)
    by (vm_compute; reflexivity).
  assert (Hstale : ¬ well_formed_create sample_env stale_request).
  { intros Hwf.
    apply (proj1 (create_gate_exact sample_env stale_request busy_world)) in Hwf.
    vm_compute in Hwf. discriminate Hwf. }
  split; [exact Hstale|]. split; [exact Hgate|]. split.
  - exact (proj1 (proj1 (create_gate_exact sample_env valid_batch_body busy_world)) Hgate).
  - destruct (proj2 (create_gate_exact sample_env stale_request busy_world) Hstale)
      as (res & Hrun & Hstatus & _).
    exists res. split; [exact Hrun|]. split; [exact Hstatus|].
    vm_compute in Hrun. inversion Hrun. reflexivity.
Defined.

Lemma controller_creation_keeps_capacity_witness :
  within_capacity uuid_world
  ∧ one_spelling_per_day sample_env
      (map date (bookings uuid_world) ++ requested_dates valid_batch_body)
  ∧ length (bookings (snd (BookingController.createBooking sample_env valid_batch_body
                             uuid_world))) = 2
  ∧ within_capacity
      (snd (BookingController.createBooking sample_env valid_batch_body uuid_world))
  ∧ within_capacity_by_day sample_env
      (snd (BookingController.createBooking sample_env valid_batch_body uuid_world)).
Proof.
  pose proof uuid_world_within_capacity as Hinv.
  assert (Hone : one_spelling_per_day sample_env
                   (map date (bookings uuid_world) ++ requested_dates valid_batch_body))
    by exact two_sample_days.
  split; [exact Hinv|]. split; [exact Hone|].
  split; [vm_compute; reflexivity|].
  exact (controller_creation_keeps_capacity sample_env valid_batch_body uuid_world
           Hinv Hone).
Defined.

Lemma controller_update_keeps_capacity_witness :
  getTime sample_env "" = None
  ∧ (u_status move_to_second_day = Some "active"
     → u_room_id move_to_second_day ≠ None ∨ u_date move_to_second_day ≠ None)
  ∧ within_capacity busy_world
  ∧ (∃ b' w',
       BookingController.updateBooking sample_env (id booking_c) move_to_second_day
         busy_world
       = (BookingController.reply 200 true "Booking updated successfully" [] [b'], w')
       ∧ date b' = "2030-01-02" ∧ w' ≠ busy_world)
  ∧ within_capacity
      (snd (BookingController.updateBooking sample_env (id booking_c) move_to_second_day
              busy_world)).
Proof.
  assert (Hempty : getTime sample_env "" = None) by reflexivity.
  assert (Hactive : u_status move_to_second_day = Some "active"
                    → u_room_id move_to_second_day ≠ None
                      ∨ u_date move_to_second_day ≠ None)
    by discriminate.
  pose proof busy_world_within_capacity as Hinv.
  split; [exact Hempty|]. split; [exact Hactive|]. split; [exact Hinv|]. split.
  - eexists _, _. split; [vm_compute; reflexivity|]. split; [reflexivity|].
    intros Hsame. apply (f_equal bookings) in Hsame. vm_compute in Hsame.
    discriminate Hsame.
  - exact (controller_update_keeps_capacity sample_env (id booking_c) move_to_second_day
             busy_world Hempty Hactive Hinv).
Defined.

Lemma controller_create_answers_witness :
  BookingController.create_gate sample_env valid_batch_body = None
  ∧ (∃ res w',
       BookingController.createBooking sample_env valid_batch_body uuid_world = (res, w')
       ∧ res_status res = 201
       ∧ map date (res_data res) = ["2030-01-01"; "2030-01-02"]
       ∧ bookings w' = bookings uuid_world ++ res_data res)
  ∧ ∃ res,
      BookingController.createBooking sample_env valid_batch_body
        (Db.insert [sample_booking missing_id uuid_room "2030-01-02" "active"] uuid_world)
      = (res, Db.insert [sample_booking missing_id uuid_room "2030-01-02" "active"]
                uuid_world)
      ∧ res_status res = 409.
Proof.
  assert (Hgate : BookingController.create_gate sample_env valid_batch_body = None)
    by (vm_compute; reflexivity).
  split; [exact Hgate|]. split.
  - destruct (controller_create_answers sample_env valid_batch_body uuid_world Hgate)
      as (res & w' & Hrun & Hcases).
    assert (Hroom : rooms uuid_world !! default "" (cb_room_id valid_batch_body)
                    = Some (mkRoom (Some 1%Z))) by (vm_compute; reflexivity).
    rewrite Hroom in Hcases. destruct Hcases as [Hfree _].
    destruct Hfree as (Hstatus & _ & Hrows & _ & Hdates & _); [vm_compute; reflexivity|].
    exists res, w'. split; [exact Hrun|]. split; [exact Hstatus|].
    split; [exact Hdates|exact Hrows].
  - set (w := Db.insert [sample_booking missing_id uuid_room "2030-01-02" "active"]
                uuid_world).
    destruct (controller_create_answers sample_env valid_batch_body w Hgate)
      as (res & w' & Hrun & Hcases).
    assert (Hroom : rooms w !! default "" (cb_room_id valid_batch_body)
                    = Some (mkRoom (Some 1%Z))) by (vm_compute; reflexivity).
    rewrite Hroom in Hcases. destruct Hcases as [_ Hfull].
    destruct Hfull as (Hstatus & _ & _ & ->); [vm_compute; discriminate|].
    exists res. split; [exact Hrun|exact Hstatus].
Defined.

Lemma non_numeric_price_is_stored_witness :
  Js.uuidRegex_test missing_id = true
  ∧ Js.uuidRegex_test uuid_room = true
  ∧ getTime sample_env "2030-01-01" = Some 1893456000000%Z
  ∧ (today sample_env ≤ 1893456000000)%Z
  ∧ toNumber sample_env "free" = None
  ∧ rooms uuid_world !! uuid_room = Some (mkRoom (Some 1%Z))
  ∧ spec_available uuid_world uuid_room "2030-01-01"
  ∧ ∃ b w',
      BookingController.createBooking sample_env
        (mkCreateBody (Some missing_id) (Some missing_id) (Some uuid_room)
           (Some "2030-01-01") None (Some (Js.Str "free")) None) uuid_world
      = (BookingController.reply 201 true "Booking created successfully" [] [b], w')
      ∧ price b = Js.Str "free"
      ∧ bookings w' = [b].
Proof.
  assert (Hid : Js.uuidRegex_test missing_id = true) by (vm_compute; reflexivity).
  assert (Hr : Js.uuidRegex_test uuid_room = true) by (vm_compute; reflexivity).
  assert (Hd : "2030-01-01" ≠ "") by discriminate.
  assert (Ht : getTime sample_env "2030-01-01" = Some 1893456000000%Z) by reflexivity.
  assert (Htoday : (today sample_env ≤ 1893456000000)%Z) by (vm_compute; discriminate).
  assert (Hs : "free" ≠ "") by discriminate.
  assert (Hnan : toNumber sample_env "free" = None) by reflexivity.
  assert (Hroom : rooms uuid_world !! uuid_room = Some (mkRoom (Some 1%Z)))
    by (vm_compute; reflexivity).
  assert (Hfree : spec_available uuid_world uuid_room "2030-01-01")
    by (vm_compute; reflexivity).
  split; [exact Hid|]. split; [exact Hr|]. split; [exact Ht|]. split; [exact Htoday|].
  split; [exact Hnan|]. split; [exact Hroom|]. split; [exact Hfree|].
  destruct (non_numeric_price_is_stored sample_env missing_id missing_id uuid_room
              "2030-01-01" "free" None 1893456000000%Z (mkRoom (Some 1%Z)) uuid_world
              Hid Hid Hr Hd Ht Htoday Hs Hnan Hroom Hfree)
    as (b & w' & Hrun & Hprice & _ & Hrows).
  exists b, w'. split; [exact Hrun|]. split; [exact Hprice|exact Hrows].
Defined.

Lemma non_numeric_price_update_witness :
  Js.uuidRegex_test (id booking_a) = true
  ∧ Db.by_id (id booking_a) busy_world = [booking_a]
  ∧ toNumber sample_env "free" = None
  ∧ ∃ b' w',
      BookingController.updateBooking sample_env (id booking_a)
        (mkUpdateData (Some (Js.Str "free")) None None None None) busy_world
      = (BookingController.reply 200 true "Booking updated successfully" [] [b'], w')
      ∧ price b' = Js.Str "free"
      ∧ Db.by_id (id booking_a) w' = [b'].
Proof.
  assert (Hid : Js.uuidRegex_test (id booking_a) = true) by (vm_compute; reflexivity).
  assert (Hfound : Db.by_id (id booking_a) busy_world = [booking_a])
    by (vm_compute; reflexivity).
  assert (Hnan : toNumber sample_env "free" = None) by reflexivity.
  split; [exact Hid|]. split; [exact Hfound|]. split; [exact Hnan|].
  destruct (non_numeric_price_update sample_env (id booking_a) "free" booking_a busy_world
              Hid Hfound Hnan) as (b' & w' & Hrun & Hprice & Hrow & _).
  exists b', w'. split; [exact Hrun|]. split; [exact Hprice|exact Hrow].
Defined.

Lemma two_spellings_book_one_night_twice_witness :
  "2030-01-01" ≠ "2030-01-01T00:00:00.000Z"
  ∧ getTime spelling_env "2030-01-01" = Some 1893456000000%Z
  ∧ getTime spelling_env "2030-01-01T00:00:00.000Z" = Some 1893456000000%Z
  ∧ rooms uuid_world !! uuid_room = Some (mkRoom (Some 1%Z))
  ∧ (∀ b, b ∈ bookings uuid_world → room_id b ≠ uuid_room)
  ∧ ∃ res w',
      BookingController.createBooking spelling_env
        (mkCreateBody (Some missing_id) (Some missing_id) (Some uuid_room) None
           (Some ["2030-01-01"; "2030-01-01T00:00:00.000Z"]) (Some (Js.Num 1000)) None)
        uuid_world = (res, w')
      ∧ res_status res = 201
      ∧ active_count_on_day spelling_env w' uuid_room 1893456000000 = 2
      ∧ capacity w' uuid_room = 1%Z.
Proof.
  assert (Hid : Js.uuidRegex_test missing_id = true) by (vm_compute; reflexivity).
  assert (Hr : Js.uuidRegex_test uuid_room = true) by (vm_compute; reflexivity).
  assert (Hne : "2030-01-01" ≠ "2030-01-01T00:00:00.000Z") by discriminate.
  assert (Ht1 : getTime spelling_env "2030-01-01" = Some 1893456000000%Z) by reflexivity.
  assert (Ht2 : getTime spelling_env "2030-01-01T00:00:00.000Z" = Some 1893456000000%Z)
    by reflexivity.
  assert (Htoday : (today spelling_env ≤ 1893456000000)%Z) by (vm_compute; discriminate).
  assert (Hq : (0 < 1000)%Q) by reflexivity.
  assert (Hroom : rooms uuid_world !! uuid_room = Some (mkRoom (Some 1%Z)))
    by (vm_compute; reflexivity).
  assert (Hnew : ∀ b, b ∈ bookings uuid_world → room_id b ≠ uuid_room).
  { intros b Hb. cbn in Hb. now apply elem_of_nil in Hb. }
  split; [exact Hne|]. split; [exact Ht1|]. split; [exact Ht2|]. split; [exact Hroom|].
  split; [exact Hnew|].
  destruct (two_spellings_book_one_night_twice spelling_env missing_id missing_id uuid_room
              "2030-01-01" "2030-01-01T00:00:00.000Z" 1000%Q None 1893456000000%Z
              (mkRoom (Some 1%Z)) uuid_world Hid Hid Hr Hne Ht1 Ht2 Htoday Hq Hroom
              eq_refl Hnew)
    as (res & w' & Hrun & Hstatus & _ & Hcap & Hday & _).
  exists res, w'. split; [exact Hrun|]. split; [exact Hstatus|].
  split; [exact Hday|exact Hcap].
Defined.

Lemma update_gate_exact_witness :
  BookingController.update_gate sample_env (id booking_a) reprice = None
  ∧ price_not_refused sample_env (Js.Num 1200)
  ∧ BookingController.update_gate sample_env (id booking_a)
      (mkUpdateData (Some (Js.Str "free")) None None None None) = None
  ∧ BookingController.update_gate sample_env (id booking_a) free_of_charge ≠ None.
Proof.
  assert (Hgate : BookingController.update_gate sample_env (id booking_a) reprice = None)
    by (vm_compute; reflexivity).
  split; [exact Hgate|]. split; [|split].
  - destruct (proj1 (update_gate_exact sample_env (id booking_a) reprice) Hgate)
      as (_ & Hprice & _).
    now apply Hprice.
  - apply (update_gate_exact sample_env). split; [vm_compute; reflexivity|].
    split; [|split; [discriminate|split; [discriminate|split; [discriminate|]]]].
    + intros p Hp. inversion Hp. cbn. discriminate.
    + intros (Hnone & _). discriminate Hnone.
  - intros Hnone.
    destruct (proj1 (update_gate_exact sample_env (id booking_a) free_of_charge) Hnone)
      as (_ & Hprice & _).
    specialize (Hprice (Js.Num 0) eq_refl). cbn in Hprice. now apply Qlt_irrefl in Hprice.
Defined.
